(** * Eager Python op generator (tensorflow/python/framework/python_op_gen.cc)

    A shallow embedding of [GenEagerPythonOp] and of the driver
    [GetPythonOpsImpl], together with a small semantics of the Python
    fragment emitted by [FlattenInputs] and [Unflatten].

    Generated text is a [string]; [StrAppend r [a; b; c]] is the C++
    [strings::StrAppend(&r, a, b, c)].  The unordered maps of the class are
    [gmap]s; [operator[]] on a map is a lookup that yields the empty string
    on a missing key (the default-inserted entry is never observable in any
    other way, since these maps are only read through [operator[]] and
    [find]).

    Element accesses that C++ leaves undefined (a vector or repeated field
    read past its end, a null [FindInputArg]/[FindAttr] result that is
    dereferenced) are totalised with the empty record: the schema loader
    keeps the ApiDef aligned with the OpDef, and the properties below that
    read such an element say so in their hypotheses.  [std::unordered_map::at]
    on a missing key throws; functions that use it return [option]. *)

From Stdlib Require Import String Ascii List Lia.
From stdpp Require Import base option list gmap strings pretty sorting.

(** ** Text primitives *)

Definition nl : string := String "010"%char EmptyString.
Definition dq : string := String "034"%char EmptyString.

Definition StrCat (pieces : list string) : string := foldr String.append "" pieces.

Definition StrAppend (result : string) (pieces : list string) : string :=
  result +:+ StrCat pieces.

(** [StrAppend] of an [int] prints it in decimal; every integer the
    generator prints is a container index or a count. *)
Definition Itoa (i : nat) : string := pretty i.

Definition empty (s : string) : bool :=
  match s with EmptyString => true | String _ _ => false end.

(** [absl::ConsumePrefix(&s, "_")] *)
Definition ConsumePrefix_underscore (s : string) : string :=
  match s with
  | String c rest => if Ascii.eqb c "_"%char then rest else s
  | EmptyString => s
  end.

(** [absl::StartsWith] *)
Definition StartsWith (s p : string) : bool := String.prefix p s.

(** [s.erase(pos)]: keep the first [pos] characters. *)
Definition erase_from (s : string) (pos : nat) : string := String.substring 0 pos s.

(** ** Schema model: OpDef and ApiDef *)

Definition DataType := nat.

(** An [AttrValue] message is identified with its serialised form; the
    generator only hands it to printing helpers. *)
Definition AttrValue := string.

Module ArgDef.
Record t := mk {
  name : string;
  type : DataType;
  type_attr : string;
  number_attr : string;
  type_list_attr : string;
  is_ref : bool
}.
Definition none : t := mk "" 0 "" "" "" false.
End ArgDef.

Module AttrDef.
Record t := mk {
  name : string;
  type : string;
  has_default_value : bool;
  allowed_values : list DataType
}.
Definition none : t := mk "" "" false [].
End AttrDef.

Module OpDef.
Record t := mk {
  name : string;
  input_arg : list ArgDef.t;
  output_arg : list ArgDef.t;
  attr : list AttrDef.t;
  is_stateful : bool
}.
End OpDef.

Module ApiDef.
Inductive Visibility := VISIBLE | SKIP | HIDDEN.

Record Arg := mkArg {
  arg_name : string;
  arg_rename_to : string
}.
Definition no_arg : Arg := mkArg "" "".

Record Attr := mkAttr {
  attr_name : string;
  attr_rename_to : string;
  has_default_value : bool;
  default_value : AttrValue
}.
Definition no_attr : Attr := mkAttr "" "" false "".

Record t := mk {
  visibility : Visibility;
  in_arg : list Arg;
  out_arg : list Arg;
  attr : list Attr;
  arg_order : list string
}.

Definition Visibility_eqb (a b : Visibility) : bool :=
  match a, b with
  | VISIBLE, VISIBLE | SKIP, SKIP | HIDDEN, HIDDEN => true
  | _, _ => false
  end.
End ApiDef.

#[global] Instance ArgDef_inhabited : Inhabited ArgDef.t := populate ArgDef.none.
#[global] Instance AttrDef_inhabited : Inhabited AttrDef.t := populate AttrDef.none.
#[global] Instance ApiArg_inhabited : Inhabited ApiDef.Arg := populate ApiDef.no_arg.
#[global] Instance ApiAttr_inhabited : Inhabited ApiDef.Attr := populate ApiDef.no_attr.

(** [FindInputArg(name, op_def)], [FindInputArg(name, api_def)] and
    [FindAttr(name, op_def)]: the first entry with that name.  The generator
    dereferences the result unchecked. *)
Definition FindInputArg (name : string) (op_def : OpDef.t) : ArgDef.t :=
  default ArgDef.none
    (find (fun a => String.eqb (ArgDef.name a) name) (OpDef.input_arg op_def)).

Definition FindInputArg_api (name : string) (api_def : ApiDef.t) : ApiDef.Arg :=
  default ApiDef.no_arg
    (find (fun a => String.eqb (ApiDef.arg_name a) name) (ApiDef.in_arg api_def)).

Definition FindAttr (name : string) (op_def : OpDef.t) : AttrDef.t :=
  default AttrDef.none
    (find (fun a => String.eqb (AttrDef.name a) name) (OpDef.attr op_def)).

(** ** The generator object *)

(** [python_op_gen_internal::ParamNames]: the two accessors the generator
    uses. *)
Record ParamNames := {
  GetName : string;
  GetRenameTo : string
}.

#[global] Instance ParamNames_inhabited : Inhabited ParamNames :=
  populate {| GetName := ""; GetRenameTo := "" |}.

(** Fields of [GenPythonOp] (the base class) followed by those of
    [GenEagerPythonOp]. *)
Record Gen := mkGen {
  op_def_ : OpDef.t;
  api_def_ : ApiDef.t;
  function_name_ : string;
  add_type_annotations_ : bool;
  num_outs_ : nat;
  prelude_ : string;
  result_ : string;
  attrs_ : list string;
  param_names_ : list ParamNames;
  inferred_attrs_ : gmap string string;
  op_name_ : string;
  attr_to_args_ : gmap string (list nat);
  attr_expressions_ : gmap string string;
  params_no_default_ : list ParamNames;
  params_with_default_ : list (ParamNames * string)
}.

Definition with_result_ (r : string) (g : Gen) : Gen :=
  mkGen (op_def_ g) (api_def_ g) (function_name_ g) (add_type_annotations_ g)
    (num_outs_ g) (prelude_ g) r (attrs_ g) (param_names_ g)
    (inferred_attrs_ g) (op_name_ g) (attr_to_args_ g) (attr_expressions_ g)
    (params_no_default_ g) (params_with_default_ g).

Definition with_prelude_ (p : string) (g : Gen) : Gen :=
  mkGen (op_def_ g) (api_def_ g) (function_name_ g) (add_type_annotations_ g)
    (num_outs_ g) p (result_ g) (attrs_ g) (param_names_ g)
    (inferred_attrs_ g) (op_name_ g) (attr_to_args_ g) (attr_expressions_ g)
    (params_no_default_ g) (params_with_default_ g).

Definition with_attrs_ (a : list string) (g : Gen) : Gen :=
  mkGen (op_def_ g) (api_def_ g) (function_name_ g) (add_type_annotations_ g)
    (num_outs_ g) (prelude_ g) (result_ g) a (param_names_ g)
    (inferred_attrs_ g) (op_name_ g) (attr_to_args_ g) (attr_expressions_ g)
    (params_no_default_ g) (params_with_default_ g).

Definition with_param_names_ (p : list ParamNames) (g : Gen) : Gen :=
  mkGen (op_def_ g) (api_def_ g) (function_name_ g) (add_type_annotations_ g)
    (num_outs_ g) (prelude_ g) (result_ g) (attrs_ g) p
    (inferred_attrs_ g) (op_name_ g) (attr_to_args_ g) (attr_expressions_ g)
    (params_no_default_ g) (params_with_default_ g).

Definition with_inferred_attrs_ (m : gmap string string) (g : Gen) : Gen :=
  mkGen (op_def_ g) (api_def_ g) (function_name_ g) (add_type_annotations_ g)
    (num_outs_ g) (prelude_ g) (result_ g) (attrs_ g) (param_names_ g)
    m (op_name_ g) (attr_to_args_ g) (attr_expressions_ g)
    (params_no_default_ g) (params_with_default_ g).

Definition with_attr_to_args_ (m : gmap string (list nat)) (g : Gen) : Gen :=
  mkGen (op_def_ g) (api_def_ g) (function_name_ g) (add_type_annotations_ g)
    (num_outs_ g) (prelude_ g) (result_ g) (attrs_ g) (param_names_ g)
    (inferred_attrs_ g) (op_name_ g) m (attr_expressions_ g)
    (params_no_default_ g) (params_with_default_ g).

Definition with_attr_expressions_ (m : gmap string string) (g : Gen) : Gen :=
  mkGen (op_def_ g) (api_def_ g) (function_name_ g) (add_type_annotations_ g)
    (num_outs_ g) (prelude_ g) (result_ g) (attrs_ g) (param_names_ g)
    (inferred_attrs_ g) (op_name_ g) (attr_to_args_ g) m
    (params_no_default_ g) (params_with_default_ g).

Definition with_params_no_default_ (p : list ParamNames) (g : Gen) : Gen :=
  mkGen (op_def_ g) (api_def_ g) (function_name_ g) (add_type_annotations_ g)
    (num_outs_ g) (prelude_ g) (result_ g) (attrs_ g) (param_names_ g)
    (inferred_attrs_ g) (op_name_ g) (attr_to_args_ g) (attr_expressions_ g)
    p (params_with_default_ g).

Definition with_params_with_default_ (p : list (ParamNames * string)) (g : Gen) : Gen :=
  mkGen (op_def_ g) (api_def_ g) (function_name_ g) (add_type_annotations_ g)
    (num_outs_ g) (prelude_ g) (result_ g) (attrs_ g) (param_names_ g)
    (inferred_attrs_ g) (op_name_ g) (attr_to_args_ g) (attr_expressions_ g)
    (params_no_default_ g) p.

(** [strings::StrAppend(&result_, ...)] *)
Definition emit (pieces : list string) (g : Gen) : Gen :=
  with_result_ (StrAppend (result_ g) pieces) g.

(** [m[k]] on a [std::unordered_map<string, string>] *)
Definition at_or_empty (m : gmap string string) (k : string) : string :=
  default "" (m !! k).

(** ** Collaborators that are not part of this translation unit

    [WordWrap] comes from op_gen_lib; the reserved-word helpers, the
    value printers, the [ParamNames] constructor and the emitters of the
    base class [GenPythonOp] come from python_op_gen_internal.  Each
    emitter is the text the method appends to [result_] (for
    [AddOutputGlobals], to [prelude_]). *)
Class Internal := {
  WordWrap : string -> string -> nat -> string;
  IsPythonReserved : string -> bool;
  IsOpWithUnderscorePrefix : string -> bool;
  AvoidPythonReserved : string -> string;
  GenerateLowerCaseOpName : string -> string;
  AttrValueToPython : string -> AttrValue -> string -> string;
  DataTypeToPython : DataType -> string -> string;
  MakeParamNames : string -> string -> ParamNames;
  tensor_short_text : AttrValue -> string;
  list_tensor_short_text : AttrValue -> list string;
  AddExport : Gen -> string;
  AddDefLine : Gen -> string -> string -> string;
  AddDocStringDescription : Gen -> string;
  AddDocStringArgs : Gen -> string;
  AddDocStringInputs : Gen -> string;
  AddDocStringAttrs : Gen -> string;
  AddDocStringNameArg : Gen -> string;
  AddOutputGlobals : Gen -> string;
  AddDocStringOutputs : Gen -> string;
  AddBodyNoReturn : Gen -> string -> string
}.

(** ** Free functions of the anonymous namespace *)

Definition kRightMargin : nat := 78.

Definition kEagerFallbackSuffix : string := "_eager_fallback".

(** Returns the variable name and, when a map is given, the map with the
    attribute bound to it. *)
Definition AttrVarName (attr_name : string)
    (attr_expressions : option (gmap string string))
  : string * option (gmap string string) :=
  let var := StrCat ["_attr_"; attr_name] in
  (var, (fun m => <[attr_name := var]> m) <$> attr_expressions).

Definition AddInferredAttr (indentation attr_name value_expression : string)
    (result : string) (attr_expressions : gmap string string)
  : string * gmap string string :=
  let '(var, m) := AttrVarName attr_name (Some attr_expressions) in
  (StrAppend result [indentation; var; " = "; value_expression; nl],
   default attr_expressions m).

Fixpoint VectorToTuple_loop (i : nat) (l : list string) (ret : string) : string :=
  match l with
  | [] => ret
  | x :: l' =>
      let ret := if 0 <? i then StrAppend ret [", "] else ret in
      VectorToTuple_loop (S i) l' (StrAppend ret [x])
  end.

Definition VectorToTuple (l : list string) : string :=
  match l with
  | [x] => StrCat ["("; x; ",)"]
  | _ => StrAppend (VectorToTuple_loop 0 l "(") [")"]
  end.

(** One iteration of the loop of [Unflatten]; [end_] is
    [output_sizes.size()]. *)
Definition Unflatten_step (prefix var : string) (end_ i : nat) (size : string)
    (result : string) : string :=
  if negb (empty size) then
    let result := StrAppend result [prefix; var; " = "] in
    let result :=
      if 0 <? i then StrAppend result [var; "[:"; Itoa i; "] + "] else result in
    let result :=
      if i + 1 <? end_ then
        if i =? 0 then
          StrAppend result ["["; var; "[:"; size; "]] + "; var; "["; size; ":]"]
        else
          StrAppend result ["["; var; "["; Itoa i; ":"; Itoa i; " + "; size;
                            "]] + "; var; "["; Itoa i; " + "; size; ":]"]
      else
        StrAppend result ["["; var; "["; Itoa i; ":]]"] in
    StrAppend result [nl]
  else result.

Fixpoint Unflatten_loop (prefix var : string) (end_ i : nat)
    (sizes : list string) (result : string) : string :=
  match sizes with
  | [] => result
  | size :: rest =>
      Unflatten_loop prefix var end_ (S i) rest
        (Unflatten_step prefix var end_ i size result)
  end.

Definition Unflatten (prefix : string) (output_sizes : list string)
    (var : string) (result : string) : string :=
  Unflatten_loop prefix var (length output_sizes) 0 output_sizes result.

(** Maps the Python name of a dtype to the Python DType class. *)
Definition dtype_type : list (string * string) :=
  [ ("_dtypes.float16", "_dtypes.Float16");
    ("_dtypes.half", "_dtypes.Half");
    ("_dtypes.float32", "_dtypes.Float32");
    ("_dtypes.float64", "_dtypes.Float64");
    ("_dtypes.bfloat16", "_dtypes.BFloat16");
    ("_dtypes.complex64", "_dtypes.Complex64");
    ("_dtypes.complex128", "_dtypes.Complex128");
    ("_dtypes.int8", "_dtypes.Int8");
    ("_dtypes.uint8", "_dtypes.UInt8");
    ("_dtypes.uint16", "_dtypes.UInt16");
    ("_dtypes.uint32", "_dtypes.UInt32");
    ("_dtypes.uint64", "_dtypes.UInt64");
    ("_dtypes.int16", "_dtypes.Int16");
    ("_dtypes.int32", "_dtypes.Int32");
    ("_dtypes.int64", "_dtypes.Int64");
    ("_dtypes.bool", "_dtypes.Bool");
    ("_dtypes.string", "_dtypes.String");
    ("_dtypes.qint8", "_dtypes.QInt8");
    ("_dtypes.quint8", "_dtypes.QUInt8");
    ("_dtypes.qint16", "_dtypes.QInt16");
    ("_dtypes.quint16", "_dtypes.QUInt16");
    ("_dtypes.qint32", "_dtypes.QInt32");
    ("_dtypes.resource", "_dtypes.Resource");
    ("_dtypes.variant", "_dtypes.Variant") ].

(** [dtype_type.at(k)] *)
Definition dtype_type_at (k : string) : option string :=
  snd <$> find (fun p => String.eqb (fst p) k) dtype_type.

(** The order of [operator<] on [std::string]. *)
Definition string_le (a b : string) : Prop := String.leb a b = true.

#[global] Instance string_le_dec : RelDecision string_le :=
  fun a b => decide (String.leb a b = true).

Inductive inputs_state_t := STARTING | WAS_LIST_INPUT | WAS_SOLO_INPUT.

Definition is_list_arg (arg : ArgDef.t) : bool :=
  negb (empty (ArgDef.type_list_attr arg)) || negb (empty (ArgDef.number_attr arg)).

Definition visible (g : Gen) : bool :=
  ApiDef.Visibility_eqb (ApiDef.visibility (api_def_ g)) ApiDef.VISIBLE.

(** ** Methods of GenEagerPythonOp *)

Section GenEagerPythonOp.
Context {internal : Internal}.

(** The base-class constructor is not part of the translation unit.
    Modelled from the spec: GenPythonOp's constructor stores its four
    arguments and the number of output arguments of the operation
    ("OutputSizePlan: for each output argument ..."); the remaining
    fields start empty.  The derived constructor strips one leading
    underscore from the function name to obtain [op_name_]. *)
Definition GenEagerPythonOp_new (op_def : OpDef.t) (api_def : ApiDef.t)
    (function_name : string) (add_type_annotations : bool) : Gen :=
  {| op_def_ := op_def; api_def_ := api_def;
     function_name_ := function_name;
     add_type_annotations_ := add_type_annotations;
     num_outs_ := length (OpDef.output_arg op_def);
     prelude_ := ""; result_ := "";
     attrs_ := []; param_names_ := []; inferred_attrs_ := ∅;
     op_name_ := ConsumePrefix_underscore function_name;
     attr_to_args_ := ∅; attr_expressions_ := ∅;
     params_no_default_ := []; params_with_default_ := [] |}.

(** [gtl::InsertIfNotPresent] followed by the append to
    [attr_to_args_]. *)
Definition AddAttrForArg (attr : string) (arg_index : nat) (g : Gen) : Gen :=
  let g :=
    match inferred_attrs_ g !! attr with
    | Some _ => g
    | None =>
        with_inferred_attrs_
          (<[attr := ArgDef.name (OpDef.input_arg (op_def_ g) !!! arg_index)]>
             (inferred_attrs_ g)) g
    end in
  match attr_to_args_ g !! attr with
  | None => with_attr_to_args_ (<[attr := [arg_index]]> (attr_to_args_ g)) g
  | Some args =>
      with_attr_to_args_ (<[attr := args ++ [arg_index]]> (attr_to_args_ g)) g
  end.

Definition FlattenInputs_step (g : Gen)
    (st : string * inputs_state_t * list string) (i : nat)
  : string * inputs_state_t * list string :=
  let '(inputs, inputs_state, output_sizes) := st in
  let arg := OpDef.input_arg (op_def_ g) !!! i in
  let is_list :=
    negb (empty (ArgDef.type_list_attr arg)) || negb (empty (ArgDef.number_attr arg)) in
  if is_list then
    let inputs :=
      match inputs_state with
      | WAS_SOLO_INPUT => StrAppend inputs ["] + "]
      | WAS_LIST_INPUT => StrAppend inputs [" + "]
      | STARTING => inputs
      end in
    let inputs :=
      StrAppend inputs ["list("; GetRenameTo (param_names_ g !!! i); ")"] in
    let size :=
      if negb (empty (ArgDef.number_attr arg)) then
        fst (AttrVarName (ArgDef.number_attr arg) None)
      else StrCat ["len("; GetRenameTo (param_names_ g !!! i); ")"] in
    (inputs, WAS_LIST_INPUT, output_sizes ++ [size])
  else
    let inputs :=
      match inputs_state with
      | WAS_SOLO_INPUT => StrAppend inputs [", "]
      | WAS_LIST_INPUT => StrAppend inputs [" + ["]
      | STARTING => StrAppend inputs ["["]
      end in
    let inputs := StrAppend inputs [GetRenameTo (param_names_ g !!! i)] in
    (inputs, WAS_SOLO_INPUT, output_sizes ++ [""]).

(** [input_indices = None] is the null pointer: all inputs.  The second
    component is what the call appends to [*output_sizes]; a caller that
    passes a null [output_sizes] drops it. *)
Definition FlattenInputs (g : Gen) (input_indices : option (list nat))
  : string * list string :=
  let indices :=
    match input_indices with
    | Some l => l
    | None => seq 0 (length (OpDef.input_arg (op_def_ g)))
    end in
  let '(inputs, inputs_state, output_sizes) :=
    foldl (FlattenInputs_step g) ("", STARTING, []) indices in
  match inputs_state with
  | STARTING => ("[]", output_sizes)
  | WAS_SOLO_INPUT => (StrAppend inputs ["]"], output_sizes)
  | WAS_LIST_INPUT => (inputs, output_sizes)
  end.

(** [type_annotations] of GetTypeAnnotations; [None] when [at] throws. *)
Definition GetArgAnnotation (arg : ArgDef.t)
    (type_annotations : gmap string string) : option string :=
  if negb (empty (ArgDef.type_attr arg)) then
    tv ← type_annotations !! ArgDef.type_attr arg;
    Some ("_ops.Tensor[" +:+ tv +:+ "]")
  else
    let py_dtype := DataTypeToPython (ArgDef.type arg) "_dtypes." in
    d ← dtype_type_at py_dtype;
    Some ("_ops.Tensor[" +:+ d +:+ "]").

Definition GetTypeAnnotations (g : Gen) : option (gmap string string) :=
  let type_annotations :=
    foldl (fun (m : gmap string string) attr =>
             let ty := AttrDef.type attr in
             if String.eqb ty "type" then
               <[AttrDef.name attr :=
                   "TV_" +:+ OpDef.name (op_def_ g) +:+ "_" +:+ AttrDef.name attr]> m
             else if String.eqb ty "bool" || String.eqb ty "float"
                     || String.eqb ty "int" || String.eqb ty "bytes" then
               <[AttrDef.name attr := ty]> m
             else if String.eqb ty "string" then
               <[AttrDef.name attr := "str"]> m
             else m)
          (∅ : gmap string string) (OpDef.attr (op_def_ g)) in
  type_annotations ←
    foldl (fun (om : option (gmap string string)) arg =>
             m ← om;
             if negb (empty (ArgDef.number_attr arg))
                || negb (empty (ArgDef.type_list_attr arg)) then Some m
             else
               a ← GetArgAnnotation arg m;
               Some (<[ArgDef.name arg := a]> m))
          (Some type_annotations) (OpDef.input_arg (op_def_ g));
  match OpDef.output_arg (op_def_ g) with
  | [arg] =>
      if empty (ArgDef.number_attr arg) && empty (ArgDef.type_list_attr arg) then
        a ← GetArgAnnotation arg type_annotations;
        Some (<[ArgDef.name arg := a]> type_annotations)
      else Some type_annotations
  | _ => Some type_annotations
  end.

(** [std::sort] on strings. *)
Definition sort_strings (l : list string) : list string :=
  merge_sort string_le l.

Fixpoint join_comma (l : list string) (acc : string) : string :=
  match l with
  | [] => acc
  | x :: l' =>
      let acc := if negb (empty acc) then StrAppend acc [", "] else acc in
      join_comma l' (StrAppend acc [x])
  end.

Fixpoint GenerateTypeVars_loop (type_annotations : gmap string string)
    (attrs : list AttrDef.t) (added_typevar : bool) (g : Gen)
  : option (bool * Gen) :=
  match attrs with
  | [] => Some (added_typevar, g)
  | attr :: rest =>
      if String.eqb (AttrDef.type attr) "type" then
        allowed_types ←
          mapM (fun t => dtype_type_at (DataTypeToPython t "_dtypes."))
               (AttrDef.allowed_values attr);
        let allowed_types :=
          if decide (allowed_types = []) then snd <$> dtype_type
          else allowed_types in
        let allowed_types := sort_strings allowed_types in
        let typevar_dtypes := join_comma allowed_types "" in
        type_var_name ← type_annotations !! AttrDef.name attr;
        GenerateTypeVars_loop type_annotations rest true
          (emit [type_var_name; " = TypeVar("; dq; type_var_name; dq; ", ";
                 typevar_dtypes; ")"; nl] g)
      else GenerateTypeVars_loop type_annotations rest added_typevar g
  end.

Definition GenerateTypeVars (type_annotations : gmap string string) (g : Gen)
  : option Gen :=
  r ← GenerateTypeVars_loop type_annotations (OpDef.attr (op_def_ g)) false g;
  let '(added_typevar, g) := r in
  Some (if (added_typevar : bool) then emit [nl] g else g).

Definition AddReturnTypeAnnotation (type_annotations : gmap string string)
    (g : Gen) : option Gen :=
  match OpDef.output_arg (op_def_ g) with
  | [arg] =>
      if empty (ArgDef.number_attr arg) && empty (ArgDef.type_list_attr arg) then
        return_type ← type_annotations !! ArgDef.name arg;
        let g :=
          with_result_
            (erase_from (result_ g) (String.length (result_ g) - 2)) g in
        Some (emit [" -> "; return_type; ":"; nl] g)
      else Some g
  | _ => Some g
  end.

Definition AddFallbackDispatch (prefix : string) (g : Gen) : Gen :=
  if negb (visible g) then g else
  let g := emit [prefix; "except (TypeError, ValueError):"; nl] g in
  let g := emit [prefix; "  _result = _dispatch.dispatch("; nl] g in
  let g :=
    emit [AddBodyNoReturn g
            (StrCat [prefix; "        "; function_name_ g; ", (), dict("])] g in
  let g := emit [prefix; "      )"; nl] g in
  let g :=
    emit [prefix; "  if _result is not _dispatch.OpDispatcher.NOT_SUPPORTED:"; nl] g in
  let g := emit [prefix; "    return _result"; nl] g in
  emit [prefix; "  raise"; nl] g.

Definition AddTypeBasedDispatcherAlias (g : Gen) : Gen :=
  if visible g then
    emit ["_dispatcher_for_"; function_name_ g; " = "; function_name_ g;
          "._tf_type_based_dispatcher.Dispatch"; nl] g
  else g.

Definition AddTypeBasedDispatch (prefix : string) (g : Gen) : Gen :=
  if negb (visible g) then g else
  let args :=
    foldl (fun args name => StrAppend args [GetRenameTo name; ", "])
          "(" (param_names_ g) in
  let args := StrAppend args ["name,), None"] in
  let g :=
    emit [prefix; "_result = "; "_dispatcher_for_"; function_name_ g; "("; nl;
          WordWrap (StrCat [prefix; "    "]) args kRightMargin; ")"; nl] g in
  emit [prefix; "if _result is not NotImplemented:"; nl;
        prefix; "  return _result"; nl] g.

Definition AddRawOpExport (parameters : string) (g : Gen) : Gen :=
  let raw_function_name := AvoidPythonReserved (OpDef.name (op_def_ g)) in
  emit [raw_function_name; " = tf_export("; dq; "raw_ops."; raw_function_name;
        dq; ")"; "(_ops.to_raw_op("; function_name_ g; "))"; nl] g.

(** The two [DCHECK_EQ]s are debug-only assertions and emit nothing. *)
Definition GetEagerNotAllowedError (g : Gen) : string :=
  let scan (args : list ArgDef.t) (api_args : list ApiDef.Arg)
           (st : bool * string) : bool * string :=
    foldl (fun (st : bool * string) i =>
             if ArgDef.is_ref (args !!! i)
             then (false, ApiDef.arg_rename_to (api_args !!! i))
             else st)
          st (seq 0 (length args)) in
  let st := scan (OpDef.input_arg (op_def_ g)) (ApiDef.in_arg (api_def_ g)) (true, "") in
  let '(eager_allowed, ref_arg) :=
    scan (OpDef.output_arg (op_def_ g)) (ApiDef.out_arg (api_def_ g)) st in
  if (eager_allowed : bool) then ""
  else StrCat ["raise RuntimeError("; dq; op_name_ g;
               " op does not support eager execution. "; "Arg '"; ref_arg;
               "' is a ref."; dq; ")"; nl].

Definition ExpectListArg (g : Gen) (indentation arg_name : string)
    (output : string) : string :=
  StrAppend output
    [indentation; "if not isinstance("; arg_name; ", (list, tuple)):"; nl;
     indentation; "  raise TypeError("; nl;
     indentation; "      "; dq; "Expected list for '"; arg_name;
     "' argument to "; dq; nl;
     indentation; "      "; dq; "'"; op_name_ g; "' Op, not %r."; dq; " % ";
     arg_name; ")"; nl].

(** Inner loop of the first part of GetEagerFunctionSetup: the arguments an
    inferred int attr is the length of.  [first] is
    [iter == arg_list->second.begin()]. *)
Fixpoint infer_length_attr (indentation attr_name : string) (first : bool)
    (arg_list : list nat) (function_setup : string) (g : Gen) : string * Gen :=
  match arg_list with
  | [] => (function_setup, g)
  | iter :: rest =>
      let arg_api_name := GetRenameTo (param_names_ g !!! iter) in
      let function_setup := ExpectListArg g indentation arg_api_name function_setup in
      if first then
        let '(function_setup, m) :=
          AddInferredAttr indentation attr_name
            (StrCat ["len("; arg_api_name; ")"]) function_setup
            (attr_expressions_ g) in
        infer_length_attr indentation attr_name false rest function_setup
          (with_attr_expressions_ m g)
      else
        let attr_var := at_or_empty (attr_expressions_ g) attr_name in
        let function_setup :=
          StrAppend function_setup
            [indentation; "if len("; arg_api_name; ") != "; attr_var; ":"; nl;
             indentation; "  raise ValueError("; nl;
             indentation; "      "; dq; "List argument '"; arg_api_name;
             "' to '"; op_name_ g; "' Op with length %d "; dq; nl;
             indentation; "      "; dq; "must match length %d of argument '";
             at_or_empty (inferred_attrs_ g) attr_name; "'."; dq; " %"; nl;
             indentation; "      (len("; arg_api_name; "), "; attr_var; "))"; nl] in
        infer_length_attr indentation attr_name false rest function_setup g
  end.

Definition validate_list_inputs (indentation : string)
    (function_setup : string) (g : Gen) : string * Gen :=
  foldl (fun (st : string * Gen) (attr : AttrDef.t) =>
           let '(function_setup, g) := st in
           if String.eqb (AttrDef.type attr) "int" then
             match attr_to_args_ g !! AttrDef.name attr with
             | Some arg_list =>
                 infer_length_attr indentation (AttrDef.name attr) true
                   arg_list function_setup g
             | None => st
             end
           else st)
        (function_setup, g) (OpDef.attr (op_def_ g)).

(** The chain of conversions on the attr kind; [None] is the final branch
    that gives up on the operation. *)
Definition convert_attr (indentation attr_api_name attr_type : string)
    (function_setup : string) : option string :=
  if String.eqb attr_type "string" then
    Some (StrAppend function_setup
            [indentation; attr_api_name; " = _execute.make_str("; attr_api_name;
             ", "; dq; attr_api_name; dq; ")"; nl])
  else if String.eqb attr_type "list(string)" then
    Some (StrAppend function_setup
            [indentation; attr_api_name; " = [_execute.make_str(_s, "; dq;
             attr_api_name; dq; ") for _s in "; attr_api_name; "]"; nl])
  else if String.eqb attr_type "int" then
    Some (StrAppend function_setup
            [indentation; attr_api_name; " = _execute.make_int("; attr_api_name;
             ", "; dq; attr_api_name; dq; ")"; nl])
  else if String.eqb attr_type "list(int)" then
    Some (StrAppend function_setup
            [indentation; attr_api_name; " = [_execute.make_int(_i, "; dq;
             attr_api_name; dq; ") for _i in "; attr_api_name; "]"; nl])
  else if String.eqb attr_type "float" then
    Some (StrAppend function_setup
            [indentation; attr_api_name; " = _execute.make_float("; attr_api_name;
             ", "; dq; attr_api_name; dq; ")"; nl])
  else if String.eqb attr_type "list(float)" then
    Some (StrAppend function_setup
            [indentation; attr_api_name; " = [_execute.make_float(_f, "; dq;
             attr_api_name; dq; ") for _f in "; attr_api_name; "]"; nl])
  else if String.eqb attr_type "bool" then
    Some (StrAppend function_setup
            [indentation; attr_api_name; " = _execute.make_bool("; attr_api_name;
             ", "; dq; attr_api_name; dq; ")"; nl])
  else if String.eqb attr_type "list(bool)" then
    Some (StrAppend function_setup
            [indentation; attr_api_name; " = [_execute.make_bool(_b, "; dq;
             attr_api_name; dq; ") for _b in "; attr_api_name; "]"; nl])
  else if String.eqb attr_type "type" then
    Some (StrAppend function_setup
            [indentation; attr_api_name; " = _execute.make_type("; attr_api_name;
             ", "; dq; attr_api_name; dq; ")"; nl])
  else if String.eqb attr_type "list(type)" then
    Some (StrAppend function_setup
            [indentation; attr_api_name; " = [_execute.make_type(_t, "; dq;
             attr_api_name; dq; ") for _t in "; attr_api_name; "]"; nl])
  else if String.eqb attr_type "shape" then
    Some (StrAppend function_setup
            [indentation; attr_api_name; " = _execute.make_shape("; attr_api_name;
             ", "; dq; attr_api_name; dq; ")"; nl])
  else if String.eqb attr_type "list(shape)" then
    Some (StrAppend function_setup
            [indentation; attr_api_name; " = [_execute.make_shape(_s, "; dq;
             attr_api_name; dq; ") for _s in "; attr_api_name; "]"; nl])
  else if String.eqb attr_type "tensor" then
    Some (StrAppend function_setup
            [indentation; attr_api_name; " = _execute.make_tensor("; attr_api_name;
             ", "; dq; attr_api_name; dq; ")"; nl])
  else if String.eqb attr_type "list(tensor)" then
    Some (StrAppend function_setup
            [indentation; attr_api_name; " = [_execute.make_tensor(_t, "; dq;
             attr_api_name; dq; ") for _t in "; attr_api_name; "]"; nl])
  else if negb (String.eqb attr_type "func")
          && negb (String.eqb attr_type "list(func)") then
    None
  else Some function_setup.

(** Second loop of GetEagerFunctionSetup, from index [i] on.
    [default_index] is computed in [int]; the sizes involved are far below
    the wrap-around, so it is the integer difference. *)
Fixpoint convert_attrs (indentation : string) (i : nat) (attrs : list string)
    (function_setup : string) (g : Gen) : bool * string * Gen :=
  match attrs with
  | [] => (true, function_setup, g)
  | attr_name :: rest =>
      let param := param_names_ g !!! (i + length (OpDef.input_arg (op_def_ g))) in
      let attr := FindAttr attr_name (op_def_ g) in
      let attr_api_name := GetRenameTo param in
      let attr_type := AttrDef.type attr in
      let g :=
        with_attr_expressions_
          (<[attr_name := attr_api_name]> (attr_expressions_ g)) g in
      let default_index :=
        (Z.of_nat i - (Z.of_nat (length (attrs_ g))
                       - Z.of_nat (length (params_with_default_ g))))%Z in
      let function_setup :=
        if (0 <=? default_index)%Z then
          let default_value :=
            snd (params_with_default_ g !!! Z.to_nat default_index) in
          let function_setup :=
            StrAppend function_setup
              [indentation; "if "; attr_api_name; " is None:"; nl] in
          StrAppend function_setup
            [indentation; "  "; attr_api_name; " = "; default_value; nl]
        else function_setup in
      let function_setup :=
        if StartsWith attr_type "list(" then
          ExpectListArg g indentation attr_api_name function_setup
        else function_setup in
      match convert_attr indentation attr_api_name attr_type function_setup with
      | Some function_setup =>
          convert_attrs indentation (S i) rest function_setup g
      | None =>
          (false,
           StrCat ["# No definition for "; function_name_ g;
                   " since we don't support attrs with type"; nl;
                   "# '"; attr_type; "' right now."; nl; nl],
           g)
      end
  end.

Definition GetEagerFunctionSetup (indentation : string)
    (function_setup : string) (g : Gen) : bool * string * Gen :=
  let '(function_setup, g) := validate_list_inputs indentation function_setup g in
  convert_attrs indentation 0 (attrs_ g) function_setup g.

Definition GetOutputSizes_step (g : Gen) (st : list string * string * nat)
    (i : nat) : list string * string * nat :=
  let '(output_sizes, num_outputs_expr, num_fixed_outputs) := st in
  let arg := OpDef.output_arg (op_def_ g) !!! i in
  if negb (empty (ArgDef.number_attr arg)) then
    let num_outputs_expr :=
      if negb (empty num_outputs_expr) then StrAppend num_outputs_expr [" + "]
      else num_outputs_expr in
    let output_sizes :=
      <[i := at_or_empty (attr_expressions_ g) (ArgDef.number_attr arg)]>
        output_sizes in
    (output_sizes, StrAppend num_outputs_expr [output_sizes !!! i],
     num_fixed_outputs)
  else if negb (empty (ArgDef.type_list_attr arg)) then
    let num_outputs_expr :=
      if negb (empty num_outputs_expr) then StrAppend num_outputs_expr [" + "]
      else num_outputs_expr in
    let output_sizes :=
      match inferred_attrs_ g !! ArgDef.type_list_attr arg with
      | None =>
          <[i := StrCat ["len(";
                         at_or_empty (attr_expressions_ g) (ArgDef.type_list_attr arg);
                         ")"]]> output_sizes
      | Some inferred => <[i := StrCat ["len("; inferred; ")"]]> output_sizes
      end in
    (output_sizes, StrAppend num_outputs_expr [output_sizes !!! i],
     num_fixed_outputs)
  else (output_sizes, num_outputs_expr, S num_fixed_outputs).

Definition GetOutputSizesAndNumOutputsExpr (output_sizes : list string)
    (num_outputs_expr : string) (g : Gen) : list string * string :=
  let '(output_sizes, num_outputs_expr, num_fixed_outputs) :=
    foldl (GetOutputSizes_step g) (output_sizes, num_outputs_expr, 0)
          (seq 0 (num_outs_ g)) in
  if 0 <? num_fixed_outputs then
    let num_outputs_expr :=
      if negb (empty num_outputs_expr) then StrAppend num_outputs_expr [" + "]
      else num_outputs_expr in
    (output_sizes, StrAppend num_outputs_expr [Itoa num_fixed_outputs])
  else if empty num_outputs_expr then (output_sizes, "0")
  else (output_sizes, num_outputs_expr).

Definition AddEagerFunctionTeardown (indentation : string)
    (output_sizes : list string) (execute_record_gradient : bool) (g : Gen)
  : Gen :=
  let g :=
    if 0 <? num_outs_ g then
      let g :=
        if execute_record_gradient then
          let g :=
            emit [indentation; "if _execute.must_record_gradient():"; nl] g in
          emit [indentation; "  _execute.record_gradient("; nl;
                "        "; dq; OpDef.name (op_def_ g); dq;
                ", _inputs_flat, _attrs, _result)"; nl] g
        else g in
      if (num_outs_ g =? 1) && negb (empty (output_sizes !!! 0)) then g
      else if num_outs_ g =? 1 then
        emit [indentation; "_result, = _result"; nl] g
      else
        let g :=
          with_result_ (Unflatten indentation output_sizes "_result" (result_ g)) g in
        emit [indentation; "_result = _";
              AvoidPythonReserved (OpDef.name (op_def_ g));
              "Output._make(_result)"; nl] g
    else emit [indentation; "_result = None"; nl] g in
  emit [indentation; "return _result"; nl; nl] g.

(** The tuple of attr values recorded for the gradient in graph mode. *)
Definition graph_attr_values (g : Gen) : string :=
  let attr_values :=
    foldl (fun (attr_values : string) i =>
             let attr_values :=
               if 0 <? i then StrAppend attr_values [", "] else attr_values in
             let attr := OpDef.attr (op_def_ g) !!! i in
             let attr_name := AttrDef.name attr in
             if String.eqb (AttrDef.type attr) "type" then
               StrAppend attr_values
                 [dq; attr_name; dq; ", _op._get_attr_type("; dq; attr_name; dq; ")"]
             else if String.eqb (AttrDef.type attr) "bool" then
               StrAppend attr_values
                 [dq; attr_name; dq; ", _op._get_attr_bool("; dq; attr_name; dq; ")"]
             else if String.eqb (AttrDef.type attr) "int" then
               StrAppend attr_values
                 [dq; attr_name; dq; ", _op._get_attr_int("; dq; attr_name; dq; ")"]
             else
               StrAppend attr_values
                 [dq; attr_name; dq; ", _op.get_attr("; dq; attr_name; dq; ")"])
          "" (seq 0 (length (OpDef.attr (op_def_ g)))) in
  StrAppend attr_values [")"].

(** [HandleGraphMode] is written in three blocks: the text up to and
    including the call of [_apply_op_helper]; the test of the special
    case; and the text that follows [_result = _outputs[:]] and the
    guard. *)
Definition after_apply_op (function_setup : string) (g : Gen) : Gen :=
  let g :=
    if visible g then AddTypeBasedDispatch "    " (emit ["  else:"; nl] g)
    else g in
  let g := emit ["  # Add nodes to the TensorFlow graph."; nl] g in
  let g := emit [function_setup] g in
  let g := if visible g then emit ["  try:"; nl; "  "] g else g in
  let g :=
    emit ["  _, _, _op, _outputs = _op_def_library._apply_op_helper("; nl] g in
  let g :=
    emit [AddBodyNoReturn g
            (StrCat ["        "; dq; OpDef.name (op_def_ g); dq; ", "])] g in
  AddFallbackDispatch "  " g.

(** Special case handling for stateful op with single list output that
    might be empty. *)
Definition single_list_output_guard (g : Gen) : bool :=
  (num_outs_ g =? 1) && OpDef.is_stateful (op_def_ g)
  && (negb (empty (ArgDef.number_attr (OpDef.output_arg (op_def_ g) !!! 0)))
      || negb (empty (ArgDef.type_list_attr (OpDef.output_arg (op_def_ g) !!! 0)))).

Definition graph_results (output_sizes : list string) (g : Gen) : Gen :=
  let g := emit ["  if _execute.must_record_gradient():"; nl] g in
  let g :=
    if 0 <? length (OpDef.attr (op_def_ g)) then
      emit [WordWrap "    _attrs = (" (graph_attr_values g) kRightMargin; nl] g
    else emit ["    _attrs = ()"; nl] g in
  let g := emit ["    _inputs_flat = _op.inputs"; nl] g in
  let g :=
    emit ["    _execute.record_gradient("; nl; "        "; dq;
          OpDef.name (op_def_ g); dq; ", _inputs_flat, _attrs, _result)"; nl] g in
  let g :=
    if (num_outs_ g =? 1) && negb (empty (output_sizes !!! 0)) then g
    else if num_outs_ g =? 1 then emit ["  "; "_result, = _result"; nl] g
    else
      let g :=
        with_result_ (Unflatten "  " output_sizes "_result" (result_ g)) g in
      emit ["  _result = _"; AvoidPythonReserved (OpDef.name (op_def_ g));
            "Output._make(_result)"; nl] g in
  emit ["  return _result"; nl; nl] g.

Definition HandleGraphMode (function_setup : string)
    (output_sizes : list string) (g : Gen) : Gen :=
  let g := after_apply_op function_setup g in
  if 0 <? num_outs_ g then
    let g := emit ["  _result = _outputs[:]"; nl] g in
    let g :=
      if single_list_output_guard g
      then emit ["  if not _result:"; nl; "    return _op"; nl] g
      else g in
    graph_results output_sizes g
  else emit ["  return _op"; nl] g.

(** The two parameter strings of [AddEagerFastPathExecute], as they are
    when the [try] is written: (fastpath_execute_params, fallback_params). *)
Definition fast_path_params (g : Gen) : string * string :=
  let fastpath_execute_params :=
    StrCat ["_ctx, "; dq; OpDef.name (op_def_ g); dq; ", "; "name"] in
  let fallback_params := "" in
  let '(fastpath_execute_params, fallback_params) :=
    foldl (fun (st : string * string) i =>
             let '(fastpath_execute_params, fallback_params) := st in
             let param_name := GetRenameTo (param_names_ g !!! i) in
             let fastpath_execute_params :=
               StrAppend fastpath_execute_params [", "; param_name] in
             let fallback_params :=
               if negb (empty fallback_params)
               then StrAppend fallback_params [", "] else fallback_params in
             (fastpath_execute_params, StrAppend fallback_params [param_name]))
          (fastpath_execute_params, fallback_params)
          (seq 0 (length (ApiDef.in_arg (api_def_ g)))) in
  let '(fastpath_execute_params, fallback_params) :=
    foldl (fun (st : string * string) (attr : ApiDef.Attr) =>
             let '(fastpath_execute_params, fallback_params) := st in
             match inferred_attrs_ g !! ApiDef.attr_name attr with
             | None =>
                 let fastpath_execute_params :=
                   StrAppend fastpath_execute_params
                     [", "; dq; ApiDef.attr_name attr; dq; ", ";
                      ApiDef.attr_rename_to attr] in
                 let fallback_params :=
                   if negb (empty fallback_params)
                   then StrAppend fallback_params [", "] else fallback_params in
                 (fastpath_execute_params,
                  StrAppend fallback_params
                    [ApiDef.attr_rename_to attr; "="; ApiDef.attr_rename_to attr])
             | Some _ => st
             end)
          (fastpath_execute_params, fallback_params)
          (ApiDef.attr (api_def_ g)) in
  let fallback_params :=
    if negb (empty fallback_params) then StrAppend fallback_params [", "]
    else fallback_params in
  (fastpath_execute_params, StrAppend fallback_params ["name=name"]).

(** The handlers that follow the fast-path [return]. *)
Definition fast_path_handlers (fallback_params : string) (g : Gen) : Gen :=
  let fallback_params :=
    if negb (empty fallback_params) then StrAppend fallback_params [", "]
    else fallback_params in
  let fallback_params := StrAppend fallback_params ["ctx=_ctx"] in
  let g := emit ["    "; "except _core._NotOkStatusException as e:"; nl] g in
  let g := emit ["      "; "_ops.raise_from_not_ok_status(e, name)"; nl] g in
  let g := emit ["    "; "except _core._FallbackException:"; nl] g in
  let g := emit ["      pass"; nl] g in
  let g := emit ["    try:"; nl] g in
  let g := AddTypeBasedDispatch "      " g in
  let g :=
    emit ["      "; "return "; function_name_ g; kEagerFallbackSuffix; "("; nl;
          WordWrap (StrCat ["          "]) (StrCat [fallback_params; ")"])
            kRightMargin;
          nl] g in
  let g := emit ["    except _core._SymbolicException:"; nl] g in
  let g := emit ["      pass  # Add nodes to the TensorFlow graph."; nl] g in
  AddFallbackDispatch "    " g.

Definition AddEagerFastPathExecute (g : Gen) : Gen :=
  let '(fastpath_execute_params, fallback_params) := fast_path_params g in
  let g := emit ["    try:"; nl] g in
  let g :=
    emit ["      "; "_result = pywrap_tfe.TFE_Py_FastPathExecute("; nl;
          WordWrap (StrCat ["        "]) (StrCat [fastpath_execute_params; ")"])
            kRightMargin;
          nl] g in
  let g :=
    if 1 <? length (OpDef.output_arg (op_def_ g)) then
      let output_tuple_name :=
        StrCat ["_"; AvoidPythonReserved (OpDef.name (op_def_ g)); "Output"] in
      emit ["      "; "_result = "; output_tuple_name; "._make(_result)"; nl] g
    else g in
  let g := emit ["      "; "return _result"; nl] g in
  fast_path_handlers fallback_params g.

Definition AddEagerInferredAttrs_step (indentation : string) (g : Gen)
    (i : nat) : Gen :=
  let attr := OpDef.attr (op_def_ g) !!! i in
  let api_def_attr := ApiDef.attr (api_def_ g) !!! i in
  match attr_to_args_ g !! AttrDef.name attr with
  | None => g
  | Some arg_list =>
      if String.eqb (AttrDef.type attr) "type" then
        let '(flattened, output_sizes) := FlattenInputs g (Some arg_list) in
        let conversion :=
          StrCat ["_execute.args_to_matching_eager("; flattened; ", ctx"] in
        let conversion := StrAppend conversion [", ["] in
        let conversion :=
          foldl (fun (conversion : string) t =>
                   StrAppend conversion [DataTypeToPython t "_dtypes."; ", "])
                conversion (AttrDef.allowed_values attr) in
        let conversion := StrAppend conversion ["]"] in
        let conversion :=
          if AttrDef.has_default_value attr then
            StrAppend conversion
              [", ";
               AttrValueToPython (AttrDef.type attr)
                 (ApiDef.default_value api_def_attr) "_dtypes."]
          else conversion in
        let conversion := StrAppend conversion [")"] in
        let '(var_name, m) :=
          AttrVarName (AttrDef.name attr) (Some (attr_expressions_ g)) in
        let g := with_attr_expressions_ (default (attr_expressions_ g) m) g in
        if length output_sizes =? 1 then
          let inputs_var := GetRenameTo (param_names_ g !!! (arg_list !!! 0)) in
          if empty (output_sizes !!! 0) then
            emit [indentation; var_name; ", ("; inputs_var; ",) = "; conversion; nl] g
          else
            emit [indentation; var_name; ", "; inputs_var; " = "; conversion; nl] g
        else
          let inputs_var := StrCat ["_inputs_"; AttrDef.name attr] in
          let g :=
            emit [indentation; var_name; ", "; inputs_var; " = "; conversion; nl] g in
          let g :=
            with_result_ (Unflatten indentation output_sizes inputs_var (result_ g)) g in
          let p := (fun j => GetRenameTo (param_names_ g !!! j)) <$> arg_list in
          emit [indentation; VectorToTuple p; " = "; inputs_var; nl] g
      else if String.eqb (AttrDef.type attr) "list(type)" then
        let '(var_name, m) :=
          AttrVarName (AttrDef.name attr) (Some (attr_expressions_ g)) in
        let g := with_attr_expressions_ (default (attr_expressions_ g) m) g in
        let '(inputs_var, conversion) :=
          if 1 <? length arg_list then
            let lists := (fun j => GetRenameTo (param_names_ g !!! j)) <$> arg_list in
            (VectorToTuple lists, "_execute.args_to_mixed_eager_tensors")
          else
            (GetRenameTo (param_names_ g !!! (arg_list !!! 0)),
             "_execute.convert_to_mixed_eager_tensors") in
        emit [indentation; var_name; ", "; inputs_var; " = "; conversion; "(";
              inputs_var; ", ctx)"; nl] g
      else g
  end.

Definition AddEagerInferredAttrs (indentation : string) (g : Gen) : Gen :=
  foldl (AddEagerInferredAttrs_step indentation) g
        (seq 0 (length (OpDef.attr (op_def_ g)))).

Definition AddEagerInputCasts (indentation : string) (g : Gen) : Gen :=
  foldl (fun (g : Gen) i =>
           let arg := OpDef.input_arg (op_def_ g) !!! i in
           if negb (empty (ArgDef.type_attr arg))
              || negb (empty (ArgDef.type_list_attr arg)) then g
           else
             let param := GetRenameTo (param_names_ g !!! i) in
             let fn := if empty (ArgDef.number_attr arg) then "" else "n_" in
             let dtype := DataTypeToPython (ArgDef.type arg) "_dtypes." in
             emit [indentation; param; " = _ops.convert_"; fn; "to_tensor(";
                   param; ", "; dtype; ")"; nl] g)
        g (seq 0 (length (OpDef.input_arg (op_def_ g)))).

Definition AddEagerAttrs (indentation : string) (g : Gen) : Gen :=
  if 0 <? length (OpDef.attr (op_def_ g)) then
    let attr_values :=
      foldl (fun (attr_values : string) i =>
               let attr_values :=
                 if 0 <? i then StrAppend attr_values [", "] else attr_values in
               let attr_name := AttrDef.name (OpDef.attr (op_def_ g) !!! i) in
               StrAppend attr_values
                 [dq; attr_name; dq; ", ";
                  at_or_empty (attr_expressions_ g) attr_name])
            "" (seq 0 (length (OpDef.attr (op_def_ g)))) in
    let attr_values := StrAppend attr_values [")"] in
    emit [WordWrap indentation (StrCat ["_attrs = ("; attr_values]) kRightMargin;
          nl] g
  else emit [indentation; "_attrs = None"; nl] g.

Definition AddEagerExecute (indentation num_outputs_expr : string) (g : Gen)
  : Gen :=
  let return_prefix := StrCat [indentation; "_result = _execute.execute("] in
  let return_args :=
    StrCat ["b"; dq; OpDef.name (op_def_ g); dq; ", "; num_outputs_expr;
            ", inputs=_inputs_flat, attrs=_attrs, ctx=ctx, name=name)"] in
  emit [WordWrap return_prefix return_args kRightMargin; nl] g.

(** [AddEagerFastPathAndGraphCode] up to and including the line
    [if tld.is_eager:]. *)
Definition function_head (parameters : string)
    (type_annotations : gmap string string) (g : Gen) : option Gen :=
  g ← (if add_type_annotations_ g then GenerateTypeVars type_annotations g
       else Some g);
  let g :=
    if visible g then
      let g := emit ["@_dispatch.add_fallback_dispatch_list"; nl] g in
      emit ["@_dispatch.add_type_based_api_dispatcher"; nl] g
    else g in
  let g := emit [AddExport g] g in
  let g := emit [AddDefLine g (function_name_ g) parameters] g in
  g ← (if add_type_annotations_ g then AddReturnTypeAnnotation type_annotations g
       else Some g);
  let g := emit [AddDocStringDescription g] g in
  let g := emit [AddDocStringArgs g] g in
  let g := emit [AddDocStringInputs g] g in
  let g := emit [AddDocStringAttrs g] g in
  let g := emit [AddDocStringNameArg g] g in
  let g := with_prelude_ (prelude_ g +:+ AddOutputGlobals g) g in
  let g := emit [AddDocStringOutputs g] g in
  let g := emit ["  "; dq; dq; dq; nl] g in
  Some (emit ["  _ctx = _context._context or _context.context()"; nl;
              "  tld = _ctx._thread_local_data"; nl;
              "  if tld.is_eager:"; nl] g).

(** The rest of [AddEagerFastPathAndGraphCode] once the graph-mode setup
    has been generated. *)
Definition graph_mode_and_exports (parameters function_setup : string)
    (output_sizes : list string) (g : Gen) : Gen :=
  let g := HandleGraphMode function_setup output_sizes g in
  let g := AddRawOpExport parameters g in
  let g := AddTypeBasedDispatcherAlias g in
  emit [nl; nl] g.

Definition AddEagerFastPathAndGraphCode (parameters : string)
    (output_sizes : list string) (eager_not_allowed_error : string)
    (type_annotations : gmap string string) (g : Gen) : option (bool * Gen) :=
  g ← function_head parameters type_annotations g;
  let g :=
    if empty eager_not_allowed_error then AddEagerFastPathExecute g
    else emit ["    "; eager_not_allowed_error] g in
  let '(ok, function_setup, g) := GetEagerFunctionSetup "  " "" g in
  if negb ok then Some (false, with_result_ function_setup g)
  else Some (true, graph_mode_and_exports parameters function_setup output_sizes g).

(** The body of the fallback function after its setup statements. *)
Definition fallback_body (function_setup num_outputs_expr : string)
    (output_sizes : list string) (g : Gen) : Gen :=
  let g := emit [function_setup] g in
  let g := AddEagerInferredAttrs "  " g in
  let g := AddEagerInputCasts "  " g in
  let g := emit ["  _inputs_flat = "; fst (FlattenInputs g None); nl] g in
  let g := AddEagerAttrs "  " g in
  let g := AddEagerExecute "  " num_outputs_expr g in
  AddEagerFunctionTeardown "  " output_sizes true g.

Definition AddEagerFallbackCode (parameters : string)
    (output_sizes : list string) (num_outputs_expr : string)
    (eager_not_allowed_error : string)
    (type_annotations : gmap string string) (g : Gen) : option (bool * Gen) :=
  let g :=
    emit [AddDefLine g (StrCat [function_name_ g; kEagerFallbackSuffix])
            (StrCat [parameters; if empty parameters then "" else ", "; "ctx"])] g in
  g ← (if add_type_annotations_ g then AddReturnTypeAnnotation type_annotations g
       else Some g);
  if negb (empty eager_not_allowed_error) then
    Some (true, emit ["  "; eager_not_allowed_error] g)
  else
    let '(ok, function_setup, g) := GetEagerFunctionSetup "  " "" g in
    if negb ok then Some (false, with_result_ function_setup g)
    else Some (true, fallback_body function_setup num_outputs_expr output_sizes g).

(** [TensorPBString] applied to the single-line text of the proto. *)
Definition TensorPBString (message_short_text : string) : string :=
  StrCat [dq; dq; dq; message_short_text; dq; dq; dq].

(** First loop of [Code]: one parameter per entry of [arg_order]. *)
Definition add_input_params (g : Gen) : Gen :=
  foldl (fun (g : Gen) i =>
           let arg := FindInputArg (ApiDef.arg_order (api_def_ g) !!! i) (op_def_ g) in
           let api_def_arg :=
             FindInputArg_api (ApiDef.arg_order (api_def_ g) !!! i) (api_def_ g) in
           let g :=
             with_params_no_default_
               (params_no_default_ g
                  ++ [MakeParamNames (ApiDef.arg_name api_def_arg)
                                     (ApiDef.arg_rename_to api_def_arg)]) g in
           let g :=
             if negb (empty (ArgDef.type_attr arg)) then
               AddAttrForArg (ArgDef.type_attr arg) i g
             else if negb (empty (ArgDef.type_list_attr arg)) then
               AddAttrForArg (ArgDef.type_list_attr arg) i g
             else g in
           if negb (empty (ArgDef.number_attr arg)) then
             AddAttrForArg (ArgDef.number_attr arg) i g
           else g)
        g (seq 0 (length (ApiDef.arg_order (api_def_ g)))).

(** Second loop of [Code]: the attrs that are not inferred. *)
Definition add_attr_params (g : Gen) : Gen :=
  foldl (fun (g : Gen) i =>
           let attr := OpDef.attr (op_def_ g) !!! i in
           let api_def_attr := ApiDef.attr (api_def_ g) !!! i in
           match inferred_attrs_ g !! AttrDef.name attr with
           | Some _ => g
           | None =>
               let names :=
                 MakeParamNames (ApiDef.attr_name api_def_attr)
                                (ApiDef.attr_rename_to api_def_attr) in
               if ApiDef.has_default_value api_def_attr then
                 if String.eqb (AttrDef.type attr) "tensor" then
                   with_params_with_default_
                     (params_with_default_ g
                        ++ [(names,
                             StrCat ["_execute.make_tensor(";
                                     TensorPBString
                                       (tensor_short_text (ApiDef.default_value api_def_attr));
                                     ", "; dq; ApiDef.attr_rename_to api_def_attr;
                                     dq; ")"])]) g
                 else if String.eqb (AttrDef.type attr) "list(tensor)" then
                   let pbtxt :=
                     TensorPBString
                       <$> list_tensor_short_text (ApiDef.default_value api_def_attr) in
                   with_params_with_default_
                     (params_with_default_ g
                        ++ [(names,
                             StrCat ["[_execute.make_tensor(_pb, "; dq;
                                     ApiDef.attr_rename_to api_def_attr; dq;
                                     ") for _pb in "; VectorToTuple pbtxt; "]"])]) g
                 else
                   with_params_with_default_
                     (params_with_default_ g
                        ++ [(names,
                             AttrValueToPython (AttrDef.type attr)
                               (ApiDef.default_value api_def_attr) "_dtypes.")]) g
               else
                 with_params_no_default_ (params_no_default_ g ++ [names]) g
           end)
        g (seq 0 (length (OpDef.attr (op_def_ g)))).

(** The two parameter lists of [Code]: (parameters, parameters_with_defaults). *)
Definition build_parameters (type_annotations : gmap string string) (g : Gen)
  : string * string :=
  let parameters :=
    foldl (fun (parameters : string) (param : ParamNames) =>
             let parameters :=
               if negb (empty parameters) then StrAppend parameters [", "]
               else parameters in
             let parameters := StrAppend parameters [GetRenameTo param] in
             match type_annotations !! GetName param with
             | Some annotation => StrAppend parameters [": "; annotation]
             | None => parameters
             end)
          "" (params_no_default_ g) in
  let parameters_with_defaults := parameters in
  let '(parameters, parameters_with_defaults) :=
    foldl (fun (st : string * string) (param_and_default : ParamNames * string) =>
             let '(parameters, parameters_with_defaults) := st in
             let parameters :=
               if negb (empty parameters) then StrAppend parameters [", "]
               else parameters in
             let parameters_with_defaults :=
               if negb (empty parameters_with_defaults)
               then StrAppend parameters_with_defaults [", "]
               else parameters_with_defaults in
             let parameters :=
               StrAppend parameters [GetRenameTo (fst param_and_default)] in
             let parameters_with_defaults :=
               StrAppend parameters_with_defaults
                 [GetRenameTo (fst param_and_default)] in
             let '(parameters, parameters_with_defaults) :=
               match type_annotations !! GetName (fst param_and_default) with
               | Some param_type =>
                   (StrAppend parameters [": "; param_type],
                    StrAppend parameters_with_defaults [":"; param_type])
               | None => (parameters, parameters_with_defaults)
               end in
             (parameters,
              StrAppend parameters_with_defaults ["="; snd param_and_default]))
          (parameters, parameters_with_defaults) (params_with_default_ g) in
  (StrAppend parameters [if empty parameters then "" else ", "; "name"],
   StrAppend parameters_with_defaults
     [if empty parameters_with_defaults then "" else ", "; "name=None"]).

(** Everything [Code] computes before it starts emitting text. *)
Definition Code_setup (g : Gen) : Gen :=
  let g := add_input_params g in
  let g := add_attr_params g in
  let g :=
    with_attrs_
      (attrs_ g
         ++ (GetName <$> drop (length (OpDef.input_arg (op_def_ g)))
                              (params_no_default_ g))) g in
  let g :=
    with_attrs_ (attrs_ g ++ ((fun p => GetName (fst p)) <$> params_with_default_ g)) g in
  with_param_names_
    (params_no_default_ g ++ (fst <$> params_with_default_ g)) g.

Definition add_attr_expressions (g : Gen) : Gen :=
  let g :=
    foldl (fun (g : Gen) i =>
             let attr_name := attrs_ g !!! i in
             let attr_api_name :=
               GetRenameTo
                 (param_names_ g !!! (i + length (OpDef.input_arg (op_def_ g)))) in
             with_attr_expressions_
               (<[attr_name := attr_api_name]> (attr_expressions_ g)) g)
          g (seq 0 (length (attrs_ g))) in
  foldl (fun (g : Gen) (attr : AttrDef.t) =>
           if String.eqb (AttrDef.type attr) "int" then
             match attr_to_args_ g !! AttrDef.name attr with
             | Some _ =>
                 with_attr_expressions_
                   (default (attr_expressions_ g)
                      (snd (AttrVarName (AttrDef.name attr)
                                        (Some (attr_expressions_ g))))) g
             | None => g
             end
           else g)
        g (OpDef.attr (op_def_ g)).

(** [None]: an [at] lookup threw while building type annotations. *)
Definition Code (g : Gen) : option string :=
  if ApiDef.Visibility_eqb (ApiDef.visibility (api_def_ g)) ApiDef.SKIP then
    Some ""
  else
    let g := Code_setup g in
    type_annotations ←
      (if add_type_annotations_ g then GetTypeAnnotations g else Some ∅);
    let '(parameters, parameters_with_defaults) :=
      build_parameters type_annotations g in
    let g := add_attr_expressions g in
    let '(output_sizes, num_outputs_expr) :=
      GetOutputSizesAndNumOutputsExpr (replicate (num_outs_ g) "") "" g in
    let eager_not_allowed_error := GetEagerNotAllowedError g in
    r ← AddEagerFastPathAndGraphCode parameters_with_defaults output_sizes
          eager_not_allowed_error type_annotations g;
    let '(ok, g) := r in
    if negb (ok : bool) then Some (result_ g)
    else
      r ← AddEagerFallbackCode parameters output_sizes num_outputs_expr
            eager_not_allowed_error type_annotations g;
      let '(ok, g) := r in
      if negb (ok : bool) then Some (result_ g)
      else Some (prelude_ g +:+ result_ g).

Definition GetEagerPythonOp (op_def : OpDef.t) (api_def : ApiDef.t)
    (function_name : string) (add_type_annotations : bool) : option string :=
  Code (GenEagerPythonOp_new op_def api_def function_name add_type_annotations).

(** ** The driver *)

Definition header (source_file_list : list string) : string :=
  let result :=
    StrAppend ""
      [dq; dq; dq; "Python wrappers around TensorFlow ops."; nl; nl;
       "This file is MACHINE GENERATED! Do not edit."; nl] in
  let result :=
    if decide (source_file_list = []) then result
    else
      StrAppend (StrAppend (StrAppend result ["Original C++ source file: "])
                   [String.concat ", " source_file_list]) [nl] in
  StrAppend result
    [dq; dq; dq; nl; nl;
     "import collections"; nl; nl;
     "from tensorflow.python import pywrap_tfe as pywrap_tfe"; nl;
     "from tensorflow.python.eager import context as _context"; nl;
     "from tensorflow.python.eager import core as _core"; nl;
     "from tensorflow.python.eager import execute as _execute"; nl;
     "from tensorflow.python.framework import dtypes as _dtypes"; nl; nl;
     "from tensorflow.python.framework import op_def_registry as _op_def_registry"; nl;
     "from tensorflow.python.framework import ops as _ops"; nl;
     "from tensorflow.python.framework import op_def_library as _op_def_library"; nl;
     "from tensorflow.python.util.deprecation import deprecated_endpoints"; nl;
     "from tensorflow.python.util import dispatch as _dispatch"; nl;
     "from tensorflow.python.util.tf_export import tf_export"; nl; nl;
     "from typing import TypeVar"; nl].

(** The name decision of one iteration of the driver's loop: [None] when
    the operation is passed over ([continue]), otherwise the function name
    handed to [GetEagerPythonOp]. *)
Definition choose_function_name (op_def : OpDef.t) (api_def : ApiDef.t)
    (hidden_ops : list string) : option string :=
  if ApiDef.Visibility_eqb (ApiDef.visibility api_def) ApiDef.SKIP then None
  else
    let is_hidden :=
      ApiDef.Visibility_eqb (ApiDef.visibility api_def) ApiDef.HIDDEN in
    let hidden_by_api_def := is_hidden in
    let is_hidden :=
      if negb is_hidden then
        existsb (fun hidden => String.eqb (OpDef.name op_def) hidden) hidden_ops
      else is_hidden in
    let function_name := GenerateLowerCaseOpName (OpDef.name op_def) in
    let is_reserved := IsPythonReserved function_name in
    if is_hidden then
      if negb hidden_by_api_def || is_reserved
         || IsOpWithUnderscorePrefix function_name
      then Some (StrCat ["_"; function_name])
      else Some function_name
    else if is_reserved then None
    else Some function_name.

Definition GetPythonOpsImpl_step (api_defs : string -> ApiDef.t)
    (hidden_ops : list string) (type_annotate_ops : gset string)
    (result : option string) (op_def : OpDef.t) : option string :=
  result ← result;
  let api_def := api_defs (OpDef.name op_def) in
  match choose_function_name op_def api_def hidden_ops with
  | None => Some result
  | Some function_name =>
      let add_type_annotations :=
        bool_decide (OpDef.name op_def ∈ type_annotate_ops) in
      code ← GetEagerPythonOp op_def api_def function_name add_type_annotations;
      Some (StrAppend result [code])
  end.

Definition GetPythonOpsImpl (ops : list OpDef.t) (api_defs : string -> ApiDef.t)
    (hidden_ops : list string) (source_file_list : list string)
    (type_annotate_ops : gset string) : option string :=
  foldl (GetPythonOpsImpl_step api_defs hidden_ops type_annotate_ops)
        (Some (header source_file_list)) ops.

End GenEagerPythonOp.

(** * The Python fragment written by FlattenInputs and Unflatten

    Two sorts of expressions: integer expressions (offsets and lengths) and
    list expressions.  [Slice x lo hi] is [x[lo:hi]] on a list variable;
    an omitted bound is [None]. *)

Module Py.

#[warnings="-register-all"] Inductive value :=
| Tensor (id : nat)
| Int (n : nat)
| List (vs : list value).

Inductive iexpr :=
| Num (n : nat)
| IVar (x : string)
| Len (x : string)
| Plus (a b : iexpr).

Inductive lexpr :=
| Display (xs : list string)
| ListOf (x : string)
| Slice (x : string) (lo hi : option iexpr)
| Single (e : lexpr)
| Concat (a b : lexpr).

Inductive stmt := Assign (x : string) (e : lexpr).

Abbreviation env := (gmap string value).

Fixpoint eval_i (ρ : env) (e : iexpr) : option nat :=
  match e with
  | Num n => Some n
  | IVar x => match ρ !! x with Some (Int n) => Some n | _ => None end
  | Len x => match ρ !! x with Some (List vs) => Some (length vs) | _ => None end
  | Plus a b => m ← eval_i ρ a; n ← eval_i ρ b; Some (m + n)
  end.

Definition eval_bound (ρ : env) (dflt : nat) (b : option iexpr) : option nat :=
  match b with
  | None => Some dflt
  | Some e => eval_i ρ e
  end.

Fixpoint eval_l (ρ : env) (e : lexpr) : option (list value) :=
  match e with
  | Display xs => mapM (fun x => ρ !! x) xs
  | ListOf x => match ρ !! x with Some (List vs) => Some vs | _ => None end
  | Slice x lo hi =>
      match ρ !! x with
      | Some (List vs) =>
          lo ← eval_bound ρ 0 lo;
          hi ← eval_bound ρ (length vs) hi;
          Some (take (hi - lo) (drop lo vs))
      | _ => None
      end
  | Single e => vs ← eval_l ρ e; Some [List vs]
  | Concat a b => u ← eval_l ρ a; v ← eval_l ρ b; Some (u ++ v)
  end.

Definition exec (ρ : env) (s : stmt) : option env :=
  match s with
  | Assign x e => vs ← eval_l ρ e; Some (<[x := List vs]> ρ)
  end.

Fixpoint exec_all (ρ : env) (ss : list stmt) : option env :=
  match ss with
  | [] => Some ρ
  | s :: rest => ρ' ← exec ρ s; exec_all ρ' rest
  end.

(** Concrete syntax. *)
Fixpoint print_i (e : iexpr) : string :=
  match e with
  | Num n => Itoa n
  | IVar x => x
  | Len x => StrCat ["len("; x; ")"]
  | Plus a b => StrCat [print_i a; " + "; print_i b]
  end.

Definition print_bound (b : option iexpr) : string :=
  match b with None => "" | Some e => print_i e end.

Fixpoint print_l (e : lexpr) : string :=
  match e with
  | Display xs => StrCat ["["; String.concat ", " xs; "]"]
  | ListOf x => StrCat ["list("; x; ")"]
  | Slice x lo hi => StrCat [x; "["; print_bound lo; ":"; print_bound hi; "]"]
  | Single e => StrCat ["["; print_l e; "]"]
  | Concat a b => StrCat [print_l a; " + "; print_l b]
  end.

Definition print_stmt (prefix : string) (s : stmt) : string :=
  match s with
  | Assign x e => StrCat [prefix; x; " = "; print_l e; nl]
  end.

Definition print_stmts (prefix : string) (ss : list stmt) : string :=
  StrCat (print_stmt prefix <$> ss).


(** Integer literals occurring in an offset. *)
Fixpoint literals (e : iexpr) : list nat :=
  match e with
  | Num n => [n]
  | IVar _ | Len _ => []
  | Plus a b => literals a ++ literals b
  end.

End Py.

(** ** Reading the generator's output as syntax *)

(** A length marker of [FlattenInputs]: empty for a single tensor, the
    variable of the count attr, or a [len] call on the parameter. *)
Inductive marker :=
| Solo
| AttrCount (attr_name : string)
| LenOf (param : string).

Definition marker_text (m : marker) : string :=
  match m with
  | Solo => ""
  | AttrCount a => fst (AttrVarName a None)
  | LenOf p => StrCat ["len("; p; ")"]
  end.

Definition marker_size (m : marker) : option Py.iexpr :=
  match m with
  | Solo => None
  | AttrCount a => Some (Py.IVar (fst (AttrVarName a None)))
  | LenOf p => Some (Py.Len p)
  end.

(** The variable a marker reads. *)
Definition marker_reads (m : marker) : option string :=
  match m with
  | Solo => None
  | AttrCount a => Some (fst (AttrVarName a None))
  | LenOf p => Some p
  end.

(** The statement [Unflatten] writes at index [i] for a list of length
    [size]. *)
Definition Unflatten_stmt (var : string) (end_ i : nat) (size : Py.iexpr) : Py.stmt :=
  Py.Assign var
    (if i + 1 <? end_ then
       if i =? 0 then
         Py.Concat (Py.Single (Py.Slice var None (Some size)))
                   (Py.Slice var (Some size) None)
       else
         Py.Concat
           (Py.Concat (Py.Slice var None (Some (Py.Num i)))
                      (Py.Single (Py.Slice var (Some (Py.Num i))
                                           (Some (Py.Plus (Py.Num i) size)))))
           (Py.Slice var (Some (Py.Plus (Py.Num i) size)) None)
     else if 0 <? i then
       Py.Concat (Py.Slice var None (Some (Py.Num i)))
                 (Py.Single (Py.Slice var (Some (Py.Num i)) None))
     else Py.Single (Py.Slice var (Some (Py.Num i)) None)).

Fixpoint Unflatten_stmts_from (var : string) (end_ i : nat) (ms : list marker)
  : list Py.stmt :=
  match ms with
  | [] => []
  | m :: rest =>
      match marker_size m with
      | Some size => [Unflatten_stmt var end_ i size]
      | None => []
      end ++ Unflatten_stmts_from var end_ (S i) rest
  end.

Definition Unflatten_stmts (var : string) (ms : list marker) : list Py.stmt :=
  Unflatten_stmts_from var (length ms) 0 ms.

(** The expression [FlattenInputs] writes: [done] is the concatenation
    closed so far, [cur] the names of the list display still open. *)
Definition close_display (done : option Py.lexpr) (cur : list string)
  : option Py.lexpr :=
  match cur with
  | [] => done
  | _ :: _ =>
      match done with
      | None => Some (Py.Display cur)
      | Some d => Some (Py.Concat d (Py.Display cur))
      end
  end.

Definition FlattenInputs_expr_step (g : Gen)
    (st : option Py.lexpr * list string) (i : nat)
  : option Py.lexpr * list string :=
  let '(done, cur) := st in
  let x := GetRenameTo (param_names_ g !!! i) in
  if is_list_arg (OpDef.input_arg (op_def_ g) !!! i) then
    match close_display done cur with
    | None => (Some (Py.ListOf x), [])
    | Some d => (Some (Py.Concat d (Py.ListOf x)), [])
    end
  else (done, cur ++ [x]).

Definition FlattenInputs_expr (g : Gen) (indices : list nat) : Py.lexpr :=
  let '(done, cur) := foldl (FlattenInputs_expr_step g) (None, []) indices in
  match close_display done cur with
  | None => Py.Display []
  | Some e => e
  end.

Definition input_marker (g : Gen) (i : nat) : marker :=
  let arg := OpDef.input_arg (op_def_ g) !!! i in
  if is_list_arg arg then
    if negb (empty (ArgDef.number_attr arg)) then AttrCount (ArgDef.number_attr arg)
    else LenOf (GetRenameTo (param_names_ g !!! i))
  else Solo.

Definition flatten_indices (g : Gen) (input_indices : option (list nat)) : list nat :=
  match input_indices with
  | Some l => l
  | None => seq 0 (length (OpDef.input_arg (op_def_ g)))
  end.

(** Call-time values of the arguments: one value, or a list of them. *)
Inductive arg_value :=
| One (v : Py.value)
| Many (vs : list Py.value).

Definition group (a : arg_value) : Py.value :=
  match a with One v => v | Many vs => Py.List vs end.

Definition spread (a : arg_value) : list Py.value :=
  match a with One v => [v] | Many vs => vs end.

Definition flat (args : list arg_value) : list Py.value :=
  concat (spread <$> args).

(** The flat sequence denoted by a regrouped one. *)
Definition regroup_flat (shape : list arg_value) (grouped : list Py.value)
  : list Py.value :=
  concat (zip_with (fun a v => match a, v with
                               | Many _, Py.List vs => vs
                               | _, _ => [v]
                               end) shape grouped).

(** * Text lemmas *)

Lemma append_cons (ch : ascii) (a b : string) :
  String ch a +:+ b = String ch (a +:+ b).
Proof. reflexivity. Qed.

Lemma append_assoc (a b c : string) : (a +:+ b) +:+ c = a +:+ (b +:+ c).
Proof.
  induction a as [|ch a IH]; [reflexivity |].
  rewrite !append_cons. f_equal. exact IH.
Qed.

Lemma append_nil_r (a : string) : a +:+ "" = a.
Proof.
  induction a as [|ch a IH]; [reflexivity |].
  rewrite append_cons. f_equal. exact IH.
Qed.

Lemma length_append (a b : string) :
  String.length (a +:+ b) = String.length a + String.length b.
Proof.
  induction a as [|ch a IH]; [reflexivity |].
  rewrite append_cons. simpl. f_equal. exact IH.
Qed.

Lemma StrCat_app (l1 l2 : list string) : StrCat (l1 ++ l2) = StrCat l1 +:+ StrCat l2.
Proof.
  induction l1 as [|x l1 IH]; [reflexivity |].
  change (StrCat ((x :: l1) ++ l2)) with (x +:+ StrCat (l1 ++ l2)).
  change (StrCat (x :: l1)) with (x +:+ StrCat l1).
  rewrite IH. symmetry. apply append_assoc.
Qed.

Lemma empty_true (s : string) : empty s = true <-> s = "".
Proof. destruct s; simpl; split; congruence. Qed.

Lemma empty_false (s : string) : empty s = false <-> s <> "".
Proof. destruct s; simpl; split; congruence. Qed.

Lemma empty_append (a b : string) : empty (a +:+ b) = empty a && empty b.
Proof. destruct a; reflexivity. Qed.

(** Right-nests appends; literal pieces are then compared by conversion. *)
Ltac str_norm :=
  unfold StrAppend, StrCat; cbn [foldr fmap list_fmap];
  rewrite ?append_assoc, ?append_nil_r.

Ltac str_eq := str_norm; reflexivity.

(** * Unflatten: the text is the printed statement list *)

Lemma print_stmts_cons (prefix : string) (s : Py.stmt) (ss : list Py.stmt) :
  Py.print_stmts prefix (s :: ss) = Py.print_stmt prefix s +:+ Py.print_stmts prefix ss.
Proof. reflexivity. Qed.

Lemma marker_text_nonempty (m : marker) (size : Py.iexpr) :
  marker_size m = Some size -> empty (marker_text m) = false.
Proof. destruct m; simpl; intros H; [discriminate | reflexivity | reflexivity]. Qed.

Lemma marker_size_print (m : marker) (size : Py.iexpr) :
  marker_size m = Some size -> Py.print_i size = marker_text m.
Proof. destruct m; simpl; intros H; inversion H; reflexivity. Qed.


Lemma Unflatten_step_sized (prefix var : string) (end_ i : nat) (m : marker)
    (size : Py.iexpr) (result : string) :
  marker_size m = Some size ->
  Unflatten_step prefix var end_ i (marker_text m) result
  = result +:+ Py.print_stmt prefix (Unflatten_stmt var end_ i size).
Proof.
  intros Hm. unfold Unflatten_step, Unflatten_stmt.
  rewrite (marker_text_nonempty m size Hm).
  rewrite <- (marker_size_print m size Hm).
  cbn [negb].
  destruct (i + 1 <? end_); destruct i as [|i];
    cbn [Nat.eqb Nat.ltb Nat.leb Py.print_stmt Py.print_l Py.print_bound Py.print_i];
    str_eq.
Qed.

Lemma Unflatten_loop_print (prefix var : string) (end_ : nat) (ms : list marker) :
  forall (i : nat) (result : string),
    Unflatten_loop prefix var end_ i (marker_text <$> ms) result
    = result +:+ Py.print_stmts prefix (Unflatten_stmts_from var end_ i ms).
Proof.
  induction ms as [|m ms IH]; intros i result.
  - symmetry. apply append_nil_r.
  - cbn [fmap list_fmap Unflatten_loop Unflatten_stmts_from].
    rewrite IH.
    destruct (marker_size m) as [size|] eqn:Hm.
    + rewrite (Unflatten_step_sized _ _ _ _ _ _ _ Hm).
      cbn [app]. rewrite print_stmts_cons. apply append_assoc.
    + destruct m; try discriminate. reflexivity.
Qed.

Lemma Unflatten_print (prefix var : string) (ms : list marker) (result : string) :
  Unflatten prefix (marker_text <$> ms) var result
  = result +:+ Py.print_stmts prefix (Unflatten_stmts var ms).
Proof.
  unfold Unflatten, Unflatten_stmts. rewrite length_fmap.
  apply Unflatten_loop_print.
Qed.

(** [Unflatten] only appends. *)
Lemma Unflatten_step_append (prefix var : string) (end_ i : nat) (size result : string) :
  Unflatten_step prefix var end_ i size result
  = result +:+ Unflatten_step prefix var end_ i size "".
Proof.
  unfold Unflatten_step.
  destruct (empty size); cbn [negb]; [symmetry; apply append_nil_r |].
  destruct (0 <? i), (i + 1 <? end_), (i =? 0); str_eq.
Qed.

Lemma Unflatten_loop_append (prefix var : string) (end_ : nat) (sizes : list string) :
  forall (i : nat) (result : string),
    Unflatten_loop prefix var end_ i sizes result
    = result +:+ Unflatten_loop prefix var end_ i sizes "".
Proof.
  induction sizes as [|size sizes IH]; intros i result.
  - symmetry. apply append_nil_r.
  - cbn [Unflatten_loop].
    rewrite IH, (IH _ (Unflatten_step _ _ _ _ _ "")).
    rewrite (Unflatten_step_append _ _ _ _ _ result).
    apply append_assoc.
Qed.

Lemma Unflatten_append (prefix var : string) (sizes : list string) (result : string) :
  Unflatten prefix sizes var result = result +:+ Unflatten prefix sizes var "".
Proof. apply Unflatten_loop_append. Qed.







(** * Unflatten: what the statements compute *)

Definition marker_fits (ρ : Py.env) (m : marker) (a : arg_value) : Prop :=
  match m, a with
  | Solo, One _ => True
  | AttrCount n, Many vs => ρ !! fst (AttrVarName n None) = Some (Py.Int (length vs))
  | LenOf p, Many vs => ρ !! p = Some (Py.List vs)
  | _, _ => False
  end.

Lemma marker_fits_size (ρ : Py.env) (m : marker) (vs : list Py.value) :
  marker_fits ρ m (Many vs) ->
  exists size, marker_size m = Some size /\ Py.eval_i ρ size = Some (length vs).
Proof.
  destruct m; simpl; intros H; [contradiction | |].
  - eexists; split; [reflexivity |]. simpl. now rewrite H.
  - eexists; split; [reflexivity |]. simpl. now rewrite H.
Qed.

Lemma marker_fits_insert (ρ : Py.env) (m : marker) (a : arg_value)
    (var : string) (v : Py.value) :
  marker_reads m <> Some var ->
  marker_fits ρ m a -> marker_fits (<[var := v]> ρ) m a.
Proof.
  destruct m, a; simpl; intros Hne H; try exact H;
    rewrite lookup_insert_ne; congruence.
Qed.

Lemma eval_slice (ρ : Py.env) (x : string) (l : list Py.value)
    (lo hi : option Py.iexpr) (lo' hi' : nat) :
  ρ !! x = Some (Py.List l) ->
  Py.eval_bound ρ 0 lo = Some lo' ->
  Py.eval_bound ρ (length l) hi = Some hi' ->
  Py.eval_l ρ (Py.Slice x lo hi) = Some (take (hi' - lo') (drop lo' l)).
Proof. intros Hx Hlo Hhi. simpl. rewrite Hx, Hlo. simpl. rewrite Hhi. reflexivity. Qed.

Lemma slice_prefix (ρ : Py.env) (x : string) (done rest : list Py.value)
    (hi : Py.iexpr) :
  ρ !! x = Some (Py.List (done ++ rest)) ->
  Py.eval_i ρ hi = Some (length done) ->
  Py.eval_l ρ (Py.Slice x None (Some hi)) = Some done.
Proof.
  intros Hx Hhi.
  rewrite (eval_slice ρ x _ None (Some hi) 0 (length done) Hx eq_refl Hhi).
  rewrite Nat.sub_0_r, drop_0, take_app_length. reflexivity.
Qed.

Lemma slice_middle (ρ : Py.env) (x : string) (done vs rest : list Py.value)
    (lo hi : Py.iexpr) :
  ρ !! x = Some (Py.List (done ++ vs ++ rest)) ->
  Py.eval_i ρ lo = Some (length done) ->
  Py.eval_i ρ hi = Some (length done + length vs) ->
  Py.eval_l ρ (Py.Slice x (Some lo) (Some hi)) = Some vs.
Proof.
  intros Hx Hlo Hhi.
  rewrite (eval_slice ρ x _ (Some lo) (Some hi) _ _ Hx Hlo Hhi).
  replace (length done + length vs - length done) with (length vs) by lia.
  now rewrite drop_app_length, take_app_length.
Qed.

Lemma slice_suffix (ρ : Py.env) (x : string) (done rest : list Py.value)
    (lo : Py.iexpr) :
  ρ !! x = Some (Py.List (done ++ rest)) ->
  Py.eval_i ρ lo = Some (length done) ->
  Py.eval_l ρ (Py.Slice x (Some lo) None) = Some rest.
Proof.
  intros Hx Hlo.
  rewrite (eval_slice ρ x _ (Some lo) None _ _ Hx Hlo eq_refl).
  rewrite drop_app_length. apply f_equal, take_ge. rewrite length_app. lia.
Qed.

Lemma eval_concat (ρ : Py.env) (a b : Py.lexpr) (u v : list Py.value) :
  Py.eval_l ρ a = Some u -> Py.eval_l ρ b = Some v ->
  Py.eval_l ρ (Py.Concat a b) = Some (u ++ v).
Proof. intros Ha Hb. simpl. now rewrite Ha, Hb. Qed.

Lemma eval_single (ρ : Py.env) (e : Py.lexpr) (vs : list Py.value) :
  Py.eval_l ρ e = Some vs -> Py.eval_l ρ (Py.Single e) = Some [Py.List vs].
Proof. intros He. simpl. now rewrite He. Qed.

Lemma eval_plus (ρ : Py.env) (a b : Py.iexpr) (m n : nat) :
  Py.eval_i ρ a = Some m -> Py.eval_i ρ b = Some n ->
  Py.eval_i ρ (Py.Plus a b) = Some (m + n).
Proof. intros Ha Hb. simpl. now rewrite Ha, Hb. Qed.

Lemma Unflatten_stmt_exec (ρ : Py.env) (var : string) (end_ i : nat)
    (size : Py.iexpr) (done vs rest : list Py.value) :
  ρ !! var = Some (Py.List (done ++ vs ++ rest)) ->
  length done = i ->
  Py.eval_i ρ size = Some (length vs) ->
  ((i + 1 <? end_) = false -> rest = []) ->
  Py.exec ρ (Unflatten_stmt var end_ i size)
  = Some (<[var := Py.List (done ++ Py.List vs :: rest)]> ρ).
Proof.
  intros Hvar Hlen Hsize Hlast.
  assert (Hi : Py.eval_i ρ (Py.Num i) = Some (length done))
    by (simpl; congruence).
  assert (Hend : Py.eval_i ρ (Py.Plus (Py.Num i) size) = Some (length done + length vs))
    by (apply eval_plus; assumption).
  assert (Hvar' : ρ !! var = Some (Py.List ((done ++ vs) ++ rest)))
    by (rewrite <- app_assoc; exact Hvar).
  assert (Hlen' : length (done ++ vs) = length done + length vs)
    by apply length_app.
  unfold Unflatten_stmt, Py.exec.
  destruct (i + 1 <? end_) eqn:Hmore.
  - destruct i as [|i].
    + apply nil_length_inv in Hlen. subst done. cbn [Nat.eqb].
      erewrite eval_concat;
        [ | apply eval_single; apply (slice_prefix ρ var vs rest); eassumption
          | apply (slice_suffix ρ var vs rest); eassumption ].
      reflexivity.
    + cbn [Nat.eqb].
      erewrite eval_concat;
        [ | apply eval_concat;
            [ apply (slice_prefix ρ var done (vs ++ rest)); eassumption
            | apply eval_single;
              apply (slice_middle ρ var done vs rest); eassumption ]
          | apply (slice_suffix ρ var (done ++ vs) rest);
            [ exact Hvar' | rewrite Hlen'; exact Hend ] ].
      simpl. now rewrite <- app_assoc.
  - specialize (Hlast eq_refl). subst rest. rewrite app_nil_r in Hvar.
    destruct i as [|i].
    + apply nil_length_inv in Hlen. subst done. cbn [Nat.ltb Nat.leb].
      erewrite eval_single;
        [ | apply (slice_suffix ρ var [] vs); [exact Hvar | exact Hi] ].
      reflexivity.
    + change (0 <? S i) with true. cbn iota.
      erewrite eval_concat;
        [ | apply (slice_prefix ρ var done vs); eassumption
          | apply eval_single; apply (slice_suffix ρ var done vs); eassumption ].
      reflexivity.
Qed.

Lemma flat_cons (a : arg_value) (args : list arg_value) :
  flat (a :: args) = spread a ++ flat args.
Proof. reflexivity. Qed.

Lemma marker_fits_insert_all (ρ : Py.env) (ms : list marker)
    (args : list arg_value) (var : string) (v : Py.value) :
  Forall (fun m => marker_reads m <> Some var) ms ->
  Forall2 (marker_fits ρ) ms args ->
  Forall2 (marker_fits (<[var := v]> ρ)) ms args.
Proof.
  intros Hfresh Hfit.
  induction Hfit as [|m a ms args Hm Hrest IH]; [constructor |].
  inversion Hfresh; subst.
  constructor; [apply marker_fits_insert; assumption | apply IH; assumption].
Qed.

Lemma Unflatten_stmts_from_exec (var : string) (end_ : nat) (ms : list marker) :
  forall (args : list arg_value) (i : nat) (done : list Py.value) (ρ : Py.env),
    Forall2 (marker_fits ρ) ms args ->
    Forall (fun m => marker_reads m <> Some var) ms ->
    length done = i ->
    end_ = i + length ms ->
    ρ !! var = Some (Py.List (done ++ flat args)) ->
    exists ρ',
      Py.exec_all ρ (Unflatten_stmts_from var end_ i ms) = Some ρ'
      /\ ρ' !! var = Some (Py.List (done ++ (group <$> args)))
      /\ forall x, x <> var -> ρ' !! x = ρ !! x.
Proof.
  induction ms as [|m ms IH]; intros args i done ρ Hfit Hfresh Hlen Hend Hvar.
  - inversion Hfit; subst. exists ρ. split; [reflexivity |]. split; [exact Hvar | reflexivity].
  - inversion Hfit as [|m' a ms' args' Hm Hrest]; subst.
    inversion Hfresh as [|m' ms' Hm_fresh Hrest_fresh]; subst.
    rewrite flat_cons in Hvar. cbn [Unflatten_stmts_from].
    destruct a as [v | vs].
    + destruct m; simpl in Hm; try contradiction.
      cbn [marker_size app].
      destruct (IH args' (S (length done)) (done ++ [v]) ρ) as (ρ' & Hexec & Hres & Hframe);
        try assumption.
      * rewrite length_app. simpl. lia.
      * simpl. lia.
      * rewrite <- app_assoc. exact Hvar.
      * exists ρ'. split; [exact Hexec |]. split; [| exact Hframe].
        rewrite Hres, <- app_assoc. reflexivity.
    + destruct (marker_fits_size ρ m vs Hm) as (size & Hsize & Heval).
      rewrite Hsize. cbn [app Py.exec_all].
      cbn [spread] in Hvar.
      rewrite (Unflatten_stmt_exec ρ var _ (length done) size done vs (flat args')
                 Hvar eq_refl Heval).
      2:{ intros Hlast. apply Nat.ltb_ge in Hlast.
          assert (ms = []) by (destruct ms; [reflexivity | simpl in Hlast; lia]).
          subst ms. inversion Hrest. reflexivity. }
      cbn [mbind option_bind].
      set (ρ1 := <[var := Py.List (done ++ Py.List vs :: flat args')]> ρ).
      destruct (IH args' (S (length done)) (done ++ [Py.List vs]) ρ1)
        as (ρ' & Hexec & Hres & Hframe).
      * apply marker_fits_insert_all; assumption.
      * exact Hrest_fresh.
      * rewrite length_app. simpl. lia.
      * simpl. lia.
      * unfold ρ1. rewrite lookup_insert_eq, <- app_assoc. reflexivity.
      * exists ρ'. split; [exact Hexec |]. split.
        -- rewrite Hres, <- app_assoc. reflexivity.
        -- intros x Hx. rewrite (Hframe x Hx). unfold ρ1.
           apply lookup_insert_ne. congruence.
Qed.

(** * FlattenInputs: the text is the printed expression *)

Lemma concat_snoc (cur : list string) (x : string) :
  cur <> [] ->
  String.concat ", " (cur ++ [x]) = String.concat ", " cur +:+ ", " +:+ x.
Proof.
  induction cur as [|a cur IH]; intros Hne; [congruence |].
  destruct cur as [|b cur]; [reflexivity |].
  change (String.concat ", " ((a :: b :: cur) ++ [x]))
    with (a +:+ ", " +:+ String.concat ", " ((b :: cur) ++ [x])).
  change (String.concat ", " (a :: b :: cur))
    with (a +:+ ", " +:+ String.concat ", " (b :: cur)).
  rewrite IH by congruence. now rewrite !append_assoc.
Qed.

Definition flatten_inv (inputs : string) (st : inputs_state_t)
    (done : option Py.lexpr) (cur : list string) : Prop :=
  match st with
  | STARTING => inputs = "" /\ done = None /\ cur = []
  | WAS_LIST_INPUT => cur = [] /\ exists d, done = Some d /\ inputs = Py.print_l d
  | WAS_SOLO_INPUT =>
      cur <> []
      /\ inputs = match done with
                  | None => ""
                  | Some d => Py.print_l d +:+ " + "
                  end +:+ "[" +:+ String.concat ", " cur
  end.

Lemma FlattenInputs_step_inv (g : Gen) (i : nat) (inputs : string)
    (st : inputs_state_t) (sizes : list string) (done : option Py.lexpr)
    (cur : list string) :
  flatten_inv inputs st done cur ->
  flatten_inv (FlattenInputs_step g (inputs, st, sizes) i).1.1
              (FlattenInputs_step g (inputs, st, sizes) i).1.2
              (FlattenInputs_expr_step g (done, cur) i).1
              (FlattenInputs_expr_step g (done, cur) i).2
  /\ (FlattenInputs_step g (inputs, st, sizes) i).2
     = sizes ++ [marker_text (input_marker g i)].
Proof.
  intros Hinv.
  unfold FlattenInputs_step, FlattenInputs_expr_step, input_marker.
  change (negb (empty (ArgDef.type_list_attr (OpDef.input_arg (op_def_ g) !!! i)))
          || negb (empty (ArgDef.number_attr (OpDef.input_arg (op_def_ g) !!! i))))
    with (is_list_arg (OpDef.input_arg (op_def_ g) !!! i)).
  destruct (is_list_arg (OpDef.input_arg (op_def_ g) !!! i)).
  - split.
    2:{ destruct (negb (empty (ArgDef.number_attr (OpDef.input_arg (op_def_ g) !!! i))));
        reflexivity. }
    destruct st; simpl in Hinv.
    + destruct Hinv as (-> & -> & ->). simpl. split; [reflexivity |].
      eexists; split; [reflexivity |]. simpl. str_eq.
    + destruct Hinv as (-> & d & -> & ->). simpl. split; [reflexivity |].
      eexists; split; [reflexivity |]. simpl. str_eq.
    + destruct Hinv as (Hne & ->).
      destruct cur as [|c cur]; [congruence |].
      destruct done as [d|]; simpl; (split; [reflexivity |]);
        (eexists; split; [reflexivity |]); simpl; str_eq.
  - split; [| reflexivity].
    destruct st; simpl in Hinv.
    + destruct Hinv as (-> & -> & ->). simpl. split; [congruence |]. str_eq.
    + destruct Hinv as (-> & d & -> & ->). simpl. split; [congruence |]. str_eq.
    + destruct Hinv as (Hne & ->). simpl.
      split; [destruct cur; simpl; congruence |].
      rewrite (concat_snoc cur _ Hne). destruct done; str_eq.
Qed.

Lemma FlattenInputs_fold_inv (g : Gen) (indices : list nat) :
  forall (inputs : string) (st : inputs_state_t) (sizes : list string)
         (done : option Py.lexpr) (cur : list string),
    flatten_inv inputs st done cur ->
    flatten_inv (foldl (FlattenInputs_step g) (inputs, st, sizes) indices).1.1
                (foldl (FlattenInputs_step g) (inputs, st, sizes) indices).1.2
                (foldl (FlattenInputs_expr_step g) (done, cur) indices).1
                (foldl (FlattenInputs_expr_step g) (done, cur) indices).2
    /\ (foldl (FlattenInputs_step g) (inputs, st, sizes) indices).2
       = sizes ++ (marker_text <$> (input_marker g <$> indices)).
Proof.
  induction indices as [|i indices IH]; intros inputs st sizes done cur Hinv.
  - simpl. split; [exact Hinv | now rewrite app_nil_r].
  - cbn [foldl].
    destruct (FlattenInputs_step_inv g i inputs st sizes done cur Hinv) as [Hstep Hsizes].
    destruct (FlattenInputs_step g (inputs, st, sizes) i) as [[inputs' st'] sizes'].
    destruct (FlattenInputs_expr_step g (done, cur) i) as [done' cur'].
    simpl in Hstep, Hsizes. subst sizes'.
    destruct (IH inputs' st' (sizes ++ [marker_text (input_marker g i)]) done' cur' Hstep)
      as [Hfold Hsz].
    split; [exact Hfold |].
    rewrite Hsz, <- app_assoc. reflexivity.
Qed.

Lemma FlattenInputs_print (g : Gen) (input_indices : option (list nat)) :
  FlattenInputs g input_indices
  = (Py.print_l (FlattenInputs_expr g (flatten_indices g input_indices)),
     marker_text <$> (input_marker g <$> flatten_indices g input_indices)).
Proof.
  unfold FlattenInputs, FlattenInputs_expr.
  fold (flatten_indices g input_indices).
  destruct (FlattenInputs_fold_inv g (flatten_indices g input_indices)
              "" STARTING [] None []) as [Hinv Hsizes];
    [simpl; auto |].
  destruct (foldl (FlattenInputs_step g) ("", STARTING, []) _) as [[inputs st] sizes].
  destruct (foldl (FlattenInputs_expr_step g) (None, []) _) as [done cur].
  simpl in Hinv, Hsizes. subst sizes.
  destruct st; simpl in Hinv.
  - destruct Hinv as (-> & -> & ->). reflexivity.
  - destruct Hinv as (-> & d & -> & ->). reflexivity.
  - destruct Hinv as (Hne & ->).
    destruct cur as [|c cur]; [congruence |].
    f_equal. destruct done; simpl; str_eq.
Qed.

(** * FlattenInputs: what the expression computes *)

(** Argument [i] is bound at call time to the value [a]: a single value for a
    single-tensor input, a list for a list input; when the length of a list
    input is a count attr, the attr variable holds that length (this is what
    the setup statements of GetEagerFunctionSetup establish). *)
Definition arg_bound (g : Gen) (ρ : Py.env) (i : nat) (a : arg_value) : Prop :=
  let arg := OpDef.input_arg (op_def_ g) !!! i in
  let x := GetRenameTo (param_names_ g !!! i) in
  match a with
  | One v => is_list_arg arg = false /\ ρ !! x = Some v
  | Many vs =>
      is_list_arg arg = true
      /\ ρ !! x = Some (Py.List vs)
      /\ (ArgDef.number_attr arg <> "" ->
          ρ !! fst (AttrVarName (ArgDef.number_attr arg) None)
          = Some (Py.Int (length vs)))
  end.

Lemma arg_bound_marker (g : Gen) (ρ : Py.env) (i : nat) (a : arg_value) :
  arg_bound g ρ i a -> marker_fits ρ (input_marker g i) a.
Proof.
  unfold arg_bound, input_marker. destruct a as [v | vs].
  - intros [-> _]. exact I.
  - intros (-> & Hx & Hn).
    destruct (empty (ArgDef.number_attr (OpDef.input_arg (op_def_ g) !!! i))) eqn:He;
      simpl.
    + exact Hx.
    + apply Hn. now apply empty_false.
Qed.

Definition eval_done (ρ : Py.env) (done : option Py.lexpr) : option (list Py.value) :=
  match done with
  | None => Some []
  | Some d => Py.eval_l ρ d
  end.

Lemma mapM_snoc (ρ : Py.env) (cur : list string) (x : string)
    (w : list Py.value) (v : Py.value) :
  mapM (fun x => ρ !! x) cur = Some w -> ρ !! x = Some v ->
  mapM (fun x => ρ !! x) (cur ++ [x]) = Some (w ++ [v]).
Proof.
  intros Hw Hv. apply mapM_Some. apply mapM_Some in Hw.
  apply Forall2_app; [exact Hw |]. constructor; [exact Hv | constructor].
Qed.

Lemma close_display_eval (ρ : Py.env) (done : option Py.lexpr)
    (cur : list string) (u w : list Py.value) :
  eval_done ρ done = Some u ->
  mapM (fun x => ρ !! x) cur = Some w ->
  eval_done ρ (close_display done cur) = Some (u ++ w).
Proof.
  intros Hu Hw. destruct cur as [|c cur].
  - simpl in Hw. inversion Hw. simpl. now rewrite app_nil_r.
  - destruct done as [d|]; cbn [close_display eval_done] in *.
    + apply eval_concat; assumption.
    + inversion Hu. exact Hw.
Qed.

Lemma FlattenInputs_expr_fold_eval (g : Gen) (ρ : Py.env) (indices : list nat) :
  forall (args : list arg_value) (done : option Py.lexpr) (cur : list string)
         (u w : list Py.value),
    Forall2 (arg_bound g ρ) indices args ->
    eval_done ρ done = Some u ->
    mapM (fun x => ρ !! x) cur = Some w ->
    exists u' w',
      eval_done ρ (foldl (FlattenInputs_expr_step g) (done, cur) indices).1 = Some u'
      /\ mapM (fun x => ρ !! x)
              (foldl (FlattenInputs_expr_step g) (done, cur) indices).2 = Some w'
      /\ u' ++ w' = (u ++ w) ++ flat args.
Proof.
  induction indices as [|i indices IH]; intros args done cur u w Hargs Hu Hw.
  - inversion Hargs; subst. exists u, w. simpl.
    split; [exact Hu |]. split; [exact Hw |]. now rewrite app_nil_r.
  - inversion Hargs as [|i' a indices' args' Ha Hrest]; subst.
    cbn [foldl]. unfold FlattenInputs_expr_step at 2 4.
    unfold arg_bound in Ha. rewrite flat_cons.
    destruct a as [v | vs].
    + destruct Ha as (-> & Hx).
      destruct (IH args' done (cur ++ [GetRenameTo (param_names_ g !!! i)]) u (w ++ [v])
                  Hrest Hu (mapM_snoc ρ cur _ w v Hw Hx)) as (u' & w' & H1 & H2 & H3).
      exists u', w'. split; [exact H1 |]. split; [exact H2 |].
      rewrite H3. simpl. now rewrite <- !app_assoc.
    + destruct Ha as (-> & Hx & _).
      pose proof (close_display_eval ρ done cur u w Hu Hw) as Hclose.
      assert (Hlist : Py.eval_l ρ (Py.ListOf (GetRenameTo (param_names_ g !!! i))) = Some vs)
        by (simpl; now rewrite Hx).
      destruct (close_display done cur) as [d|]; cbn [eval_done] in Hclose.
      * destruct (IH args' (Some (Py.Concat d (Py.ListOf (GetRenameTo (param_names_ g !!! i)))))
                    [] ((u ++ w) ++ vs) [] Hrest)
          as (u' & w' & H1 & H2 & H3);
          [cbn [eval_done]; apply eval_concat; assumption | reflexivity |].
        exists u', w'. split; [exact H1 |]. split; [exact H2 |].
        rewrite H3. simpl. now rewrite app_nil_r, <- !app_assoc.
      * inversion Hclose as [Huw].
        destruct (IH args' (Some (Py.ListOf (GetRenameTo (param_names_ g !!! i))))
                    [] vs [] Hrest)
          as (u' & w' & H1 & H2 & H3);
          [exact Hlist | reflexivity |].
        exists u', w'. split; [exact H1 |]. split; [exact H2 |].
        rewrite H3. simpl. now rewrite app_nil_r.
Qed.

Lemma FlattenInputs_expr_eval (g : Gen) (ρ : Py.env) (indices : list nat)
    (args : list arg_value) :
  Forall2 (arg_bound g ρ) indices args ->
  Py.eval_l ρ (FlattenInputs_expr g indices) = Some (flat args).
Proof.
  intros Hargs. unfold FlattenInputs_expr.
  destruct (FlattenInputs_expr_fold_eval g ρ indices args None [] [] [] Hargs
              eq_refl eq_refl) as (u & w & Hu & Hw & Huw).
  destruct (foldl (FlattenInputs_expr_step g) (None, []) indices) as [done cur].
  simpl in Hu, Hw, Huw.
  pose proof (close_display_eval ρ done cur u w Hu Hw) as Hclose.
  rewrite Huw in Hclose.
  destruct (close_display done cur) as [e|]; cbn [eval_done] in Hclose.
  - exact Hclose.
  - rewrite <- Hclose. reflexivity.
Qed.

Lemma regroup_flat_group (args : list arg_value) :
  regroup_flat args (group <$> args) = flat args.
Proof.
  unfold regroup_flat, flat.
  induction args as [|a args IH]; [reflexivity |].
  cbn [fmap list_fmap zip_with concat]. rewrite <- IH.
  destruct a as [v | vs]; [destruct v |]; reflexivity.
Qed.

(** * A closed instance of the collaborators

    Used by the examples below: the formatter leaves its text on one line,
    names are lower-cased character by character, the reserved words are
    Python keywords, and the base class writes a bare [def] line and the
    keyword arguments of a call. *)

Definition lower_ascii (c : ascii) : ascii :=
  let n := nat_of_ascii c in
  if (65 <=? n) && (n <=? 90) then ascii_of_nat (n + 32) else c.

Fixpoint lower (s : string) : string :=
  match s with
  | EmptyString => EmptyString
  | String c rest => String (lower_ascii c) (lower rest)
  end.

Definition python_keywords : list string :=
  ["and"; "as"; "assert"; "break"; "class"; "continue"; "def"; "del"; "elif";
   "else"; "except"; "finally"; "for"; "from"; "global"; "if"; "import"; "in";
   "is"; "lambda"; "not"; "or"; "pass"; "raise"; "return"; "try"; "while";
   "with"; "yield"].

Definition plain_internal : Internal := {|
  WordWrap := fun prefix str _ => prefix +:+ str;
  IsPythonReserved := fun s => existsb (String.eqb s) python_keywords;
  IsOpWithUnderscorePrefix := fun _ => false;
  AvoidPythonReserved := fun s => s;
  GenerateLowerCaseOpName := lower;
  AttrValueToPython := fun _ v _ => v;
  DataTypeToPython := fun _ prefix => prefix +:+ "float32";
  MakeParamNames := fun name rename_to => {| GetName := name; GetRenameTo := rename_to |};
  tensor_short_text := fun v => v;
  list_tensor_short_text := fun v => [v];
  AddExport := fun _ => "";
  AddDefLine := fun _ function_name parameters =>
                  StrCat ["def "; function_name; "("; parameters; "):"; nl];
  AddDocStringDescription := fun _ => "";
  AddDocStringArgs := fun _ => "";
  AddDocStringInputs := fun _ => "";
  AddDocStringAttrs := fun _ => "";
  AddDocStringNameArg := fun _ => "";
  AddOutputGlobals := fun _ => "";
  AddDocStringOutputs := fun _ => "";
  AddBodyNoReturn := fun _ apply_prefix => StrCat [apply_prefix; "name=name)"; nl]
|}.

(** The generator object as [Code] has prepared it, before any text is
    written. *)
Definition prepared {internal : Internal} (op_def : OpDef.t) (api_def : ApiDef.t)
    (function_name : string) : Gen :=
  add_attr_expressions
    (Code_setup (GenEagerPythonOp_new op_def api_def function_name false)).

(** An operation with two list inputs sharing the count attr [N], a single
    tensor between them, and a list output followed by a single one. *)
Definition pack2_op : OpDef.t :=
  OpDef.mk "Pack2"
    [ArgDef.mk "a" 0 "T" "N" "" false;
     ArgDef.mk "s" 3 "" "" "" false;
     ArgDef.mk "b" 0 "" "" "Ts" false]
    [ArgDef.mk "z" 0 "T" "N" "" false; ArgDef.mk "w" 0 "T" "" "" false]
    [AttrDef.mk "T" "type" false []; AttrDef.mk "N" "int" false [];
     AttrDef.mk "Ts" "list(type)" false []]
    true.

Definition pack2_api : ApiDef.t :=
  ApiDef.mk ApiDef.HIDDEN
    [ApiDef.mkArg "a" "a"; ApiDef.mkArg "s" "s"; ApiDef.mkArg "b" "b"]
    [ApiDef.mkArg "z" "z"; ApiDef.mkArg "w" "w"]
    [ApiDef.mkAttr "T" "T" false ""; ApiDef.mkAttr "N" "N" false "";
     ApiDef.mkAttr "Ts" "Ts" false ""]
    ["a"; "s"; "b"].

Definition pack2_env : Py.env :=
  <["a" := Py.List [Py.Tensor 1; Py.Tensor 2]]>
    (<["s" := Py.Tensor 3]>
       (<["b" := Py.List [Py.Tensor 4]]>
          (<["_attr_N" := Py.Int 2]> ∅))).

Definition pack2_args : list arg_value :=
  [Many [Py.Tensor 1; Py.Tensor 2]; One (Py.Tensor 3); Many [Py.Tensor 4]].

(** * Properties of the generator *)

(** ** C1 *)

(** C1 - Flatten/unflatten round trip.  For every selection of inputs and
    every assignment of call-time values of the matching shapes, the text
    returned by [FlattenInputs] is an expression whose value is the flat
    sequence of all values, the recorded length markers fed to [Unflatten]
    give statements that rebind a variable holding that flat sequence to the
    original grouping (one element per argument, at the argument's position),
    and spreading the groups again gives back the flat sequence. *)
Theorem flatten_unflatten_round_trip (g : Gen) (input_indices : option (list nat))
    (args : list arg_value) (ρ : Py.env) (prefix var : string) :
  Forall2 (arg_bound g ρ) (flatten_indices g input_indices) args ->
  Forall (fun i => marker_reads (input_marker g i) <> Some var)
         (flatten_indices g input_indices) ->
  (FlattenInputs g input_indices).1
  = Py.print_l (FlattenInputs_expr g (flatten_indices g input_indices))
  /\ Unflatten prefix (FlattenInputs g input_indices).2 var ""
     = Py.print_stmts prefix
         (Unflatten_stmts var (input_marker g <$> flatten_indices g input_indices))
  /\ Py.eval_l ρ (FlattenInputs_expr g (flatten_indices g input_indices))
     = Some (flat args)
  /\ exists ρ',
       Py.exec_all (<[var := Py.List (flat args)]> ρ)
         (Unflatten_stmts var (input_marker g <$> flatten_indices g input_indices))
       = Some ρ'
       /\ ρ' !! var = Some (Py.List (group <$> args))
       /\ length (group <$> args) = length (flatten_indices g input_indices)
       /\ regroup_flat args (group <$> args) = flat args.
Proof.
  intros Hargs Hfresh.
  set (indices := flatten_indices g input_indices) in *.
  set (ms := input_marker g <$> indices).
  assert (Hfresh' : Forall (fun m => marker_reads m <> Some var) ms)
    by (unfold ms; apply Forall_fmap; exact Hfresh).
  rewrite FlattenInputs_print. cbn [fst snd]. fold indices. fold ms.
  split; [reflexivity |].
  split; [apply (Unflatten_print prefix var ms "") |].
  split; [apply FlattenInputs_expr_eval; exact Hargs |].
  destruct (Unflatten_stmts_from_exec var (length ms) ms args 0 []
              (<[var := Py.List (flat args)]> ρ)) as (ρ' & Hexec & Hres & _).
  - apply marker_fits_insert_all; [exact Hfresh' |].
    unfold ms. apply Forall2_fmap_l.
    eapply Forall2_impl; [exact Hargs |].
    intros i a. apply arg_bound_marker.
  - exact Hfresh'.
  - reflexivity.
  - reflexivity.
  - apply lookup_insert_eq.
  - exists ρ'. split; [exact Hexec |]. split; [exact Hres |].
    split; [| apply regroup_flat_group].
    rewrite length_fmap. symmetry. eapply Forall2_length. exact Hargs.
Qed.

Lemma flatten_unflatten_round_trip_pack2 :
  (FlattenInputs (prepared (internal:=plain_internal) pack2_op pack2_api "pack2") None).1
  = "list(a) + [s] + list(b)"
  /\ Unflatten "  "
       (FlattenInputs (prepared (internal:=plain_internal) pack2_op pack2_api "pack2") None).2
       "_inputs_flat" ""
     = StrCat ["  _inputs_flat = [_inputs_flat[:_attr_N]] + _inputs_flat[_attr_N:]"; nl;
               "  _inputs_flat = _inputs_flat[:2] + [_inputs_flat[2:]]"; nl]
  /\ exists ρ',
       Py.exec_all
         (<["_inputs_flat" := Py.List (flat pack2_args)]> pack2_env)
         (Unflatten_stmts "_inputs_flat"
            (input_marker (prepared (internal:=plain_internal) pack2_op pack2_api "pack2")
               <$> [0; 1; 2]))
       = Some ρ'
       /\ ρ' !! "_inputs_flat" = Some (Py.List (group <$> pack2_args)).
Proof.
  destruct (flatten_unflatten_round_trip
              (prepared (internal:=plain_internal) pack2_op pack2_api "pack2") None
              pack2_args pack2_env "  " "_inputs_flat")
    as (H1 & H2 & _ & ρ' & H3 & H4 & _).
  - replace (flatten_indices _ None) with [0; 1; 2] by (vm_compute; reflexivity).
    unfold pack2_args.
    repeat (constructor; [vm_compute; repeat split; congruence |]). constructor.
  - replace (flatten_indices _ None) with [0; 1; 2] by (vm_compute; reflexivity).
    repeat (constructor; [vm_compute; congruence |]). constructor.
  - split; [rewrite H1; vm_compute; reflexivity |].
    split; [rewrite H2; vm_compute; reflexivity |].
    exists ρ'. split; [exact H3 | exact H4].
Defined.

(** ** C8 *)



(** ** C7 *)




Lemma concat_sep_snoc (sep : string) (l : list string) (x : string) :
  l <> [] ->
  String.concat sep (l ++ [x]) = String.concat sep l +:+ sep +:+ x.
Proof.
  induction l as [|a l IH]; intros Hne; [congruence |].
  destruct l as [|b l]; [reflexivity |].
  change (String.concat sep ((a :: b :: l) ++ [x]))
    with (a +:+ sep +:+ String.concat sep ((b :: l) ++ [x])).
  change (String.concat sep (a :: b :: l))
    with (a +:+ sep +:+ String.concat sep (b :: l)).
  rewrite IH by congruence. now rewrite !append_assoc.
Qed.

Lemma concat_sep_empty (sep : string) (l : list string) :
  Forall (fun t => t <> "") l ->
  empty (String.concat sep l) = true <-> l = [].
Proof.
  intros Hl. split; [| intros ->; reflexivity].
  destruct l as [|a l]; [reflexivity |].
  inversion Hl as [|a' l' Ha _]; subst.
  destruct l as [|b l]; simpl.
  - intros He. apply empty_true in He. contradiction.
  - rewrite empty_append. apply empty_false in Ha. rewrite Ha. discriminate.
Qed.







(** * Emitters only append

    [appends g g'] : [g'] is [g] with more text at the end of [result_]. *)

Definition appends (g g' : Gen) : Prop :=
  exists t, g' = with_result_ (result_ g +:+ t) g.

Lemma with_result_id (g : Gen) : with_result_ (result_ g) g = g.
Proof. destruct g; reflexivity. Qed.

Lemma appends_refl (g : Gen) : appends g g.
Proof. exists "". rewrite append_nil_r. symmetry. apply with_result_id. Qed.

Lemma appends_trans (g1 g2 g3 : Gen) : appends g1 g2 -> appends g2 g3 -> appends g1 g3.
Proof.
  intros [t1 ->] [t2 ->]. exists (t1 +:+ t2).
  cbn [result_ with_result_]. rewrite append_assoc. reflexivity.
Qed.

Lemma appends_emit (l : list string) (g : Gen) : appends g (emit l g).
Proof. exists (StrCat l). reflexivity. Qed.

Lemma appends_emit_r (l : list string) (g g' : Gen) :
  appends g g' -> appends g (emit l g').
Proof. intros H. eapply appends_trans; [exact H | apply appends_emit]. Qed.

Lemma appends_unflatten_r (prefix var : string) (sizes : list string) (g g' : Gen) :
  appends g g' ->
  appends g (with_result_ (Unflatten prefix sizes var (result_ g')) g').
Proof.
  intros H. eapply appends_trans; [exact H |].
  exists (Unflatten prefix sizes var ""). now rewrite Unflatten_append.
Qed.

Lemma result_emit (l : list string) (g : Gen) :
  result_ (emit l g) = result_ g +:+ StrCat l.
Proof. reflexivity. Qed.

Lemma appends_visible (g g' : Gen) : appends g g' -> visible g' = visible g.
Proof. intros [t ->]. reflexivity. Qed.

Section Appends.
Context {internal : Internal}.

Lemma appends_AddFallbackDispatch (prefix : string) (g : Gen) :
  appends g (AddFallbackDispatch prefix g).
Proof.
  unfold AddFallbackDispatch. destruct (negb (visible g)); [apply appends_refl |].
  repeat apply appends_emit_r. apply appends_refl.
Qed.

Lemma appends_AddTypeBasedDispatch (prefix : string) (g : Gen) :
  appends g (AddTypeBasedDispatch prefix g).
Proof.
  unfold AddTypeBasedDispatch. destruct (negb (visible g)); [apply appends_refl |].
  repeat apply appends_emit_r. apply appends_refl.
Qed.

Lemma appends_AddFallbackDispatch_r (prefix : string) (g g' : Gen) :
  appends g g' -> appends g (AddFallbackDispatch prefix g').
Proof. intros H. eapply appends_trans; [exact H | apply appends_AddFallbackDispatch]. Qed.

Lemma appends_AddTypeBasedDispatch_r (prefix : string) (g g' : Gen) :
  appends g g' -> appends g (AddTypeBasedDispatch prefix g').
Proof. intros H. eapply appends_trans; [exact H | apply appends_AddTypeBasedDispatch]. Qed.

Lemma appends_AddRawOpExport (parameters : string) (g : Gen) :
  appends g (AddRawOpExport parameters g).
Proof. apply appends_emit. Qed.

Lemma appends_AddTypeBasedDispatcherAlias (g : Gen) :
  appends g (AddTypeBasedDispatcherAlias g).
Proof.
  unfold AddTypeBasedDispatcherAlias.
  destruct (visible g); [apply appends_emit | apply appends_refl].
Qed.

End Appends.

Lemma appends_let (g v : Gen) (F : Gen -> Gen) :
  appends g v ->
  (forall x, appends g x -> appends g (F x)) ->
  appends g (let x := v in F x).
Proof. intros Hv HF. exact (HF v Hv). Qed.

(** Peels emitters off the right-hand side of an [appends] goal.  A
    let-bound generator is abstracted (with the fact that it appends), so
    that intermediate states are never copied. *)
Ltac appends_tac :=
  lazymatch goal with
  | H : appends ?g ?x |- appends ?g ?x => exact H
  | |- appends ?g ?g => apply appends_refl
  | |- appends _ (emit _ _) => apply appends_emit_r; appends_tac
  | |- appends _ (with_result_ (Unflatten _ _ _ (result_ _)) _) =>
      apply appends_unflatten_r; appends_tac
  | |- appends _ (AddFallbackDispatch _ _) =>
      apply appends_AddFallbackDispatch_r; appends_tac
  | |- appends _ (AddTypeBasedDispatch _ _) =>
      apply appends_AddTypeBasedDispatch_r; appends_tac
  | |- appends _ (if ?c then _ else _) => destruct c; appends_tac
  | |- appends ?a (let x := ?v in @?F x) =>
      first
        [ apply (appends_let a v F);
          [ appends_tac
          | let y := fresh "g" in
            let Hy := fresh "Hg" in
            intros y Hy; cbv beta; appends_tac ]
        | let t := eval cbv beta in (F v) in
          change (appends a t); appends_tac ]
  end.

Section GraphMode.
Context {internal : Internal}.

Lemma appends_after_apply_op (function_setup : string) (g : Gen) :
  appends g (after_apply_op function_setup g).
Proof. unfold after_apply_op. appends_tac. Qed.

Lemma appends_graph_results (output_sizes : list string) (g : Gen) :
  appends g (graph_results output_sizes g).
Proof. unfold graph_results. appends_tac. Qed.

End GraphMode.

Section Results.
Context {internal : Internal}.

Lemma appends_fast_path_handlers (fallback_params : string) (g : Gen) :
  appends g (fast_path_handlers fallback_params g).
Proof. unfold fast_path_handlers. appends_tac. Qed.

Lemma HandleGraphMode_eq (function_setup : string)
    (output_sizes : list string) (g : Gen) :
  HandleGraphMode function_setup output_sizes g
  = if 0 <? num_outs_ (after_apply_op function_setup g) then
      graph_results output_sizes
        (if single_list_output_guard
              (emit ["  _result = _outputs[:]"; nl] (after_apply_op function_setup g))
         then emit ["  if not _result:"; nl; "    return _op"; nl]
                (emit ["  _result = _outputs[:]"; nl] (after_apply_op function_setup g))
         else emit ["  _result = _outputs[:]"; nl] (after_apply_op function_setup g))
    else emit ["  return _op"; nl] (after_apply_op function_setup g).
Proof. reflexivity. Qed.

Lemma graph_results_head (output_sizes : list string) (g : Gen) :
  exists post,
    result_ (graph_results output_sizes g)
    = result_ g +:+ StrCat ["  if _execute.must_record_gradient():"; nl] +:+ post.
Proof.
  assert (Happ : appends (emit ["  if _execute.must_record_gradient():"; nl] g)
                         (graph_results output_sizes g))
    by (unfold graph_results; appends_tac).
  destruct Happ as [post ->]. exists post.
  cbn [result_ with_result_ emit]. str_eq.
Qed.

(** What the three bodies do with [_result] just before they return it. *)
Definition named_tuple_line (indentation : string) (g : Gen) : string :=
  StrCat [indentation; "_result = _"; AvoidPythonReserved (OpDef.name (op_def_ g));
          "Output._make(_result)"; nl].



(** C10 - the special case of graph mode.  For a stateful operation whose
    only output is a list (it has a [number_attr] or a [type_list_attr]),
    the graph-mode body tests the extracted outputs right after the node is
    built and returns the node [_op] itself when there are none; only then
    come the gradient bookkeeping and the normal return. *)
Theorem stateful_single_list_output_returns_op (function_setup : string)
    (output_sizes : list string) (g : Gen) (arg : ArgDef.t) :
  num_outs_ g = length (OpDef.output_arg (op_def_ g)) ->
  OpDef.output_arg (op_def_ g) = [arg] ->
  OpDef.is_stateful (op_def_ g) = true ->
  is_list_arg arg = true ->
  exists post,
    result_ (HandleGraphMode function_setup output_sizes g)
    = result_ (after_apply_op function_setup g)
      +:+ StrCat ["  _result = _outputs[:]"; nl;
                  "  if not _result:"; nl;
                  "    return _op"; nl;
                  "  if _execute.must_record_gradient():"; nl]
      +:+ post.
Proof.
  intros Hn Houts Hstateful Hlist.
  rewrite Houts in Hn. simpl in Hn.
  rewrite HandleGraphMode_eq.
  destruct (appends_after_apply_op function_setup g) as [t Ht].
  set (g1 := after_apply_op function_setup g) in *.
  assert (Hn1 : num_outs_ g1 = 1) by (rewrite Ht; exact Hn).
  assert (Hop1 : op_def_ g1 = op_def_ g) by (rewrite Ht; reflexivity).
  rewrite Hn1. cbn [Nat.ltb Nat.leb].
  assert (Hguard : single_list_output_guard (emit ["  _result = _outputs[:]"; nl] g1)
                   = true).
  { unfold single_list_output_guard. cbn [num_outs_ op_def_ emit with_result_].
    rewrite Hn1, Hop1, Hstateful, Houts.
    change ([arg] !!! 0) with arg. unfold is_list_arg in Hlist.
    rewrite orb_comm, Hlist. reflexivity. }
  rewrite Hguard.
  destruct (graph_results_head output_sizes
              (emit ["  if not _result:"; nl; "    return _op"; nl]
                 (emit ["  _result = _outputs[:]"; nl] g1))) as [post Hpost].
  exists post. rewrite Hpost, !result_emit. str_eq.
Qed.

Lemma fast_path_handlers_head (fallback_params : string) (g : Gen) :
  exists post,
    result_ (fast_path_handlers fallback_params g)
    = result_ g +:+ StrCat ["    except _core._NotOkStatusException as e:"; nl]
      +:+ post.
Proof.
  assert (Happ : appends (emit ["    "; "except _core._NotOkStatusException as e:"; nl] g)
                         (fast_path_handlers fallback_params g))
    by (unfold fast_path_handlers; appends_tac).
  destruct Happ as [post ->]. exists post.
  cbn [result_ with_result_ emit]. str_eq.
Qed.

Lemma fast_path_return (g : Gen) :
  exists post,
    result_ (AddEagerFastPathExecute g)
    = result_ g
      +:+ StrCat ["    try:"; nl;
                  "      _result = pywrap_tfe.TFE_Py_FastPathExecute("; nl;
                  WordWrap "        " (StrCat [(fast_path_params g).1; ")"]) kRightMargin;
                  nl]
      +:+ (if 1 <? length (OpDef.output_arg (op_def_ g))
           then named_tuple_line "      " g else "")
      +:+ StrCat ["      return _result"; nl;
                  "    except _core._NotOkStatusException as e:"; nl]
      +:+ post.
Proof.
  unfold AddEagerFastPathExecute.
  destruct (fast_path_params g) as [fastpath_execute_params fallback_params].
  cbv zeta. cbn [fst op_def_ emit with_result_].
  match goal with
  | |- context [fast_path_handlers _ ?x] =>
      destruct (fast_path_handlers_head fallback_params x) as [post Hpost];
      rewrite Hpost
  end.
  exists post. rewrite result_emit.
  destruct (1 <? length (OpDef.output_arg (op_def_ g)));
    rewrite !result_emit; unfold named_tuple_line;
    cbn [result_ op_def_ with_result_]; str_eq.
Qed.

(** The gradient bookkeeping at the start of the teardown. *)
Definition record_gradient_text (indentation : string)
    (execute_record_gradient : bool) (g : Gen) : string :=
  if execute_record_gradient then
    StrCat [indentation; "if _execute.must_record_gradient():"; nl;
            indentation; "  _execute.record_gradient("; nl;
            "        "; dq; OpDef.name (op_def_ g); dq;
            ", _inputs_flat, _attrs, _result)"; nl]
  else "".








End Results.

(** An operation with two inputs of one type and a single output. *)
Definition add_op : OpDef.t :=
  OpDef.mk "Add"
    [ArgDef.mk "x" 0 "T" "" "" false; ArgDef.mk "y" 0 "T" "" "" false]
    [ArgDef.mk "z" 0 "T" "" "" false]
    [AttrDef.mk "T" "type" false [1]]
    false.

Definition add_api : ApiDef.t :=
  ApiDef.mk ApiDef.VISIBLE
    [ApiDef.mkArg "x" "x"; ApiDef.mkArg "y" "y"] [ApiDef.mkArg "z" "z"]
    [ApiDef.mkAttr "T" "T" false ""] ["x"; "y"].


Lemma stateful_single_list_output_example :
  exists post,
    result_ (HandleGraphMode (internal:=plain_internal)
               (StrCat ["  N = _execute.make_int(N, "; dq; "N"; dq; ")"; nl])
               ["_attr_N"]
               (prepared (internal:=plain_internal)
                  (OpDef.mk "Unpack" [] [ArgDef.mk "out" 0 "" "N" "" false]
                            [AttrDef.mk "N" "int" false []] true)
                  (ApiDef.mk ApiDef.HIDDEN [] [ApiDef.mkArg "out" "out"]
                             [ApiDef.mkAttr "N" "N" false ""] [])
                  "unpack"))
    = StrCat ["  # Add nodes to the TensorFlow graph."; nl;
              "  N = _execute.make_int(N, "; dq; "N"; dq; ")"; nl;
              "  _, _, _op, _outputs = _op_def_library._apply_op_helper("; nl;
              "        "; dq; "Unpack"; dq; ", name=name)"; nl;
              "  _result = _outputs[:]"; nl;
              "  if not _result:"; nl;
              "    return _op"; nl;
              "  if _execute.must_record_gradient():"; nl]
      +:+ post.
Proof.
  destruct (stateful_single_list_output_returns_op
              (internal:=plain_internal)
              (StrCat ["  N = _execute.make_int(N, "; dq; "N"; dq; ")"; nl])
              ["_attr_N"]
              (prepared (internal:=plain_internal)
                 (OpDef.mk "Unpack" [] [ArgDef.mk "out" 0 "" "N" "" false]
                           [AttrDef.mk "N" "int" false []] true)
                 (ApiDef.mk ApiDef.HIDDEN [] [ApiDef.mkArg "out" "out"]
                            [ApiDef.mkAttr "N" "N" false ""] [])
                 "unpack")
              (ArgDef.mk "out" 0 "" "N" "" false)) as [post Hpost];
    try (vm_compute; reflexivity).
  exists post. rewrite Hpost, <- append_assoc. f_equal.
Defined.

(** ** C4 *)


Definition api_with (v : ApiDef.Visibility) : ApiDef.t := ApiDef.mk v [] [] [] [].


Section Driver.
Context {internal : Internal}.




End Driver.


(** ** C6 *)

(** Two list inputs [a] and [b] whose common length is the attr [N], and a
    single tensor [x]; in the schema [x] comes first, the ApiDef orders the
    parameters [a], [b], [x]. *)
Definition reordered_op : OpDef.t :=
  OpDef.mk "Reordered"
    [ArgDef.mk "x" 1 "" "" "" false;
     ArgDef.mk "a" 1 "" "N" "" false;
     ArgDef.mk "b" 1 "" "N" "" false]
    [] [AttrDef.mk "N" "int" false []] false.

Definition reordered_api : ApiDef.t :=
  ApiDef.mk ApiDef.HIDDEN
    [ApiDef.mkArg "x" "x"; ApiDef.mkArg "a" "a"; ApiDef.mkArg "b" "b"] []
    [ApiDef.mkAttr "N" "N" false ""] ["a"; "b"; "x"].

(** The same operation with the parameters in schema order. *)
Definition schema_order_api : ApiDef.t :=
  ApiDef.mk ApiDef.HIDDEN
    [ApiDef.mkArg "x" "x"; ApiDef.mkArg "a" "a"; ApiDef.mkArg "b" "b"] []
    [ApiDef.mkAttr "N" "N" false ""] ["x"; "a"; "b"].

Definition length_check (checked source : string) : string :=
  StrCat ["  if len("; checked; ") != _attr_N:"; nl;
          "    raise ValueError("; nl;
          "        "; dq; "List argument '"; checked;
          "' to 'reordered' Op with length %d "; dq; nl;
          "        "; dq; "must match length %d of argument '"; source; "'."; dq;
          " %"; nl;
          "        (len("; checked; "), _attr_N))"; nl].

Definition list_check (arg : string) : string :=
  StrCat ["  if not isinstance("; arg; ", (list, tuple)):"; nl;
          "    raise TypeError("; nl;
          "        "; dq; "Expected list for '"; arg; "' argument to "; dq; nl;
          "        "; dq; "'reordered' Op, not %r."; dq; " % "; arg; ")"; nl].

(** C6 on a reordered operation: [N] is inferred from [a] and checked
    against [b], but the message of the check names [x], the schema's
    argument at the position [a] has among the parameters.  In schema order
    the message names [a]. *)
Lemma length_check_names_wrong_argument :
  (GetEagerFunctionSetup "  " ""
     (prepared (internal:=plain_internal) reordered_op reordered_api "reordered")).1.2
  = StrCat [list_check "a"; "  _attr_N = len(a)"; nl;
            list_check "b"; length_check "b" "x"]
  /\ inferred_attrs_
       (prepared (internal:=plain_internal) reordered_op reordered_api "reordered")
     !! "N" = Some "x"
  /\ (GetEagerFunctionSetup "  " ""
        (prepared (internal:=plain_internal) reordered_op schema_order_api "reordered")).1.2
     = StrCat [list_check "a"; "  _attr_N = len(a)"; nl;
               list_check "b"; length_check "b" "a"].
Proof. repeat split; vm_compute; reflexivity. Qed.

(** * Loops over indices *)

Fixpoint foldli {A St : Type} (f : St -> nat -> A -> St) (i : nat) (st : St)
    (l : list A) : St :=
  match l with
  | [] => st
  | a :: rest => foldli f (S i) (f st i a) rest
  end.

Lemma foldl_seq_foldli_from {A St : Type} `{Inhabited A} (f : St -> nat -> A -> St)
    (l : list A) :
  forall (pre : list A) (st : St),
    foldl (fun st i => f st i ((pre ++ l) !!! i)) st (seq (length pre) (length l))
    = foldli f (length pre) st l.
Proof.
  induction l as [|a l IH]; intros pre st; [reflexivity |].
  cbn [length seq foldl foldli].
  rewrite (list_lookup_total_middle pre l a (length pre) eq_refl).
  specialize (IH (pre ++ [a]) (f st (length pre) a)).
  rewrite <- app_assoc in IH. cbn [app] in IH.
  rewrite length_app in IH. cbn [length] in IH.
  rewrite Nat.add_1_r in IH. exact IH.
Qed.

Lemma foldl_seq_foldli {A St : Type} `{Inhabited A} (f : St -> nat -> A -> St)
    (l : list A) (st : St) :
  foldl (fun st i => f st i (l !!! i)) st (seq 0 (length l)) = foldli f 0 st l.
Proof. apply (foldl_seq_foldli_from f l [] st). Qed.

(** ** C5 *)

Definition has_ref_arg (op_def : OpDef.t) : bool :=
  existsb ArgDef.is_ref (OpDef.input_arg op_def)
  || existsb ArgDef.is_ref (OpDef.output_arg op_def).

(** The fixed diagnostic. *)
Definition refusal (op_name ref_arg : string) : string :=
  StrCat ["raise RuntimeError("; dq; op_name;
          " op does not support eager execution. Arg '"; ref_arg;
          "' is a ref."; dq; ")"; nl].

(** [ref_arg] is the Python name of a reference argument of the operation. *)
Definition names_ref_arg (g : Gen) (ref_arg : string) : Prop :=
  (exists j a,
      OpDef.input_arg (op_def_ g) !! j = Some a /\ ArgDef.is_ref a = true
      /\ ref_arg = ApiDef.arg_rename_to (ApiDef.in_arg (api_def_ g) !!! j))
  \/ (exists j a,
         OpDef.output_arg (op_def_ g) !! j = Some a /\ ArgDef.is_ref a = true
         /\ ref_arg = ApiDef.arg_rename_to (ApiDef.out_arg (api_def_ g) !!! j)).

Definition ref_scan_step (api_args : list ApiDef.Arg) (st : bool * string)
    (i : nat) (a : ArgDef.t) : bool * string :=
  if ArgDef.is_ref a then (false, ApiDef.arg_rename_to (api_args !!! i)) else st.

Lemma ref_scan_foldli (api_args : list ApiDef.Arg) (l : list ArgDef.t) :
  forall (i : nat) (st : bool * string),
    (existsb ArgDef.is_ref l = false /\ foldli (ref_scan_step api_args) i st l = st)
    \/ (existsb ArgDef.is_ref l = true
        /\ exists j a,
             l !! j = Some a /\ ArgDef.is_ref a = true
             /\ foldli (ref_scan_step api_args) i st l
                = (false, ApiDef.arg_rename_to (api_args !!! (i + j)))).
Proof.
  induction l as [|a l IH]; intros i st; [left; split; reflexivity |].
  cbn [foldli existsb].
  destruct (IH (S i) (ref_scan_step api_args st i a)) as [[Hnone Heq] | [Hsome Hex]].
  - rewrite Hnone, Heq, orb_false_r. unfold ref_scan_step.
    destruct (ArgDef.is_ref a) eqn:Ha; [right | left; split; reflexivity].
    split; [reflexivity |]. exists 0, a.
    rewrite Nat.add_0_r. repeat split; [exact Ha].
  - right. rewrite Hsome, orb_true_r. split; [reflexivity |].
    destruct Hex as (j & b & Hj & Hb & Heq).
    exists (S j), b. rewrite Heq, Nat.add_succ_r. repeat split; assumption.
Qed.

Lemma GetEagerNotAllowedError_spec (g : Gen) :
  (has_ref_arg (op_def_ g) = false /\ GetEagerNotAllowedError g = "")
  \/ (has_ref_arg (op_def_ g) = true
      /\ exists ref_arg,
           names_ref_arg g ref_arg
           /\ GetEagerNotAllowedError g = refusal (op_name_ g) ref_arg).
Proof.
  unfold GetEagerNotAllowedError, has_ref_arg. cbv zeta beta.
  rewrite (foldl_seq_foldli
             (fun st i a =>
                if ArgDef.is_ref a
                then (false, ApiDef.arg_rename_to (ApiDef.in_arg (api_def_ g) !!! i))
                else st)).
  rewrite (foldl_seq_foldli
             (fun st i a =>
                if ArgDef.is_ref a
                then (false, ApiDef.arg_rename_to (ApiDef.out_arg (api_def_ g) !!! i))
                else st)).
  fold (ref_scan_step (ApiDef.in_arg (api_def_ g))).
  fold (ref_scan_step (ApiDef.out_arg (api_def_ g))).
  destruct (ref_scan_foldli (ApiDef.in_arg (api_def_ g))
              (OpDef.input_arg (op_def_ g)) 0 (true, ""))
    as [[Hin Hin_eq] | [Hin (j & a & Hj & Ha & Hin_eq)]];
    rewrite Hin, Hin_eq;
    match goal with
    | |- context [foldli _ 0 ?st (OpDef.output_arg _)] =>
        destruct (ref_scan_foldli (ApiDef.out_arg (api_def_ g))
                    (OpDef.output_arg (op_def_ g)) 0 st)
          as [[Hout Hout_eq] | [Hout (k & b & Hk & Hb & Hout_eq)]]
    end;
    rewrite Hout, Hout_eq; cbn [orb].
  - left. split; reflexivity.
  - right. split; [reflexivity |].
    eexists. split; [right; exists k, b; repeat split; eassumption |].
    unfold refusal. str_eq.
  - right. split; [reflexivity |].
    eexists. split; [left; exists j, a; repeat split; eassumption |].
    unfold refusal. str_eq.
  - right. split; [reflexivity |].
    eexists. split; [right; exists k, b; repeat split; eassumption |].
    unfold refusal. str_eq.
Qed.

(** * What the emitters leave alone *)

(** The fields that are fixed once [Code] starts writing text. *)
Definition plan (g : Gen) :=
  (op_def_ g, api_def_ g, function_name_ g, add_type_annotations_ g, num_outs_ g,
   attrs_ g, param_names_ g, inferred_attrs_ g, op_name_ g, attr_to_args_ g,
   params_no_default_ g, params_with_default_ g).

Definition keeps (g g' : Gen) : Prop := plan g' = plan g.

Lemma keeps_refl (g : Gen) : keeps g g.
Proof. reflexivity. Qed.

Lemma keeps_trans (g1 g2 g3 : Gen) : keeps g1 g2 -> keeps g2 g3 -> keeps g1 g3.
Proof. unfold keeps. congruence. Qed.

Lemma appends_keeps (g g' : Gen) : appends g g' -> keeps g g'.
Proof. intros [t ->]. reflexivity. Qed.

Lemma keeps_fields (g g' : Gen) :
  keeps g g' ->
  op_def_ g' = op_def_ g /\ api_def_ g' = api_def_ g
  /\ function_name_ g' = function_name_ g
  /\ add_type_annotations_ g' = add_type_annotations_ g
  /\ num_outs_ g' = num_outs_ g
  /\ attrs_ g' = attrs_ g /\ param_names_ g' = param_names_ g
  /\ op_name_ g' = op_name_ g /\ visible g' = visible g.
Proof.
  unfold keeps, plan, visible. intros Hk. injection Hk as -> -> -> -> -> -> -> _ -> _ _ _.
  repeat split.
Qed.

(** Only [attr_expressions_] differs. *)
Definition only_attr_expressions (g g' : Gen) : Prop :=
  g' = with_attr_expressions_ (attr_expressions_ g') g.

Lemma only_attr_expressions_refl (g : Gen) : only_attr_expressions g g.
Proof. destruct g; reflexivity. Qed.

Lemma only_attr_expressions_step (m : gmap string string) (g g' : Gen) :
  only_attr_expressions g g' ->
  only_attr_expressions g (with_attr_expressions_ m g').
Proof. unfold only_attr_expressions. intros ->. reflexivity. Qed.

Lemma only_attr_expressions_trans (g1 g2 g3 : Gen) :
  only_attr_expressions g1 g2 -> only_attr_expressions g2 g3 ->
  only_attr_expressions g1 g3.
Proof. unfold only_attr_expressions. intros -> ->. reflexivity. Qed.

Lemma only_attr_expressions_keeps (g g' : Gen) :
  only_attr_expressions g g' -> keeps g g' /\ result_ g' = result_ g.
Proof. unfold only_attr_expressions. intros ->. split; reflexivity. Qed.

Lemma infer_length_attr_frame (indentation attr_name : string) (arg_list : list nat) :
  forall (first : bool) (function_setup : string) (g : Gen),
    only_attr_expressions g
      (infer_length_attr indentation attr_name first arg_list function_setup g).2.
Proof.
  induction arg_list as [|iter rest IH]; intros first function_setup g.
  - apply only_attr_expressions_refl.
  - cbn [infer_length_attr]. destruct first.
    + unfold AddInferredAttr, AttrVarName. cbn [fmap option_fmap option_map default].
      eapply only_attr_expressions_trans; [| apply IH].
      apply only_attr_expressions_step, only_attr_expressions_refl.
    + apply IH.
Qed.

Lemma validate_list_inputs_frame (indentation function_setup : string) (g : Gen) :
  only_attr_expressions g (validate_list_inputs indentation function_setup g).2.
Proof.
  unfold validate_list_inputs.
  assert (Hgen : forall (l : list AttrDef.t) (st : string * Gen),
             only_attr_expressions g st.2 ->
             only_attr_expressions g
               (foldl (fun (st : string * Gen) (attr : AttrDef.t) =>
                         let '(function_setup, g) := st in
                         if String.eqb (AttrDef.type attr) "int" then
                           match attr_to_args_ g !! AttrDef.name attr with
                           | Some arg_list =>
                               infer_length_attr indentation (AttrDef.name attr) true
                                 arg_list function_setup g
                           | None => st
                           end
                         else st) st l).2).
  { induction l as [|attr l IH]; intros [fs g0] Hst; [exact Hst |].
    cbn [foldl]. apply IH.
    destruct (String.eqb (AttrDef.type attr) "int"); [| exact Hst].
    destruct (attr_to_args_ g0 !! AttrDef.name attr); [| exact Hst].
    eapply only_attr_expressions_trans; [exact Hst | apply infer_length_attr_frame]. }
  apply Hgen. apply only_attr_expressions_refl.
Qed.

Lemma convert_attrs_frame (indentation : string) (attrs : list string) :
  forall (i : nat) (function_setup : string) (g : Gen),
    only_attr_expressions g (convert_attrs indentation i attrs function_setup g).2.
Proof.
  induction attrs as [|attr_name rest IH]; intros i function_setup g.
  - apply only_attr_expressions_refl.
  - cbn [convert_attrs]. cbv zeta.
    match goal with
    | |- context [convert_attr ?a ?b ?c ?d] => destruct (convert_attr a b c d)
    end.
    + eapply only_attr_expressions_trans; [| apply IH].
      apply only_attr_expressions_step, only_attr_expressions_refl.
    + apply only_attr_expressions_step, only_attr_expressions_refl.
Qed.

Lemma GetEagerFunctionSetup_frame (indentation function_setup : string) (g : Gen) :
  only_attr_expressions g (GetEagerFunctionSetup indentation function_setup g).2.
Proof.
  unfold GetEagerFunctionSetup.
  pose proof (validate_list_inputs_frame indentation function_setup g) as Hv.
  destruct (validate_list_inputs indentation function_setup g) as [fs g1].
  eapply only_attr_expressions_trans; [exact Hv | apply convert_attrs_frame].
Qed.

(** ** The attr kinds GetEagerFunctionSetup accepts *)

Definition convertible_kinds : list string :=
  ["string"; "list(string)"; "int"; "list(int)"; "float"; "list(float)";
   "bool"; "list(bool)"; "type"; "list(type)"; "shape"; "list(shape)";
   "tensor"; "list(tensor)"].

Definition accepted_kind (attr_type : string) : bool :=
  existsb (String.eqb attr_type) (convertible_kinds ++ ["func"; "list(func)"]).

Definition unsupported_comment (function_name attr_type : string) : string :=
  StrCat ["# No definition for "; function_name;
          " since we don't support attrs with type"; nl;
          "# '"; attr_type; "' right now."; nl; nl].

Lemma convert_attr_accepts (indentation attr_api_name attr_type function_setup : string) :
  is_Some (convert_attr indentation attr_api_name attr_type function_setup)
  <-> accepted_kind attr_type = true.
Proof.
  unfold convert_attr, accepted_kind. cbn [convertible_kinds app existsb].
  repeat (destruct (String.eqb attr_type _);
          [split; [reflexivity | intros _; eexists; reflexivity] |]).
  cbn [negb andb orb]. split; [intros [x Hx]; discriminate | discriminate].
Qed.

Lemma convert_attr_func (indentation attr_api_name attr_type function_setup : string) :
  attr_type = "func" \/ attr_type = "list(func)" ->
  convert_attr indentation attr_api_name attr_type function_setup = Some function_setup.
Proof. intros [-> | ->]; reflexivity. Qed.

Definition attr_kind (g : Gen) (attr_name : string) : string :=
  AttrDef.type (FindAttr attr_name (op_def_ g)).

Lemma convert_attrs_unsupported (indentation : string) (pre : list string) :
  forall (i : nat) (function_setup : string) (g : Gen) (a : string) (post : list string),
    Forall (fun n => accepted_kind (attr_kind g n) = true) pre ->
    accepted_kind (attr_kind g a) = false ->
    (convert_attrs indentation i (pre ++ a :: post) function_setup g).1
    = (false, unsupported_comment (function_name_ g) (attr_kind g a)).
Proof.
  induction pre as [|n pre IH]; intros i function_setup g a post Hpre Ha.
  - cbn [app convert_attrs]. cbv zeta.
    match goal with
    | |- context [convert_attr ?x ?y ?z ?w] =>
        destruct (convert_attr x y z w) as [fs|] eqn:Hc
    end.
    + assert (Hacc : accepted_kind (attr_kind g a) = true).
      { eapply convert_attr_accepts. eexists. exact Hc. }
      congruence.
    + reflexivity.
  - inversion Hpre as [|n' pre' Hn Hpre']; subst.
    cbn [app convert_attrs]. cbv zeta.
    match goal with
    | |- context [convert_attr ?x ?y ?z ?w] =>
        destruct (convert_attr x y z w) as [fs|] eqn:Hc
    end.
    + apply (IH (S i) fs
                (with_attr_expressions_
                   (<[n := GetRenameTo
                             (param_names_ g !!! (i + length (OpDef.input_arg (op_def_ g))))]>
                      (attr_expressions_ g)) g) a post Hpre' Ha).
    + exfalso.
      match type of Hc with
      | convert_attr ?x ?y ?z ?w = None =>
          destruct (proj2 (convert_attr_accepts x y z w) Hn) as [v Hv]
      end.
      congruence.
Qed.

Lemma convert_attrs_supported (indentation : string) (attrs : list string) :
  forall (i : nat) (function_setup : string) (g : Gen),
    Forall (fun n => accepted_kind (attr_kind g n) = true) attrs ->
    (convert_attrs indentation i attrs function_setup g).1.1 = true.
Proof.
  induction attrs as [|n attrs IH]; intros i function_setup g Hattrs; [reflexivity |].
  inversion Hattrs as [|n' attrs' Hn Hrest]; subst.
  cbn [convert_attrs]. cbv zeta.
  match goal with
  | |- context [convert_attr ?x ?y ?z ?w] =>
      destruct (proj2 (convert_attr_accepts x y z w) Hn) as [fs Hfs]; rewrite Hfs
  end.
  apply (IH (S i) fs
            (with_attr_expressions_
               (<[n := GetRenameTo
                         (param_names_ g !!! (i + length (OpDef.input_arg (op_def_ g))))]>
                  (attr_expressions_ g)) g) Hrest).
Qed.

Lemma attr_kind_keeps (g g' : Gen) (n : string) :
  keeps g g' -> attr_kind g' n = attr_kind g n.
Proof.
  intros Hk. destruct (keeps_fields g g' Hk) as (Hop & _).
  unfold attr_kind. now rewrite Hop.
Qed.

Lemma GetEagerFunctionSetup_unsupported (indentation function_setup : string)
    (g : Gen) (pre : list string) (a : string) (post : list string) :
  attrs_ g = pre ++ a :: post ->
  Forall (fun n => accepted_kind (attr_kind g n) = true) pre ->
  accepted_kind (attr_kind g a) = false ->
  (GetEagerFunctionSetup indentation function_setup g).1
  = (false, unsupported_comment (function_name_ g) (attr_kind g a)).
Proof.
  intros Hattrs Hpre Ha. unfold GetEagerFunctionSetup.
  pose proof (validate_list_inputs_frame indentation function_setup g) as Hv.
  destruct (validate_list_inputs indentation function_setup g) as [fs g1].
  cbn [snd] in Hv. apply only_attr_expressions_keeps in Hv as [Hk _].
  destruct (keeps_fields g g1 Hk) as (_ & _ & Hfn & _ & _ & Hat & _).
  rewrite Hat, Hattrs, <- Hfn, <- (attr_kind_keeps g g1 a Hk).
  apply convert_attrs_unsupported.
  - eapply Forall_impl; [exact Hpre |]. intros n Hn.
    now rewrite (attr_kind_keeps g g1 n Hk).
  - now rewrite (attr_kind_keeps g g1 a Hk).
Qed.

Lemma GetEagerFunctionSetup_supported (indentation function_setup : string) (g : Gen) :
  Forall (fun n => accepted_kind (attr_kind g n) = true) (attrs_ g) ->
  (GetEagerFunctionSetup indentation function_setup g).1.1 = true.
Proof.
  intros Hattrs. unfold GetEagerFunctionSetup.
  pose proof (validate_list_inputs_frame indentation function_setup g) as Hv.
  destruct (validate_list_inputs indentation function_setup g) as [fs g1].
  cbn [snd] in Hv. apply only_attr_expressions_keeps in Hv as [Hk _].
  destruct (keeps_fields g g1 Hk) as (_ & _ & _ & _ & _ & Hat & _).
  rewrite Hat. apply convert_attrs_supported.
  eapply Forall_impl; [exact Hattrs |]. intros n Hn.
  now rewrite (attr_kind_keeps g g1 n Hk).
Qed.

Section Paths.
Context {internal : Internal}.

Lemma GenerateTypeVars_loop_keeps (type_annotations : gmap string string)
    (attrs : list AttrDef.t) :
  forall (added : bool) (g : Gen) (r : bool * Gen),
    GenerateTypeVars_loop type_annotations attrs added g = Some r ->
    keeps g r.2.
Proof.
  induction attrs as [|attr attrs IH]; intros added g r Hr.
  - inversion Hr. apply keeps_refl.
  - cbn [GenerateTypeVars_loop] in Hr.
    destruct (String.eqb (AttrDef.type attr) "type"); [| exact (IH _ _ _ Hr)].
    destruct (mapM _ (AttrDef.allowed_values attr)) as [allowed|];
      cbn [mbind option_bind] in Hr; [| discriminate].
    destruct (type_annotations !! AttrDef.name attr) as [tv|];
      cbn [mbind option_bind] in Hr; [| discriminate].
    eapply keeps_trans; [| exact (IH _ _ _ Hr)]. reflexivity.
Qed.

Lemma GenerateTypeVars_keeps (type_annotations : gmap string string) (g g' : Gen) :
  GenerateTypeVars type_annotations g = Some g' -> keeps g g'.
Proof.
  unfold GenerateTypeVars. intros Hg.
  destruct (GenerateTypeVars_loop type_annotations _ false g) as [[added g1]|] eqn:Hloop;
    cbn [mbind option_bind] in Hg; [| discriminate].
  apply GenerateTypeVars_loop_keeps in Hloop. cbn [snd] in Hloop.
  inversion Hg. destruct added; [| exact Hloop].
  eapply keeps_trans; [exact Hloop | reflexivity].
Qed.

Lemma AddReturnTypeAnnotation_keeps (type_annotations : gmap string string)
    (g g' : Gen) :
  AddReturnTypeAnnotation type_annotations g = Some g' -> keeps g g'.
Proof.
  unfold AddReturnTypeAnnotation. intros Hg.
  destruct (OpDef.output_arg (op_def_ g)) as [|arg [|? ?]];
    try (inversion Hg; apply keeps_refl).
  destruct (empty (ArgDef.number_attr arg) && empty (ArgDef.type_list_attr arg));
    [| inversion Hg; apply keeps_refl].
  destruct (type_annotations !! ArgDef.name arg);
    cbn [mbind option_bind] in Hg; [| discriminate].
  inversion Hg. reflexivity.
Qed.

Definition eager_test : string :=
  StrCat ["  _ctx = _context._context or _context.context()"; nl;
          "  tld = _ctx._thread_local_data"; nl;
          "  if tld.is_eager:"; nl].

Lemma function_head_spec (parameters : string)
    (type_annotations : gmap string string) (g g1 : Gen) :
  function_head parameters type_annotations g = Some g1 ->
  keeps g g1 /\ exists pre, result_ g1 = pre +:+ eager_test.
Proof.
  unfold function_head. intros Hhead.
  destruct (if add_type_annotations_ g then GenerateTypeVars type_annotations g
            else Some g) as [g0|] eqn:H0;
    cbn [mbind option_bind] in Hhead; [| discriminate].
  assert (Hk0 : keeps g g0).
  { destruct (add_type_annotations_ g);
      [exact (GenerateTypeVars_keeps _ _ _ H0) | inversion H0; apply keeps_refl]. }
  clear H0. cbv zeta in Hhead.
  match type of Hhead with
  | context [add_type_annotations_ ?x] =>
      assert (Hkx : keeps g x)
        by (eapply keeps_trans; [exact Hk0 |];
            destruct (visible g0); reflexivity);
      generalize dependent x; intros gx Hhead Hkx
  end.
  destruct (if add_type_annotations_ gx
            then AddReturnTypeAnnotation type_annotations gx
            else Some gx) as [g2|] eqn:H2;
    cbn [mbind option_bind] in Hhead; [| discriminate].
  assert (Hk2 : keeps g g2).
  { eapply keeps_trans; [exact Hkx |].
    destruct (add_type_annotations_ gx);
      [exact (AddReturnTypeAnnotation_keeps _ _ _ H2) | inversion H2; apply keeps_refl]. }
  clear H2. inversion Hhead as [Hg1]. split.
  - eapply keeps_trans; [exact Hk2 | reflexivity].
  - eexists. rewrite result_emit. reflexivity.
Qed.


End Paths.

Lemma appends_then (g g' g'' : Gen) : appends g' g'' -> appends g g' -> appends g g''.
Proof. intros H1 H2. exact (appends_trans g g' g'' H2 H1). Qed.

(** [appends_tac] extended with the blocks of the two paths. *)
Ltac appends_all :=
  lazymatch goal with
  | Happ : appends ?g ?x |- appends ?g ?x => exact Happ
  | |- appends ?g ?g => apply appends_refl
  | |- appends _ (emit _ _) => apply appends_emit_r; appends_all
  | |- appends _ (with_result_ (Unflatten _ _ _ (result_ _)) _) =>
      apply appends_unflatten_r; appends_all
  | |- appends _ (AddFallbackDispatch _ _) =>
      apply appends_AddFallbackDispatch_r; appends_all
  | |- appends _ (AddTypeBasedDispatch _ _) =>
      apply appends_AddTypeBasedDispatch_r; appends_all
  | |- appends _ (graph_results _ _) =>
      eapply appends_then; [apply appends_graph_results | appends_all]
  | |- appends _ (fast_path_handlers _ _) =>
      eapply appends_then; [apply appends_fast_path_handlers | appends_all]
  | |- appends _ (AddRawOpExport _ _) =>
      eapply appends_then; [apply appends_AddRawOpExport | appends_all]
  | |- appends _ (AddTypeBasedDispatcherAlias _) =>
      eapply appends_then; [apply appends_AddTypeBasedDispatcherAlias | appends_all]
  | |- appends _ (HandleGraphMode _ _ _) => unfold HandleGraphMode; appends_all
  | |- appends _ (if ?c then _ else _) => destruct c; appends_all
  | |- appends ?a (let x := ?v in @?F x) =>
      first
        [ apply (appends_let a v F);
          [ appends_all
          | let y := fresh "g" in
            let Hy := fresh "Hg" in
            intros y Hy; cbv beta; appends_all ]
        | let t := eval cbv beta in (F v) in
          change (appends a t); appends_all ]
  end.

Section Refusal.
Context {internal : Internal}.

Lemma appends_AddEagerFastPathExecute (g : Gen) :
  appends g (AddEagerFastPathExecute g).
Proof.
  unfold AddEagerFastPathExecute. destruct (fast_path_params g). appends_all.
Qed.

(** The first line of the graph-mode part. *)
Definition graph_mode_first_line (g : Gen) : string :=
  if visible g then StrCat ["  else:"; nl]
  else StrCat ["  # Add nodes to the TensorFlow graph."; nl].

Lemma after_apply_op_head (function_setup : string) (g : Gen) :
  appends (if visible g then emit ["  else:"; nl] g
           else emit ["  # Add nodes to the TensorFlow graph."; nl] g)
          (after_apply_op function_setup g).
Proof.
  unfold after_apply_op. destruct (visible g) eqn:Hvis.
  - appends_all.
  - appends_all.
Qed.

Lemma graph_mode_head (parameters function_setup : string)
    (output_sizes : list string) (g : Gen) :
  exists post,
    result_ (graph_mode_and_exports parameters function_setup output_sizes g)
    = result_ g +:+ graph_mode_first_line g +:+ post.
Proof.
  pose proof (after_apply_op_head function_setup g) as Hhead.
  assert (Happ : appends (if visible g then emit ["  else:"; nl] g
                          else emit ["  # Add nodes to the TensorFlow graph."; nl] g)
                         (graph_mode_and_exports parameters function_setup
                            output_sizes g))
    by (unfold graph_mode_and_exports; appends_all).
  destruct Happ as [post Hpost]. exists post. rewrite Hpost.
  unfold graph_mode_first_line. destruct (visible g);
    cbn [result_ with_result_ emit]; str_eq.
Qed.

(** With a non-empty error text the eager branch of the function is that
    text alone, followed directly by the graph-mode part. *)
Lemma error_follows_eager_test (parameters : string) (output_sizes : list string)
    (eager_not_allowed_error : string) (type_annotations : gmap string string)
    (g g' : Gen) :
  empty eager_not_allowed_error = false ->
  AddEagerFastPathAndGraphCode parameters output_sizes eager_not_allowed_error
    type_annotations g = Some (true, g') ->
  exists pre post,
    result_ g'
    = pre +:+ StrCat ["  if tld.is_eager:"; nl; "    "; eager_not_allowed_error]
      +:+ graph_mode_first_line g +:+ post.
Proof.
  intros Hne Hcode. unfold AddEagerFastPathAndGraphCode in Hcode.
  destruct (function_head parameters type_annotations g) as [g1|] eqn:Hhead;
    cbn [mbind option_bind] in Hcode; [| discriminate].
  destruct (function_head_spec _ _ _ _ Hhead) as [Hk1 [pre Hpre]].
  clear Hhead. rewrite Hne in Hcode. cbv zeta in Hcode.
  pose proof (GetEagerFunctionSetup_frame "  " ""
                (emit ["    "; eager_not_allowed_error] g1)) as Hframe.
  destruct (GetEagerFunctionSetup "  " ""
              (emit ["    "; eager_not_allowed_error] g1))
    as [[ok function_setup] g2].
  cbn [snd] in Hframe.
  apply only_attr_expressions_keeps in Hframe as [Hk2 Hres2].
  destruct ok; cbn [negb] in Hcode; [| discriminate].
  inversion Hcode as [Hg']. clear Hcode Hg'.
  destruct (graph_mode_head parameters function_setup output_sizes g2)
    as [post Hpost].
  exists (pre +:+ StrCat ["  _ctx = _context._context or _context.context()"; nl;
                          "  tld = _ctx._thread_local_data"; nl]), post.
  rewrite Hpost, Hres2, result_emit, Hpre.
  assert (Hvis : graph_mode_first_line g2 = graph_mode_first_line g).
  { destruct (keeps_fields _ _ Hk2) as (_ & _ & _ & _ & _ & _ & _ & _ & Hv2).
    destruct (keeps_fields _ _ Hk1) as (_ & _ & _ & _ & _ & _ & _ & _ & Hv1).
    unfold graph_mode_first_line. rewrite Hv2.
    change (visible (emit ["    "; eager_not_allowed_error] g1))
      with (visible g1).
    rewrite Hv1. reflexivity. }
  rewrite Hvis. unfold eager_test. str_eq.
Qed.


End Refusal.

(** An operation with a reference input. *)
Definition assign_op : OpDef.t :=
  OpDef.mk "Assign"
    [ArgDef.mk "ref" 1 "" "" "" true; ArgDef.mk "value" 1 "" "" "" false]
    [ArgDef.mk "output_ref" 1 "" "" "" true] [] false.

Definition assign_api : ApiDef.t :=
  ApiDef.mk ApiDef.HIDDEN
    [ApiDef.mkArg "ref" "ref"; ApiDef.mkArg "value" "value"]
    [ApiDef.mkArg "output_ref" "output_ref"] [] ["ref"; "value"].


(** ** C3 *)


(** The fields [Code_setup] does not touch. *)
Definition schema (g : Gen) :=
  (op_def_ g, api_def_ g, function_name_ g, add_type_annotations_ g, num_outs_ g,
   op_name_ g).

Lemma foldl_invariant {A B : Type} (P : A -> Prop) (f : A -> B -> A) (l : list B) :
  (forall a b, P a -> P (f a b)) -> forall a, P a -> P (foldl f a l).
Proof.
  intros Hstep. induction l as [|b l IH]; intros a Ha; [exact Ha |].
  cbn [foldl]. apply IH, Hstep, Ha.
Qed.

Lemma schema_fields (g g' : Gen) :
  schema g' = schema g ->
  op_def_ g' = op_def_ g
  /\ function_name_ g' = function_name_ g
  /\ add_type_annotations_ g' = add_type_annotations_ g.
Proof. unfold schema. intros H. injection H as Hop _ Hfn Hta _ _. auto. Qed.

Section Abort.
Context {internal : Internal}.

Lemma AddAttrForArg_schema (attr : string) (arg_index : nat) (g : Gen) :
  schema (AddAttrForArg attr arg_index g) = schema g.
Proof.
  unfold AddAttrForArg.
  destruct (inferred_attrs_ g !! attr);
    cbv zeta; cbn [attr_to_args_ with_inferred_attrs_];
    destruct (attr_to_args_ g !! attr); reflexivity.
Qed.

Lemma add_input_params_schema (g : Gen) : schema (add_input_params g) = schema g.
Proof.
  unfold add_input_params.
  apply (foldl_invariant (fun g' => schema g' = schema g)); [| reflexivity].
  intros g' i Hg'. cbv zeta.
  repeat match goal with
         | |- context [if ?c then _ else _] => destruct c
         end;
    rewrite ?AddAttrForArg_schema; exact Hg'.
Qed.

Lemma add_attr_params_schema (g : Gen) : schema (add_attr_params g) = schema g.
Proof.
  unfold add_attr_params.
  apply (foldl_invariant (fun g' => schema g' = schema g)); [| reflexivity].
  intros g' i Hg'. cbv zeta.
  destruct (inferred_attrs_ g' !! _); [exact Hg' |].
  repeat match goal with
         | |- context [if ?c then _ else _] => destruct c
         end; exact Hg'.
Qed.





End Abort.

Section Unsupported.
Context {internal : Internal}.


End Unsupported.




(** * Line widths *)

Definition newline : ascii := "010"%char.

(** The lines of a text: the pieces between newline characters. *)
Fixpoint lines (s : string) : list string :=
  match s with
  | EmptyString => [EmptyString]
  | String c rest =>
      if Ascii.eqb c newline then EmptyString :: lines rest
      else match lines rest with
           | l :: ls => String c l :: ls
           | [] => [String c EmptyString]
           end
  end.

Fixpoint one_line (s : string) : bool :=
  match s with
  | EmptyString => true
  | String c rest => negb (Ascii.eqb c newline) && one_line rest
  end.

Definition within_margin (code : string) : bool :=
  forallb (fun l => String.length l <=? kRightMargin) (lines code).

(** The [raise] of [GetEagerNotAllowedError] as it stands in the main
    function, after the four spaces written in front of it and without its
    final newline. *)
Definition refusal_line (op_name ref_arg : string) : string :=
  StrCat ["    "; "raise RuntimeError("; dq; op_name;
          " op does not support eager execution. Arg '"; ref_arg;
          "' is a ref."; dq; ")"].

Lemma lines_nonempty (s : string) : lines s <> [].
Proof.
  destruct s as [|c rest]; cbn [lines]; [discriminate |].
  destruct (Ascii.eqb c newline); [discriminate |].
  destruct (lines rest); discriminate.
Qed.

Lemma lines_one_line (s : string) : one_line s = true -> lines s = [s].
Proof.
  induction s as [|c rest IH]; [reflexivity |].
  cbn [one_line lines]. intros H. apply andb_prop in H as [Hc Hrest].
  apply negb_true_iff in Hc. rewrite Hc, (IH Hrest). reflexivity.
Qed.

Lemma lines_append_nl (a b : string) : lines (a +:+ nl +:+ b) = lines a ++ lines b.
Proof.
  induction a as [|c a IH]; [reflexivity |].
  rewrite append_cons. cbn [lines]. rewrite IH.
  destruct (Ascii.eqb c newline); [reflexivity |].
  pose proof (lines_nonempty a) as Hne.
  destruct (lines a) as [|l ls]; [congruence | reflexivity].
Qed.

Lemma one_line_append (a b : string) :
  one_line (a +:+ b) = one_line a && one_line b.
Proof.
  induction a as [|c a IH]; [reflexivity |].
  rewrite append_cons. cbn [one_line]. rewrite IH. apply andb_assoc.
Qed.

Lemma refusal_line_nl (op_name ref_arg : string) :
  "    " +:+ refusal op_name ref_arg = refusal_line op_name ref_arg +:+ nl.
Proof. unfold refusal, refusal_line. str_eq. Qed.

Lemma refusal_line_length (op_name ref_arg : string) :
  String.length (refusal_line op_name ref_arg)
  = 80 + String.length op_name + String.length ref_arg.
Proof.
  unfold refusal_line, StrCat. cbn [foldr].
  rewrite !length_append. cbn [String.length dq]. lia.
Qed.

Lemma refusal_line_one_line (op_name ref_arg : string) :
  one_line op_name = true -> one_line ref_arg = true ->
  one_line (refusal_line op_name ref_arg) = true.
Proof.
  intros Hop Hrf. unfold refusal_line, StrCat. cbn [foldr].
  rewrite !one_line_append, Hop, Hrf. reflexivity.
Qed.

Lemma exceeds_margin (code line : string) :
  line ∈ lines code -> kRightMargin < String.length line ->
  within_margin code = false.
Proof.
  intros Hin Hlen. unfold within_margin.
  destruct (forallb _ (lines code)) eqn:Hall; [| reflexivity].
  rewrite forallb_forall in Hall.
  specialize (Hall line (proj1 (list_elem_of_In _ _) Hin)).
  apply Nat.leb_le in Hall. lia.
Qed.

(** ** C9 *)

(** C9, as stated, fails: the unit generated for an operation with a
    reference argument holds the [raise] line of the refusal, written by the
    generator itself and never handed to the formatter, and that line is 96
    columns wide. *)
Lemma refusal_line_exceeds_margin :
  (fun code => bool_decide (refusal_line "assign" "output_ref" ∈ lines code))
    <$> GetEagerPythonOp (internal:=plain_internal) assign_op assign_api "assign" false
  = Some true
  /\ String.length (refusal_line "assign" "output_ref") = 96
  /\ within_margin
       <$> GetEagerPythonOp (internal:=plain_internal) assign_op assign_api "assign" false
     = Some false.
Proof. repeat split; vm_compute; reflexivity. Qed.

Section Margin.
Context {internal : Internal}.

(** C9 (amended) - the width limit.  The limit passed to the formatter
    is 78, and it bounds only the text handed to the formatter, as the
    arguments of the fast-path call are, with a continuation indent of
    eight spaces.  Text the generator writes itself is not bounded: for an
    operation with a reference argument the main function holds, between
    two newlines, the [raise] of the refusal behind four spaces, which is
    80 columns wide plus the lengths of the operation name and of the
    argument name; when neither name holds a newline this is one line of
    the function and the function is not within the margin. *)
Theorem width_limit_bounds_formatted_text_only (g g' : Gen) (parameters : string)
    (output_sizes : list string) (type_annotations : gmap string string) :
  has_ref_arg (op_def_ g) = true ->
  AddEagerFastPathAndGraphCode parameters output_sizes (GetEagerNotAllowedError g)
    type_annotations g = Some (true, g') ->
  kRightMargin = 78
  /\ (exists ref_arg,
        names_ref_arg g ref_arg
        /\ (exists pre post,
              result_ g'
              = pre +:+ nl +:+ refusal_line (op_name_ g) ref_arg +:+ nl +:+ post)
        /\ String.length (refusal_line (op_name_ g) ref_arg)
           = 80 + String.length (op_name_ g) + String.length ref_arg
        /\ (one_line (op_name_ g) = true -> one_line ref_arg = true ->
            refusal_line (op_name_ g) ref_arg ∈ lines (result_ g')
            /\ within_margin (result_ g') = false))
  /\ (forall g0, exists post,
        result_ (AddEagerFastPathExecute g0)
        = result_ g0
          +:+ StrCat ["    try:"; nl;
                      "      _result = pywrap_tfe.TFE_Py_FastPathExecute("; nl;
                      WordWrap "        " (StrCat [(fast_path_params g0).1; ")"])
                        kRightMargin;
                      nl]
          +:+ post).
Proof.
  intros Href Hcode. split; [reflexivity |]. split.
  - destruct (GetEagerNotAllowedError_spec g)
      as [[Hno _] | [_ (ref_arg & Hnames & Herr)]]; [congruence |].
    rewrite Herr in Hcode.
    assert (Hne : empty (refusal (op_name_ g) ref_arg) = false) by reflexivity.
    destruct (error_follows_eager_test _ _ _ _ _ _ Hne Hcode)
      as (pre & post & Hres).
    assert (Hshape : result_ g'
                     = (pre +:+ "  if tld.is_eager:") +:+ nl
                       +:+ refusal_line (op_name_ g) ref_arg +:+ nl
                       +:+ (graph_mode_first_line g +:+ post)).
    { rewrite Hres.
      change (StrCat ["  if tld.is_eager:"; nl; "    "; refusal (op_name_ g) ref_arg])
        with ("  if tld.is_eager:" +:+ nl
              +:+ ("    " +:+ refusal (op_name_ g) ref_arg) +:+ "").
      rewrite refusal_line_nl, ?append_assoc, ?append_nil_r. reflexivity. }
    exists ref_arg. split; [exact Hnames |]. split; [| split].
    + eexists _, _. exact Hshape.
    + apply refusal_line_length.
    + intros Hop Hrf.
      assert (Hin : refusal_line (op_name_ g) ref_arg ∈ lines (result_ g')).
      { rewrite Hshape, !lines_append_nl.
        rewrite (lines_one_line _ (refusal_line_one_line _ _ Hop Hrf)).
        apply elem_of_app. right. apply elem_of_app. left.
        apply list_elem_of_singleton. reflexivity. }
      split; [exact Hin |].
      apply (exceeds_margin _ _ Hin).
      rewrite refusal_line_length. unfold kRightMargin. lia.
  - intros g0. destruct (fast_path_return g0) as [post Hpost].
    eexists. rewrite Hpost. reflexivity.
Qed.

End Margin.

Lemma assign_refusal_exceeds_margin :
  exists g',
    AddEagerFastPathAndGraphCode (internal:=plain_internal) "" [""]
      (GetEagerNotAllowedError
         (prepared (internal:=plain_internal) assign_op assign_api "assign"))
      ∅ (prepared (internal:=plain_internal) assign_op assign_api "assign")
    = Some (true, g')
    /\ exists ref_arg,
         String.length
           (refusal_line
              (op_name_ (prepared (internal:=plain_internal) assign_op assign_api "assign"))
              ref_arg)
         = 80 + String.length
                  (op_name_ (prepared (internal:=plain_internal) assign_op assign_api
                               "assign"))
           + String.length ref_arg.
Proof.
  destruct (AddEagerFastPathAndGraphCode (internal:=plain_internal) "" [""]
              (GetEagerNotAllowedError
                 (prepared (internal:=plain_internal) assign_op assign_api "assign"))
              ∅ (prepared (internal:=plain_internal) assign_op assign_api "assign"))
    as [[ok g']|] eqn:Hcode; [destruct ok |].
  - exists g'. split; [reflexivity |].
    destruct (width_limit_bounds_formatted_text_only (internal:=plain_internal)
                (prepared (internal:=plain_internal) assign_op assign_api "assign")
                g' "" [""] ∅)
      as (_ & (ref_arg & _ & _ & Hlen & _) & _).
    + vm_compute. reflexivity.
    + exact Hcode.
    + exists ref_arg. exact Hlen.
  - exfalso. vm_compute in Hcode. discriminate.
  - exfalso. vm_compute in Hcode. discriminate.
Defined.

(** * Further properties of the generator *)

(** ** VectorToTuple *)

Lemma VectorToTuple_loop_later (l : list string) :
  forall (i : nat) (ret : string),
    0 < i ->
    VectorToTuple_loop i l ret = ret +:+ StrCat ((fun x => ", " +:+ x) <$> l).
Proof.
  induction l as [|x l IH]; intros i ret Hi.
  - cbn [VectorToTuple_loop fmap list_fmap StrCat foldr]. now rewrite append_nil_r.
  - cbn [VectorToTuple_loop]. cbv zeta.
    assert (Hpos : (0 <? i) = true) by (apply Nat.ltb_lt; exact Hi).
    rewrite Hpos, (IH (S i)) by lia.
    cbn [fmap list_fmap]. str_eq.
Qed.

Lemma concat_sep_cons (sep x : string) (l : list string) :
  String.concat sep (x :: l) = x +:+ StrCat ((fun y => sep +:+ y) <$> l).
Proof.
  revert x. induction l as [|y l IH]; intros x.
  - cbn. now rewrite append_nil_r.
  - change (String.concat sep (x :: y :: l))
      with (x +:+ sep +:+ String.concat sep (y :: l)).
    rewrite IH. cbn [fmap list_fmap]. str_eq.
Qed.

(** X1 - A Python tuple display: the items separated by a comma and a space
    between parentheses, with the trailing comma Python requires when there
    is exactly one item; no item gives the empty tuple. *)
Theorem VectorToTuple_is_a_tuple_display (l : list string) :
  VectorToTuple l
  = "(" +:+ String.concat ", " l +:+ (if length l =? 1 then ",)" else ")").
Proof.
  destruct l as [|x [|y l]]; [reflexivity | cbn; str_eq |].
  unfold VectorToTuple. cbn [VectorToTuple_loop Nat.ltb Nat.leb]. cbv zeta.
  rewrite VectorToTuple_loop_later by lia.
  rewrite concat_sep_cons. cbn [length Nat.eqb]. str_eq.
Qed.

(** ** The parameter lists of Code *)

(** Appending an item the way the parameter loops do: a separator first,
    unless the text so far is empty. *)
Lemma join_snoc (sep : string) (terms : list string) (t : string) :
  Forall (fun t => t <> "") terms ->
  StrAppend (if negb (empty (String.concat sep terms))
             then StrAppend (String.concat sep terms) [sep]
             else String.concat sep terms) [t]
  = String.concat sep (terms ++ [t]).
Proof.
  intros Hterms.
  destruct (empty (String.concat sep terms)) eqn:He.
  - apply (concat_sep_empty sep terms Hterms) in He. subst terms.
    cbn [negb]. simpl. str_eq.
  - assert (Hne : terms <> []).
    { intros ->. simpl in He. discriminate. }
    rewrite (concat_sep_snoc sep terms t Hne). cbn [negb]. str_eq.
Qed.

Lemma append_nonempty_l (a b : string) : a <> "" -> a +:+ b <> "".
Proof. destruct a; [congruence | discriminate]. Qed.

(** A parameter as it is written in a signature: its Python name, followed
    by its annotation when it has one. *)
Definition annotated (sep : string) (type_annotations : gmap string string)
    (p : ParamNames) : string :=
  GetRenameTo p
  +:+ match type_annotations !! GetName p with
      | Some annotation => sep +:+ annotation
      | None => ""
      end.

Definition with_default (type_annotations : gmap string string)
    (pd : ParamNames * string) : string :=
  annotated ":" type_annotations pd.1 +:+ "=" +:+ pd.2.

Lemma annotated_nonempty (sep : string) (type_annotations : gmap string string)
    (p : ParamNames) :
  GetRenameTo p <> "" -> annotated sep type_annotations p <> "".
Proof. intros H. apply append_nonempty_l. exact H. Qed.

Lemma parameters_no_default_fold (type_annotations : gmap string string)
    (l : list ParamNames) :
  forall terms : list string,
    Forall (fun t => t <> "") terms ->
    Forall (fun p => GetRenameTo p <> "") l ->
    foldl (fun (parameters : string) (param : ParamNames) =>
             let parameters :=
               if negb (empty parameters) then StrAppend parameters [", "]
               else parameters in
             let parameters := StrAppend parameters [GetRenameTo param] in
             match type_annotations !! GetName param with
             | Some annotation => StrAppend parameters [": "; annotation]
             | None => parameters
             end)
          (String.concat ", " terms) l
    = String.concat ", " (terms ++ (annotated ": " type_annotations <$> l)).
Proof.
  induction l as [|p l IH]; intros terms Hterms Hl.
  - cbn [foldl fmap list_fmap]. now rewrite app_nil_r.
  - inversion Hl as [|p' l' Hp Hrest]; subst.
    cbn [foldl fmap list_fmap]. cbv zeta.
    replace (terms ++ annotated ": " type_annotations p
                   :: (annotated ": " type_annotations <$> l))
      with ((terms ++ [annotated ": " type_annotations p])
              ++ (annotated ": " type_annotations <$> l))
      by (rewrite <- app_assoc; reflexivity).
    rewrite <- IH.
    + f_equal. rewrite <- (join_snoc ", " terms _ Hterms). unfold annotated.
      destruct (type_annotations !! GetName p);
        destruct (empty (String.concat ", " terms)); cbn [negb]; str_eq.
    + apply Forall_app. split; [exact Hterms |].
      constructor; [apply annotated_nonempty; exact Hp | constructor].
    + exact Hrest.
Qed.

Lemma parameters_with_default_fold (type_annotations : gmap string string)
    (l : list (ParamNames * string)) :
  forall terms terms' : list string,
    Forall (fun t => t <> "") terms ->
    Forall (fun t => t <> "") terms' ->
    Forall (fun pd => GetRenameTo pd.1 <> "") l ->
    foldl (fun (st : string * string) (param_and_default : ParamNames * string) =>
             let '(parameters, parameters_with_defaults) := st in
             let parameters :=
               if negb (empty parameters) then StrAppend parameters [", "]
               else parameters in
             let parameters_with_defaults :=
               if negb (empty parameters_with_defaults)
               then StrAppend parameters_with_defaults [", "]
               else parameters_with_defaults in
             let parameters :=
               StrAppend parameters [GetRenameTo (fst param_and_default)] in
             let parameters_with_defaults :=
               StrAppend parameters_with_defaults
                 [GetRenameTo (fst param_and_default)] in
             let '(parameters, parameters_with_defaults) :=
               match type_annotations !! GetName (fst param_and_default) with
               | Some param_type =>
                   (StrAppend parameters [": "; param_type],
                    StrAppend parameters_with_defaults [":"; param_type])
               | None => (parameters, parameters_with_defaults)
               end in
             (parameters,
              StrAppend parameters_with_defaults ["="; snd param_and_default]))
          (String.concat ", " terms, String.concat ", " terms') l
    = (String.concat ", "
         (terms ++ ((fun pd => annotated ": " type_annotations pd.1) <$> l)),
       String.concat ", " (terms' ++ (with_default type_annotations <$> l))).
Proof.
  induction l as [|pd l IH]; intros terms terms' Hterms Hterms' Hl.
  - cbn [foldl fmap list_fmap]. now rewrite !app_nil_r.
  - inversion Hl as [|pd' l' Hp Hrest]; subst.
    cbn [foldl fmap list_fmap]. cbv zeta.
    replace (terms ++ annotated ": " type_annotations pd.1
                   :: ((fun pd => annotated ": " type_annotations pd.1) <$> l))
      with ((terms ++ [annotated ": " type_annotations pd.1])
              ++ ((fun pd => annotated ": " type_annotations pd.1) <$> l))
      by (rewrite <- app_assoc; reflexivity).
    replace (terms' ++ with_default type_annotations pd
                    :: (with_default type_annotations <$> l))
      with ((terms' ++ [with_default type_annotations pd])
              ++ (with_default type_annotations <$> l))
      by (rewrite <- app_assoc; reflexivity).
    rewrite <- IH.
    + f_equal.
      rewrite <- (join_snoc ", " terms _ Hterms), <- (join_snoc ", " terms' _ Hterms').
      unfold with_default, annotated.
      destruct (type_annotations !! GetName pd.1);
        destruct (empty (String.concat ", " terms));
        destruct (empty (String.concat ", " terms')); cbn [negb fst snd];
        f_equal; str_eq.
    + apply Forall_app. split; [exact Hterms |].
      constructor; [apply annotated_nonempty; exact Hp | constructor].
    + apply Forall_app. split; [exact Hterms' |].
      constructor; [| constructor].
      unfold with_default. apply append_nonempty_l, annotated_nonempty. exact Hp.
    + exact Hrest.
Qed.

Lemma join_last (terms : list string) (t : string) :
  Forall (fun t => t <> "") terms ->
  StrAppend (String.concat ", " terms)
    [if empty (String.concat ", " terms) then "" else ", "; t]
  = String.concat ", " (terms ++ [t]).
Proof.
  intros Hterms. rewrite <- (join_snoc ", " terms t Hterms).
  destruct (empty (String.concat ", " terms)); cbn [negb]; str_eq.
Qed.

(** X2 - The two signatures built by [Code].  When no parameter has an empty
    Python name, both are the parameters without a default, then those with
    a default, then [name], separated by a comma and a space.  The signature
    of the fallback function has no default values and ends in [name]; the
    one of the main function gives each default after an equals sign and
    ends in [name=None].  An annotated parameter is followed by a colon and
    its annotation; before a default value no space follows the colon. *)
Theorem build_parameters_joins (type_annotations : gmap string string) (g : Gen) :
  Forall (fun p => GetRenameTo p <> "") (params_no_default_ g) ->
  Forall (fun pd => GetRenameTo pd.1 <> "") (params_with_default_ g) ->
  build_parameters type_annotations g
  = (String.concat ", "
       ((annotated ": " type_annotations <$> params_no_default_ g)
          ++ ((fun pd => annotated ": " type_annotations pd.1)
                <$> params_with_default_ g)
          ++ ["name"]),
     String.concat ", "
       ((annotated ": " type_annotations <$> params_no_default_ g)
          ++ (with_default type_annotations <$> params_with_default_ g)
          ++ ["name=None"])).
Proof.
  intros Hno Hwith. unfold build_parameters.
  pose proof (parameters_no_default_fold type_annotations (params_no_default_ g) []
                (Forall_nil_2 _) Hno) as H1.
  cbn [String.concat app] in H1.
  assert (Hterms : Forall (fun t => t <> "")
                     (annotated ": " type_annotations <$> params_no_default_ g)).
  { apply Forall_fmap. eapply Forall_impl; [exact Hno |].
    intros p Hp. apply annotated_nonempty. exact Hp. }
  pose proof (parameters_with_default_fold type_annotations (params_with_default_ g)
                _ _ Hterms Hterms Hwith) as H2.
  cbv zeta in H1, H2 |- *. rewrite H1, H2.
  rewrite !join_last, <- !app_assoc; [reflexivity | |].
  - apply Forall_app. split; [exact Hterms |].
    apply Forall_fmap. eapply Forall_impl; [exact Hwith |].
    intros pd Hp. unfold with_default.
    apply append_nonempty_l, annotated_nonempty. exact Hp.
  - apply Forall_app. split; [exact Hterms |].
    apply Forall_fmap. eapply Forall_impl; [exact Hwith |].
    intros pd Hp. apply annotated_nonempty. exact Hp.
Qed.

(** An operation with one input, a required attr and an attr with a
    default value. *)
Definition clip_op : OpDef.t :=
  OpDef.mk "Clip" [ArgDef.mk "x" 1 "" "" "" false] [ArgDef.mk "y" 1 "" "" "" false]
    [AttrDef.mk "hi" "float" true []; AttrDef.mk "lo" "float" false []] false.

Definition clip_api : ApiDef.t :=
  ApiDef.mk ApiDef.VISIBLE [ApiDef.mkArg "x" "x"] [ApiDef.mkArg "y" "y"]
    [ApiDef.mkAttr "hi" "hi" true "1.0"; ApiDef.mkAttr "lo" "lo" false ""] ["x"].

Lemma build_parameters_clip :
  build_parameters ∅
    (Code_setup (internal:=plain_internal)
       (GenEagerPythonOp_new clip_op clip_api "clip" false))
  = ("x, lo, hi, name", "x, lo, hi=1.0, name=None").
Proof.
  rewrite build_parameters_joins.
  - vm_compute. reflexivity.
  - vm_compute. repeat constructor; discriminate.
  - vm_compute. repeat constructor; discriminate.
Defined.

(** ** The attrs inferred from inputs *)

(** The attrs an input argument mentions, in the order [Code] records
    them: its type attr or else its type-list attr, then its number attr. *)
Definition arg_attr_refs (arg : ArgDef.t) : list string :=
  (if negb (empty (ArgDef.type_attr arg)) then [ArgDef.type_attr arg]
   else if negb (empty (ArgDef.type_list_attr arg)) then [ArgDef.type_list_attr arg]
        else [])
  ++ (if negb (empty (ArgDef.number_attr arg)) then [ArgDef.number_attr arg] else []).

(** The positions in [l], read as positions of [arg_order], whose argument
    mentions the attr [a]; a position is repeated when its argument mentions
    the attr twice. *)
Definition attr_positions (op_def : OpDef.t) (api_def : ApiDef.t) (a : string)
    (l : list nat) : list nat :=
  flat_map
    (fun i =>
       (fun _ => i)
         <$> filter (fun r => r = a)
               (arg_attr_refs (FindInputArg (ApiDef.arg_order api_def !!! i) op_def)))
    l.

Definition extend (o : option (list nat)) (ps : list nat) : option (list nat) :=
  match ps with
  | [] => o
  | _ => Some (default [] o ++ ps)
  end.

Definition first_source (op_def : OpDef.t) (o : option string) (ps : list nat)
  : option string :=
  match o with
  | Some s => Some s
  | None => (fun i => ArgDef.name (OpDef.input_arg op_def !!! i)) <$> head ps
  end.

Lemma extend_app (o : option (list nat)) (p1 p2 : list nat) :
  extend (extend o p1) p2 = extend o (p1 ++ p2).
Proof.
  destruct p1 as [|x p1]; [reflexivity |].
  destruct p2 as [|y p2]; [cbn [extend app]; now rewrite app_nil_r |].
  unfold extend. cbn [app]. f_equal.
  change (default [] (Some (default [] o ++ x :: p1))) with (default [] o ++ x :: p1).
  now rewrite <- app_assoc.
Qed.

Lemma first_source_app (op_def : OpDef.t) (o : option string) (p1 p2 : list nat) :
  first_source op_def (first_source op_def o p1) p2 = first_source op_def o (p1 ++ p2).
Proof.
  destruct o as [s|]; [reflexivity |].
  destruct p1 as [|x p1]; reflexivity.
Qed.

Lemma AddAttrForArg_attr_to_args (attr : string) (i : nat) (g : Gen) (a : string) :
  attr_to_args_ (AddAttrForArg attr i g) !! a
  = extend (attr_to_args_ g !! a) (if decide (attr = a) then [i] else []).
Proof.
  unfold AddAttrForArg.
  assert (Hsame : forall m, attr_to_args_ (with_inferred_attrs_ m g) = attr_to_args_ g)
    by reflexivity.
  destruct (inferred_attrs_ g !! attr); cbv zeta; rewrite ?Hsame;
    destruct (attr_to_args_ g !! attr) as [args|] eqn:Hargs;
    cbn [attr_to_args_ with_attr_to_args_ with_inferred_attrs_];
    rewrite lookup_insert; destruct (decide (attr = a)) as [<- | Hne];
    cbn [extend]; rewrite ?Hargs; reflexivity.
Qed.

Lemma AddAttrForArg_inferred_attrs (attr : string) (i : nat) (g : Gen) (a : string) :
  inferred_attrs_ (AddAttrForArg attr i g) !! a
  = first_source (op_def_ g) (inferred_attrs_ g !! a)
      (if decide (attr = a) then [i] else []).
Proof.
  unfold AddAttrForArg.
  destruct (inferred_attrs_ g !! attr) as [s|] eqn:Hs; cbv zeta.
  - destruct (attr_to_args_ g !! attr);
      cbn [inferred_attrs_ with_attr_to_args_];
      destruct (decide (attr = a)) as [<- | Hne];
      [rewrite Hs | | rewrite Hs |]; try reflexivity;
      destruct (inferred_attrs_ g !! a); reflexivity.
  - cbn [attr_to_args_ with_inferred_attrs_].
    destruct (attr_to_args_ g !! attr);
      cbn [inferred_attrs_ with_attr_to_args_ with_inferred_attrs_ op_def_];
      rewrite lookup_insert; destruct (decide (attr = a)) as [<- | Hne];
      [rewrite Hs | | rewrite Hs |]; try reflexivity;
      destruct (inferred_attrs_ g !! a); reflexivity.
Qed.

Section InferredAttrs.
Context {internal : Internal}.

(** The body of the first loop of [Code]. *)
Definition add_input_param (g : Gen) (i : nat) : Gen :=
  let arg := FindInputArg (ApiDef.arg_order (api_def_ g) !!! i) (op_def_ g) in
  let api_def_arg :=
    FindInputArg_api (ApiDef.arg_order (api_def_ g) !!! i) (api_def_ g) in
  let g :=
    with_params_no_default_
      (params_no_default_ g
         ++ [MakeParamNames (ApiDef.arg_name api_def_arg)
                            (ApiDef.arg_rename_to api_def_arg)]) g in
  let g :=
    if negb (empty (ArgDef.type_attr arg)) then
      AddAttrForArg (ArgDef.type_attr arg) i g
    else if negb (empty (ArgDef.type_list_attr arg)) then
      AddAttrForArg (ArgDef.type_list_attr arg) i g
    else g in
  if negb (empty (ArgDef.number_attr arg)) then
    AddAttrForArg (ArgDef.number_attr arg) i g
  else g.

Lemma add_input_params_fold (g : Gen) :
  add_input_params g
  = foldl add_input_param g (seq 0 (length (ApiDef.arg_order (api_def_ g)))).
Proof. reflexivity. Qed.

Lemma add_input_param_schema (g : Gen) (i : nat) :
  schema (add_input_param g i) = schema g.
Proof.
  unfold add_input_param. cbv zeta.
  repeat match goal with
         | |- context [if ?c then _ else _] => destruct c
         end;
    rewrite ?AddAttrForArg_schema; reflexivity.
Qed.

Lemma filter_refs_app (a : string) (l1 l2 : list string) (i : nat) :
  ((fun _ : string => i) <$> filter (fun r => r = a) (l1 ++ l2))
  = ((fun _ : string => i) <$> filter (fun r => r = a) l1)
      ++ ((fun _ : string => i) <$> filter (fun r => r = a) l2).
Proof. now rewrite filter_app, fmap_app. Qed.

Lemma filter_refs_one (a r : string) (i : nat) :
  ((fun _ : string => i) <$> filter (fun r => r = a) [r])
  = if decide (r = a) then [i] else [].
Proof.
  rewrite filter_cons, filter_nil. destruct (decide (r = a)); reflexivity.
Qed.

Lemma add_input_param_maps (g : Gen) (i : nat) (a : string) :
  attr_to_args_ (add_input_param g i) !! a
  = extend (attr_to_args_ g !! a)
      (attr_positions (op_def_ g) (api_def_ g) a [i])
  /\ inferred_attrs_ (add_input_param g i) !! a
     = first_source (op_def_ g) (inferred_attrs_ g !! a)
         (attr_positions (op_def_ g) (api_def_ g) a [i]).
Proof.
  unfold attr_positions. cbn [flat_map]. rewrite app_nil_r.
  unfold add_input_param, arg_attr_refs. cbv zeta.
  set (arg := FindInputArg (ApiDef.arg_order (api_def_ g) !!! i) (op_def_ g)).
  set (g1 := with_params_no_default_ _ g).
  assert (H1 : attr_to_args_ g1 = attr_to_args_ g) by reflexivity.
  assert (H2 : inferred_attrs_ g1 = inferred_attrs_ g) by reflexivity.
  assert (H3 : op_def_ g1 = op_def_ g) by reflexivity.
  clearbody g1. rewrite filter_refs_app, <- extend_app, <- first_source_app.
  set (g2 := if negb (empty (ArgDef.type_attr arg)) then _ else _).
  assert (Hg2 :
            attr_to_args_ g2 !! a
            = extend (attr_to_args_ g !! a)
                ((fun _ : string => i)
                   <$> filter (fun r => r = a)
                         (if negb (empty (ArgDef.type_attr arg))
                          then [ArgDef.type_attr arg]
                          else if negb (empty (ArgDef.type_list_attr arg))
                               then [ArgDef.type_list_attr arg] else []))
            /\ inferred_attrs_ g2 !! a
               = first_source (op_def_ g) (inferred_attrs_ g !! a)
                   ((fun _ : string => i)
                      <$> filter (fun r => r = a)
                            (if negb (empty (ArgDef.type_attr arg))
                             then [ArgDef.type_attr arg]
                             else if negb (empty (ArgDef.type_list_attr arg))
                                  then [ArgDef.type_list_attr arg] else []))
            /\ op_def_ g2 = op_def_ g).
  { unfold g2.
    destruct (negb (empty (ArgDef.type_attr arg)));
      [| destruct (negb (empty (ArgDef.type_list_attr arg)))];
      rewrite ?filter_refs_one, ?AddAttrForArg_attr_to_args,
        ?AddAttrForArg_inferred_attrs, ?H1, ?H2, ?H3;
      repeat split;
      try (destruct (inferred_attrs_ g !! a); reflexivity);
      pose proof (AddAttrForArg_schema (ArgDef.type_attr arg) i g1) as Hs;
      pose proof (AddAttrForArg_schema (ArgDef.type_list_attr arg) i g1) as Hs';
      unfold schema in Hs, Hs'; congruence. }
  clearbody g2. destruct Hg2 as (Ha2 & Hi2 & Ho2).
  rewrite <- Ha2, <- Hi2.
  destruct (negb (empty (ArgDef.number_attr arg)));
    rewrite ?filter_refs_one, ?AddAttrForArg_attr_to_args,
      ?AddAttrForArg_inferred_attrs, ?Ho2;
    split; try reflexivity.
  destruct (inferred_attrs_ g2 !! a); reflexivity.
Qed.

Lemma add_input_param_fold_maps (a : string) (l : list nat) :
  forall g : Gen,
    attr_to_args_ (foldl add_input_param g l) !! a
    = extend (attr_to_args_ g !! a) (attr_positions (op_def_ g) (api_def_ g) a l)
    /\ inferred_attrs_ (foldl add_input_param g l) !! a
       = first_source (op_def_ g) (inferred_attrs_ g !! a)
           (attr_positions (op_def_ g) (api_def_ g) a l).
Proof.
  induction l as [|i l IH]; intros g.
  - cbn [foldl]. unfold attr_positions. cbn [flat_map extend].
    split; [reflexivity | destruct (inferred_attrs_ g !! a); reflexivity].
  - cbn [foldl].
    destruct (IH (add_input_param g i)) as [IHa IHi].
    destruct (add_input_param_maps g i a) as [Ha Hi].
    pose proof (add_input_param_schema g i) as Hs.
    apply schema_fields in Hs as (Hop & _).
    assert (Hapi : api_def_ (add_input_param g i) = api_def_ g).
    { pose proof (add_input_param_schema g i) as Hs. unfold schema in Hs. congruence. }
    rewrite IHa, IHi, Hop, Hapi, Ha, Hi, extend_app, first_source_app.
    unfold attr_positions. cbn [flat_map]. rewrite app_nil_r. split; reflexivity.
Qed.

Lemma add_attr_params_maps (g : Gen) :
  attr_to_args_ (add_attr_params g) = attr_to_args_ g
  /\ inferred_attrs_ (add_attr_params g) = inferred_attrs_ g.
Proof.
  unfold add_attr_params.
  apply (foldl_invariant
           (fun g' => attr_to_args_ g' = attr_to_args_ g
                      /\ inferred_attrs_ g' = inferred_attrs_ g));
    [| split; reflexivity].
  intros g' i Hg'. cbv zeta.
  destruct (inferred_attrs_ g' !! _); [exact Hg' |].
  repeat match goal with
         | |- context [if ?c then _ else _] => destruct c
         end; exact Hg'.
Qed.

Lemma attr_positions_bound (op_def : OpDef.t) (api_def : ApiDef.t) (a : string)
    (n : nat) :
  Forall (fun i => i < n) (attr_positions op_def api_def a (seq 0 n)).
Proof.
  unfold attr_positions. apply Forall_forall. intros i Hi.
  apply list_elem_of_In, in_flat_map in Hi as (j & Hj & Hij).
  apply in_seq in Hj. apply list_elem_of_In, list_elem_of_fmap in Hij as (r & -> & _).
  lia.
Qed.

(** X3 - What [Code] records about the attrs that inputs mention, starting from
    a new generator.  The positions kept for an attr are the positions in
    [arg_order] of the arguments that mention it, in increasing order, and
    there is an entry only when there is at least one; each is a valid
    position of [arg_order].  The argument recorded as the source of the
    attr is the schema's input at the index equal to the first of these
    positions.  An attr has a source exactly when it has positions. *)
Theorem inferred_attr_bookkeeping (op_def : OpDef.t) (api_def : ApiDef.t)
    (function_name : string) (add_type_annotations : bool) (a : string) :
  attr_to_args_
    (Code_setup (GenEagerPythonOp_new op_def api_def function_name add_type_annotations))
    !! a
  = match attr_positions op_def api_def a
            (seq 0 (length (ApiDef.arg_order api_def))) with
    | [] => None
    | ps => Some ps
    end
  /\ inferred_attrs_
       (Code_setup (GenEagerPythonOp_new op_def api_def function_name
                      add_type_annotations))
       !! a
     = (fun i => ArgDef.name (OpDef.input_arg op_def !!! i))
         <$> head (attr_positions op_def api_def a
                     (seq 0 (length (ApiDef.arg_order api_def))))
  /\ Forall (fun i => i < length (ApiDef.arg_order api_def))
       (attr_positions op_def api_def a (seq 0 (length (ApiDef.arg_order api_def))))
  /\ (is_Some (attr_to_args_
                 (Code_setup (GenEagerPythonOp_new op_def api_def function_name
                                add_type_annotations)) !! a)
      <-> is_Some (inferred_attrs_
                     (Code_setup (GenEagerPythonOp_new op_def api_def function_name
                                    add_type_annotations)) !! a)).
Proof.
  set (g := GenEagerPythonOp_new op_def api_def function_name add_type_annotations).
  set (ps := attr_positions op_def api_def a (seq 0 (length (ApiDef.arg_order api_def)))).
  assert (Hmaps : attr_to_args_ (Code_setup g) !! a = extend None ps
                  /\ inferred_attrs_ (Code_setup g) !! a = first_source op_def None ps).
  { unfold Code_setup. cbv zeta.
    cbn [attr_to_args_ inferred_attrs_ with_attrs_ with_param_names_].
    destruct (add_attr_params_maps (add_input_params g)) as [-> ->].
    rewrite add_input_params_fold.
    exact (add_input_param_fold_maps a _ g). }
  destruct Hmaps as [Ha Hi]. rewrite Ha, Hi.
  split; [destruct ps; reflexivity |].
  split; [reflexivity |].
  split; [apply attr_positions_bound |].
  destruct ps; cbn; split; intros [x Hx]; try discriminate; eexists; reflexivity.
Qed.

End InferredAttrs.

(** ** The parameter lists set up by Code *)

Lemma AddAttrForArg_params (attr : string) (i : nat) (g : Gen) :
  params_no_default_ (AddAttrForArg attr i g) = params_no_default_ g
  /\ params_with_default_ (AddAttrForArg attr i g) = params_with_default_ g
  /\ attrs_ (AddAttrForArg attr i g) = attrs_ g.
Proof.
  unfold AddAttrForArg.
  destruct (inferred_attrs_ g !! attr); cbv zeta;
    cbn [attr_to_args_ with_inferred_attrs_];
    destruct (attr_to_args_ g !! attr); repeat split.
Qed.

Lemma filter_seq_lookup_length {A : Type} `{Inhabited A} (P : A -> bool) (l : list A) :
  forall pre : list A,
    length (filter (fun i => P ((pre ++ l) !!! i) = true) (seq (length pre) (length l)))
    = length (filter (fun x => P x = true) l).
Proof.
  induction l as [|a l IH]; intros pre; [reflexivity |].
  cbn [length seq]. rewrite !filter_cons.
  rewrite (list_lookup_total_middle pre l a (length pre) eq_refl).
  specialize (IH (pre ++ [a])).
  rewrite <- app_assoc in IH. cbn [app] in IH.
  rewrite length_app in IH. cbn [length] in IH. rewrite Nat.add_1_r in IH.
  destruct (decide (P a = true)); cbn [length]; rewrite IH; reflexivity.
Qed.

Section Signature.
Context {internal : Internal}.

(** The body of the second loop of [Code]. *)
Definition add_attr_param (g : Gen) (i : nat) : Gen :=
  let attr := OpDef.attr (op_def_ g) !!! i in
  let api_def_attr := ApiDef.attr (api_def_ g) !!! i in
  match inferred_attrs_ g !! AttrDef.name attr with
  | Some _ => g
  | None =>
      let names :=
        MakeParamNames (ApiDef.attr_name api_def_attr)
                       (ApiDef.attr_rename_to api_def_attr) in
      if ApiDef.has_default_value api_def_attr then
        if String.eqb (AttrDef.type attr) "tensor" then
          with_params_with_default_
            (params_with_default_ g
               ++ [(names,
                    StrCat ["_execute.make_tensor(";
                            TensorPBString
                              (tensor_short_text (ApiDef.default_value api_def_attr));
                            ", "; dq; ApiDef.attr_rename_to api_def_attr;
                            dq; ")"])]) g
        else if String.eqb (AttrDef.type attr) "list(tensor)" then
          let pbtxt :=
            TensorPBString
              <$> list_tensor_short_text (ApiDef.default_value api_def_attr) in
          with_params_with_default_
            (params_with_default_ g
               ++ [(names,
                    StrCat ["[_execute.make_tensor(_pb, "; dq;
                            ApiDef.attr_rename_to api_def_attr; dq;
                            ") for _pb in "; VectorToTuple pbtxt; "]"])]) g
        else
          with_params_with_default_
            (params_with_default_ g
               ++ [(names,
                    AttrValueToPython (AttrDef.type attr)
                      (ApiDef.default_value api_def_attr) "_dtypes.")]) g
      else
        with_params_no_default_ (params_no_default_ g ++ [names]) g
  end.

Lemma add_attr_params_fold (g : Gen) :
  add_attr_params g
  = foldl add_attr_param g (seq 0 (length (OpDef.attr (op_def_ g)))).
Proof. reflexivity. Qed.

(** An attr becomes a parameter when no input gives its value. *)
Definition is_parameter (g : Gen) (attr : AttrDef.t) : bool :=
  match inferred_attrs_ g !! AttrDef.name attr with
  | Some _ => false
  | None => true
  end.

Lemma add_input_param_params (g : Gen) (i : nat) :
  length (params_no_default_ (add_input_param g i)) = S (length (params_no_default_ g))
  /\ params_with_default_ (add_input_param g i) = params_with_default_ g
  /\ attrs_ (add_input_param g i) = attrs_ g.
Proof.
  unfold add_input_param. cbv zeta.
  set (g1 := with_params_no_default_ _ g).
  assert (H1 : length (params_no_default_ g1) = S (length (params_no_default_ g)))
    by (unfold g1; cbn [params_no_default_ with_params_no_default_];
        rewrite length_app; cbn [length]; lia).
  assert (H2 : params_with_default_ g1 = params_with_default_ g) by reflexivity.
  assert (H3 : attrs_ g1 = attrs_ g) by reflexivity.
  clearbody g1.
  repeat match goal with
         | |- context [if ?c then _ else _] => destruct c
         end;
    repeat match goal with
           | |- context [AddAttrForArg ?a ?j ?x] =>
               destruct (AddAttrForArg_params a j x) as (-> & -> & ->)
           end;
    auto.
Qed.

Lemma add_input_param_fold_params (l : list nat) :
  forall g : Gen,
    length (params_no_default_ (foldl add_input_param g l))
    = length (params_no_default_ g) + length l
    /\ params_with_default_ (foldl add_input_param g l) = params_with_default_ g
    /\ attrs_ (foldl add_input_param g l) = attrs_ g.
Proof.
  induction l as [|i l IH]; intros g; [cbn [foldl length]; auto with lia |].
  cbn [foldl length].
  destruct (IH (add_input_param g i)) as (-> & -> & ->).
  destruct (add_input_param_params g i) as (-> & -> & ->). auto with lia.
Qed.

Lemma add_attr_param_grows (g : Gen) (i : nat) :
  exists (l1 : list ParamNames) (l2 : list (ParamNames * string)),
    params_no_default_ (add_attr_param g i) = params_no_default_ g ++ l1
    /\ params_with_default_ (add_attr_param g i) = params_with_default_ g ++ l2
    /\ length l1 + length l2
       = (if is_parameter g (OpDef.attr (op_def_ g) !!! i) then 1 else 0)
    /\ attrs_ (add_attr_param g i) = attrs_ g
    /\ inferred_attrs_ (add_attr_param g i) = inferred_attrs_ g
    /\ op_def_ (add_attr_param g i) = op_def_ g.
Proof.
  unfold add_attr_param, is_parameter. cbv zeta.
  destruct (inferred_attrs_ g !! _).
  - exists [], []. rewrite !app_nil_r. repeat split.
  - repeat match goal with
           | |- context [if ?c then _ else _] => destruct c
           end;
      [eexists [], [_] | eexists [], [_] | eexists [], [_] | eexists [_], []];
      rewrite ?app_nil_r; repeat split.
Qed.

Lemma add_attr_param_fold_grows (l : list nat) :
  forall g : Gen,
    exists (l1 : list ParamNames) (l2 : list (ParamNames * string)),
      params_no_default_ (foldl add_attr_param g l) = params_no_default_ g ++ l1
      /\ params_with_default_ (foldl add_attr_param g l) = params_with_default_ g ++ l2
      /\ length l1 + length l2
         = length (filter (fun i => is_parameter g (OpDef.attr (op_def_ g) !!! i) = true) l)
      /\ attrs_ (foldl add_attr_param g l) = attrs_ g
      /\ inferred_attrs_ (foldl add_attr_param g l) = inferred_attrs_ g.
Proof.
  induction l as [|i l IH]; intros g.
  - exists [], []. cbn [foldl]. rewrite !app_nil_r. repeat split.
  - cbn [foldl].
    destruct (add_attr_param_grows g i) as (a1 & a2 & Hn & Hw & Hlen & Hat & Hinf & Hop).
    destruct (IH (add_attr_param g i)) as (b1 & b2 & Hn' & Hw' & Hlen' & Hat' & Hinf').
    exists (a1 ++ b1), (a2 ++ b2).
    rewrite Hn', Hw', Hn, Hw, Hat', Hat, Hinf', Hinf, <- !app_assoc.
    repeat split. rewrite filter_cons, !length_app.
    assert (Hsame : forall j,
               is_parameter (add_attr_param g i)
                 (OpDef.attr (op_def_ (add_attr_param g i)) !!! j)
               = is_parameter g (OpDef.attr (op_def_ g) !!! j))
      by (intros j; unfold is_parameter; rewrite Hinf, Hop; reflexivity).
    rewrite (list_filter_iff _ (fun j => is_parameter g (OpDef.attr (op_def_ g) !!! j) = true))
      in Hlen' by (intros j; rewrite Hsame; reflexivity).
    destruct (is_parameter g (OpDef.attr (op_def_ g) !!! i));
      [rewrite decide_True by reflexivity | rewrite decide_False by discriminate];
      cbn [length]; lia.
Qed.

Lemma Code_setup_layout (op_def : OpDef.t) (api_def : ApiDef.t)
    (function_name : string) (add_type_annotations : bool) :
  length (ApiDef.arg_order api_def) = length (OpDef.input_arg op_def) ->
  exists (inputs l1 : list ParamNames) (l2 : list (ParamNames * string)),
    length inputs = length (OpDef.input_arg op_def)
    /\ params_with_default_
         (Code_setup (GenEagerPythonOp_new op_def api_def function_name
                        add_type_annotations)) = l2
    /\ param_names_
         (Code_setup (GenEagerPythonOp_new op_def api_def function_name
                        add_type_annotations))
       = inputs ++ l1 ++ (fst <$> l2)
    /\ attrs_
         (Code_setup (GenEagerPythonOp_new op_def api_def function_name
                        add_type_annotations))
       = (GetName <$> l1) ++ (GetName <$> (fst <$> l2))
    /\ length l1 + length l2
       = length (filter
                   (fun attr =>
                      is_parameter
                        (Code_setup (GenEagerPythonOp_new op_def api_def function_name
                                       add_type_annotations)) attr = true)
                   (OpDef.attr op_def)).
Proof.
  intros Horder.
  set (g := GenEagerPythonOp_new op_def api_def function_name add_type_annotations).
  destruct (add_input_param_fold_params (seq 0 (length (ApiDef.arg_order api_def))) g)
    as (Hlen1 & Hwith1 & Hattrs1).
  rewrite length_seq in Hlen1. cbn [params_no_default_ g GenEagerPythonOp_new length]
    in Hlen1.
  change (foldl add_input_param g (seq 0 (length (ApiDef.arg_order api_def))))
    with (add_input_params g) in *.
  assert (Hop : op_def_ (add_input_params g) = op_def).
  { pose proof (add_input_params_schema g) as Hs.
    apply schema_fields in Hs as (Hs & _). exact Hs. }
  destruct (add_attr_param_fold_grows
              (seq 0 (length (OpDef.attr (op_def_ (add_input_params g)))))
              (add_input_params g))
    as (l1 & l2 & Hno & Hwith & Hlen & Hattrs & Hinf).
  change (foldl add_attr_param (add_input_params g)
            (seq 0 (length (OpDef.attr (op_def_ (add_input_params g))))))
    with (add_attr_params (add_input_params g)) in *.
  rewrite Hop in Hlen.
  rewrite Hwith1 in Hwith. rewrite Hattrs1 in Hattrs.
  cbn [params_with_default_ attrs_ g GenEagerPythonOp_new app] in Hwith, Hattrs.
  assert (Hinf' : forall attr,
             is_parameter (Code_setup g) attr = is_parameter (add_input_params g) attr).
  { intros attr. unfold is_parameter, Code_setup. cbv zeta.
    cbn [inferred_attrs_ with_attrs_ with_param_names_]. now rewrite Hinf. }
  assert (Hdrop : drop (length (OpDef.input_arg op_def))
                    (params_no_default_ (add_input_params g) ++ l1) = l1).
  { rewrite drop_app_length'; [reflexivity | lia]. }
  assert (Ha : attrs_ (Code_setup g) = (GetName <$> l1) ++ (GetName <$> (fst <$> l2))).
  { unfold Code_setup. cbv zeta.
    cbn [attrs_ with_attrs_ with_param_names_ params_no_default_ params_with_default_
           op_def_].
    pose proof (add_attr_params_schema (add_input_params g)) as Hs.
    apply schema_fields in Hs as (Hs & _).
    rewrite Hs, Hop, Hattrs, Hno, Hwith, Hdrop. cbn [app].
    now rewrite <- list_fmap_compose. }
  assert (Hp : param_names_ (Code_setup g)
               = params_no_default_ (add_input_params g) ++ l1 ++ (fst <$> l2)).
  { unfold Code_setup. cbv zeta.
    cbn [param_names_ with_attrs_ with_param_names_ params_no_default_
           params_with_default_].
    rewrite Hno, Hwith, <- app_assoc. reflexivity. }
  exists (params_no_default_ (add_input_params g)), l1, l2.
  split; [lia |]. split; [| split; [exact Hp | split; [exact Ha |]]].
  - unfold Code_setup. cbv zeta.
    cbn [params_with_default_ with_attrs_ with_param_names_]. exact Hwith.
  - rewrite Hlen.
    rewrite (list_filter_iff _ (fun attr => is_parameter (add_input_params g) attr = true))
      by (intros attr; rewrite Hinf'; reflexivity).
    exact (filter_seq_lookup_length (is_parameter (add_input_params g))
             (OpDef.attr op_def) []).
Qed.

(** X4 - The layout [Code] sets up from a new generator whose ApiDef orders
    every input once.  The attr names are the names of the parameters that
    follow the inputs, index by index, so the parameter that
    [GetEagerFunctionSetup] reads for the attr at index [i] is the parameter
    of that attr; there are as many parameters as inputs and attrs kept; and
    the attrs kept are as many as the attrs of the schema that no input
    gives. *)
Theorem attrs_follow_inputs_in_param_names (op_def : OpDef.t) (api_def : ApiDef.t)
    (function_name : string) (add_type_annotations : bool) :
  length (ApiDef.arg_order api_def) = length (OpDef.input_arg op_def) ->
  attrs_ (Code_setup (GenEagerPythonOp_new op_def api_def function_name
                        add_type_annotations))
  = GetName
      <$> drop (length (OpDef.input_arg op_def))
            (param_names_
               (Code_setup (GenEagerPythonOp_new op_def api_def function_name
                              add_type_annotations)))
  /\ length (param_names_
               (Code_setup (GenEagerPythonOp_new op_def api_def function_name
                              add_type_annotations)))
     = length (OpDef.input_arg op_def)
       + length (attrs_
                   (Code_setup (GenEagerPythonOp_new op_def api_def function_name
                                  add_type_annotations)))
  /\ length (attrs_
               (Code_setup (GenEagerPythonOp_new op_def api_def function_name
                              add_type_annotations)))
     = length (filter
                 (fun attr =>
                    is_parameter
                      (Code_setup (GenEagerPythonOp_new op_def api_def function_name
                                     add_type_annotations)) attr = true)
                 (OpDef.attr op_def)).
Proof.
  intros Horder.
  destruct (Code_setup_layout op_def api_def function_name add_type_annotations Horder)
    as (inputs & l1 & l2 & Hinputs & _ & Hp & Ha & Hlen).
  rewrite Ha, Hp. split; [| split].
  - rewrite drop_app_length' by lia. now rewrite fmap_app.
  - rewrite !length_app, !length_fmap. lia.
  - rewrite length_app, !length_fmap. exact Hlen.
Qed.

(** X5 - A default value is assigned to the parameter it belongs to.  In the
    layout set up from a new generator whose ApiDef orders every input once,
    the parameters with a default are the last ones, and the default at
    index [j] belongs to the parameter read for the attr at index
    [j + (number of attrs - number of defaults)], which is the attr for
    which [GetEagerFunctionSetup] writes that default. *)
Theorem defaults_belong_to_their_parameters (op_def : OpDef.t) (api_def : ApiDef.t)
    (function_name : string) (add_type_annotations : bool)
    (j : nat) (p : ParamNames) (d : string) :
  length (ApiDef.arg_order api_def) = length (OpDef.input_arg op_def) ->
  params_with_default_
    (Code_setup (GenEagerPythonOp_new op_def api_def function_name
                   add_type_annotations)) !! j = Some (p, d) ->
  length (params_with_default_
            (Code_setup (GenEagerPythonOp_new op_def api_def function_name
                           add_type_annotations)))
  <= length (attrs_
               (Code_setup (GenEagerPythonOp_new op_def api_def function_name
                              add_type_annotations)))
  /\ param_names_
       (Code_setup (GenEagerPythonOp_new op_def api_def function_name
                      add_type_annotations))
       !! (j
           + (length (attrs_
                        (Code_setup (GenEagerPythonOp_new op_def api_def function_name
                                       add_type_annotations)))
              - length (params_with_default_
                          (Code_setup (GenEagerPythonOp_new op_def api_def
                                         function_name add_type_annotations))))
           + length (OpDef.input_arg op_def))
     = Some p
  /\ attrs_
       (Code_setup (GenEagerPythonOp_new op_def api_def function_name
                      add_type_annotations))
       !! (j
           + (length (attrs_
                        (Code_setup (GenEagerPythonOp_new op_def api_def function_name
                                       add_type_annotations)))
              - length (params_with_default_
                          (Code_setup (GenEagerPythonOp_new op_def api_def
                                         function_name add_type_annotations)))))
     = Some (GetName p).
Proof.
  intros Horder Hj.
  destruct (Code_setup_layout op_def api_def function_name add_type_annotations Horder)
    as (inputs & l1 & l2 & Hinputs & Hwith & Hp & Ha & _).
  rewrite Hwith in *. rewrite Ha, Hp.
  rewrite length_app, !length_fmap.
  replace (length l1 + length l2 - length l2) with (length l1) by lia.
  split; [lia |]. split.
  - rewrite app_assoc, lookup_app_r by (rewrite length_app; lia).
    rewrite length_app.
    replace (j + length l1 + length (OpDef.input_arg op_def)
             - (length inputs + length l1)) with j by lia.
    rewrite list_lookup_fmap, Hj. reflexivity.
  - rewrite lookup_app_r by (rewrite length_fmap; lia).
    rewrite length_fmap.
    replace (j + length l1 - length l1) with j by lia.
    rewrite !list_lookup_fmap, Hj. reflexivity.
Qed.

End Signature.

Lemma attrs_follow_inputs_clip :
  attrs_ (Code_setup (internal:=plain_internal)
            (GenEagerPythonOp_new clip_op clip_api "clip" false))
  = GetName
      <$> drop 1
            (param_names_
               (Code_setup (internal:=plain_internal)
                  (GenEagerPythonOp_new clip_op clip_api "clip" false))).
Proof.
  destruct (attrs_follow_inputs_in_param_names (internal:=plain_internal)
              clip_op clip_api "clip" false) as [H _].
  - reflexivity.
  - exact H.
Defined.

(** ** Which reference argument the refusal names *)

(** [j] is the index of the last reference argument of [l]. *)
Definition last_ref_at (l : list ArgDef.t) (j : nat) : Prop :=
  (exists a, l !! j = Some a /\ ArgDef.is_ref a = true)
  /\ forall k b, j < k -> l !! k = Some b -> ArgDef.is_ref b = false.

Lemma no_ref_existsb (l : list ArgDef.t) :
  (forall k b, l !! k = Some b -> ArgDef.is_ref b = false) ->
  existsb ArgDef.is_ref l = false.
Proof.
  induction l as [|a l IH]; intros Hall; [reflexivity |].
  cbn [existsb]. rewrite (Hall 0 a eq_refl), IH; [reflexivity |].
  intros k b Hk. exact (Hall (S k) b Hk).
Qed.

Lemma ref_scan_last (api_args : list ApiDef.Arg) (l : list ArgDef.t) :
  forall (i : nat) (st : bool * string) (j : nat),
    last_ref_at l j ->
    foldli (ref_scan_step api_args) i st l
    = (false, ApiDef.arg_rename_to (api_args !!! (i + j))).
Proof.
  induction l as [|a l IH]; intros i st j [[b [Hj Hb]] Hlast]; [discriminate |].
  cbn [foldli]. destruct j as [|j].
  - injection Hj as ->.
    assert (Hnone : existsb ArgDef.is_ref l = false).
    { apply no_ref_existsb. intros k c Hk. apply (Hlast (S k) c); [lia | exact Hk]. }
    destruct (ref_scan_foldli api_args l (S i) (ref_scan_step api_args st i b))
      as [[_ ->] | [Hsome _]]; [| congruence].
    unfold ref_scan_step. now rewrite Hb, Nat.add_0_r.
  - rewrite (IH (S i) _ j); [now rewrite Nat.add_succ_r |].
    split; [exists b; split; assumption |].
    intros k c Hk Hc. apply (Hlast (S k) c); [lia | exact Hc].
Qed.

Section WhichReference.
Context {internal : Internal}.

(** X6 - The refusal text is empty exactly when no input and no output is a
    reference.  Otherwise it names one argument: the last reference output
    when an output is a reference, and the last reference input when only
    inputs are. *)
Theorem refusal_names_the_last_reference (g : Gen) :
  (GetEagerNotAllowedError g = "" <-> has_ref_arg (op_def_ g) = false)
  /\ (forall j,
        last_ref_at (OpDef.output_arg (op_def_ g)) j ->
        GetEagerNotAllowedError g
        = refusal (op_name_ g)
            (ApiDef.arg_rename_to (ApiDef.out_arg (api_def_ g) !!! j)))
  /\ (forall j,
        existsb ArgDef.is_ref (OpDef.output_arg (op_def_ g)) = false ->
        last_ref_at (OpDef.input_arg (op_def_ g)) j ->
        GetEagerNotAllowedError g
        = refusal (op_name_ g)
            (ApiDef.arg_rename_to (ApiDef.in_arg (api_def_ g) !!! j))).
Proof.
  split; [| split].
  - destruct (GetEagerNotAllowedError_spec g)
      as [[Hno Herr] | [Hyes (ref_arg & _ & Herr)]]; rewrite Herr.
    + split; intros _; [exact Hno | reflexivity].
    + split; [discriminate | congruence].
  - intros j Hj. unfold GetEagerNotAllowedError. cbv zeta beta.
    rewrite (foldl_seq_foldli
               (fun st i a =>
                  if ArgDef.is_ref a
                  then (false, ApiDef.arg_rename_to (ApiDef.out_arg (api_def_ g) !!! i))
                  else st)).
    fold (ref_scan_step (ApiDef.out_arg (api_def_ g))).
    rewrite (ref_scan_last _ _ 0 _ j Hj). unfold refusal. str_eq.
  - intros j Hout Hj. unfold GetEagerNotAllowedError. cbv zeta beta.
    rewrite (foldl_seq_foldli
               (fun st i a =>
                  if ArgDef.is_ref a
                  then (false, ApiDef.arg_rename_to (ApiDef.in_arg (api_def_ g) !!! i))
                  else st)).
    rewrite (foldl_seq_foldli
               (fun st i a =>
                  if ArgDef.is_ref a
                  then (false, ApiDef.arg_rename_to (ApiDef.out_arg (api_def_ g) !!! i))
                  else st)).
    fold (ref_scan_step (ApiDef.in_arg (api_def_ g))).
    fold (ref_scan_step (ApiDef.out_arg (api_def_ g))).
    rewrite (ref_scan_last _ _ 0 _ j Hj).
    destruct (ref_scan_foldli (ApiDef.out_arg (api_def_ g))
                (OpDef.output_arg (op_def_ g)) 0
                (false, ApiDef.arg_rename_to (ApiDef.in_arg (api_def_ g) !!! (0 + j))))
      as [[_ ->] | [Hsome _]]; [| congruence].
    unfold refusal. str_eq.
Qed.

End WhichReference.

Lemma refusal_names_output_of_assign :
  GetEagerNotAllowedError
    (prepared (internal:=plain_internal) assign_op assign_api "assign")
  = refusal "assign" "output_ref".
Proof.
  destruct (refusal_names_the_last_reference
              (prepared (internal:=plain_internal) assign_op assign_api "assign"))
    as (_ & Hout & _).
  rewrite (Hout 0).
  - vm_compute. reflexivity.
  - split.
    + eexists. split; vm_compute; reflexivity.
    + intros k b Hk Hb. destruct k as [|k]; [lia |].
      vm_compute in Hb. discriminate.
Defined.

(** ** When the setup succeeds *)

Lemma first_failure {A : Type} (P : A -> bool) (l : list A) :
  Forall (fun x => P x = true) l
  \/ exists pre a post,
       l = pre ++ a :: post /\ Forall (fun x => P x = true) pre /\ P a = false.
Proof.
  induction l as [|x l IH]; [left; constructor |].
  destruct (P x) eqn:Hx.
  - destruct IH as [Hall | (pre & a & post & -> & Hpre & Ha)].
    + left. constructor; assumption.
    + right. exists (x :: pre), a, post. repeat split; [constructor |]; assumption.
  - right. exists [], x, l. repeat split; [constructor | exact Hx].
Qed.

Section Setup.
Context {internal : Internal}.

Lemma GetEagerFunctionSetup_ok_iff (indentation function_setup : string) (g : Gen) :
  (GetEagerFunctionSetup indentation function_setup g).1.1 = true
  <-> Forall (fun n => accepted_kind (attr_kind g n) = true) (attrs_ g).
Proof.
  split; [| apply GetEagerFunctionSetup_supported].
  intros Hok.
  destruct (first_failure (fun n => accepted_kind (attr_kind g n)) (attrs_ g))
    as [Hall | (pre & a & post & Hattrs & Hpre & Ha)]; [exact Hall |].
  pose proof (GetEagerFunctionSetup_unsupported indentation function_setup g
                pre a post Hattrs Hpre Ha) as Hfail.
  rewrite Hfail in Hok. discriminate.
Qed.

(** X7 - [GetEagerFunctionSetup] succeeds exactly when every attr that is a
    parameter has an accepted kind; whether it succeeds or not, the only
    field of the generator it changes is the map of attr expressions. *)
Theorem setup_succeeds_iff_kinds_accepted (indentation function_setup : string)
    (g : Gen) :
  ((GetEagerFunctionSetup indentation function_setup g).1.1 = true
   <-> Forall (fun n => accepted_kind (attr_kind g n) = true) (attrs_ g))
  /\ (GetEagerFunctionSetup indentation function_setup g).2
     = with_attr_expressions_
         (attr_expressions_ (GetEagerFunctionSetup indentation function_setup g).2) g.
Proof.
  split; [apply GetEagerFunctionSetup_ok_iff | apply GetEagerFunctionSetup_frame].
Qed.

Lemma appends_graph_mode_and_exports (parameters function_setup : string)
    (output_sizes : list string) (g : Gen) :
  appends g (graph_mode_and_exports parameters function_setup output_sizes g).
Proof.
  pose proof (appends_after_apply_op function_setup g) as Hhead.
  unfold graph_mode_and_exports. appends_all.
Qed.

(** A successful [AddEagerFastPathAndGraphCode] leaves the plan of the
    generator as it was. *)
Lemma AddEagerFastPathAndGraphCode_keeps (parameters : string)
    (output_sizes : list string) (eager_not_allowed_error : string)
    (type_annotations : gmap string string) (g g' : Gen) (ok : bool) :
  AddEagerFastPathAndGraphCode parameters output_sizes eager_not_allowed_error
    type_annotations g = Some (ok, g') ->
  keeps g g'
  /\ (ok = true
      <-> Forall (fun n => accepted_kind (attr_kind g n) = true) (attrs_ g)).
Proof.
  intros Hcode. unfold AddEagerFastPathAndGraphCode in Hcode.
  destruct (function_head parameters type_annotations g) as [g1|] eqn:Hhead;
    cbn [mbind option_bind] in Hcode; [| discriminate].
  destruct (function_head_spec _ _ _ _ Hhead) as [Hk1 _]. clear Hhead.
  cbv zeta in Hcode.
  match type of Hcode with
  | context [GetEagerFunctionSetup "  " "" ?x] =>
      assert (Hk2 : keeps g x)
        by (eapply keeps_trans; [exact Hk1 |];
            destruct (empty eager_not_allowed_error);
            [apply appends_keeps, appends_AddEagerFastPathExecute | reflexivity]);
      generalize dependent x; intros g2 Hcode Hk2
  end.
  pose proof (GetEagerFunctionSetup_ok_iff "  " "" g2) as Hiff.
  pose proof (GetEagerFunctionSetup_frame "  " "" g2) as Hframe.
  apply only_attr_expressions_keeps in Hframe as [Hk3 _].
  destruct (GetEagerFunctionSetup "  " "" g2) as [[ok' fs] g3].
  cbn [fst snd] in Hiff, Hk3.
  assert (Hkinds : ok' = true
                   <-> Forall (fun n => accepted_kind (attr_kind g n) = true) (attrs_ g)).
  { rewrite Hiff.
    destruct (keeps_fields g g2 Hk2) as (_ & _ & _ & _ & _ & -> & _).
    split; intros H; (eapply Forall_impl; [exact H |]); intros n Hn;
      [rewrite <- (attr_kind_keeps g g2 n Hk2) | rewrite (attr_kind_keeps g g2 n Hk2)];
      exact Hn. }
  destruct ok'; cbn [negb] in Hcode; inversion Hcode; subst; (split; [| exact Hkinds]).
  - eapply keeps_trans; [exact Hk2 |]. eapply keeps_trans; [exact Hk3 |].
    apply appends_keeps, appends_graph_mode_and_exports.
  - eapply keeps_trans; [exact Hk2 |]. eapply keeps_trans; [exact Hk3 |]. reflexivity.
Qed.

(** X8 - Once the main function has been written, the fallback function is
    written too: the setup that succeeded for the first cannot fail for the
    second, so the second early return of [Code] is never taken. *)
Theorem fallback_follows_main_function (parameters parameters' : string)
    (output_sizes output_sizes' : list string) (num_outputs_expr : string)
    (eager_not_allowed_error eager_not_allowed_error' : string)
    (type_annotations type_annotations' : gmap string string)
    (g g1 g2 : Gen) (ok : bool) :
  AddEagerFastPathAndGraphCode parameters output_sizes eager_not_allowed_error
    type_annotations g = Some (true, g1) ->
  AddEagerFallbackCode parameters' output_sizes' num_outputs_expr
    eager_not_allowed_error' type_annotations' g1 = Some (ok, g2) ->
  ok = true.
Proof.
  intros Hmain Hfallback.
  destruct (AddEagerFastPathAndGraphCode_keeps _ _ _ _ _ _ _ Hmain) as [Hk Hkinds].
  pose proof (proj1 Hkinds eq_refl) as Hall. clear Hkinds Hmain.
  unfold AddEagerFallbackCode in Hfallback. cbv zeta in Hfallback.
  match type of Hfallback with
  | context [add_type_annotations_ ?x] => set (gd := x) in Hfallback
  end.
  assert (Hkd : keeps g gd) by (eapply keeps_trans; [exact Hk | reflexivity]).
  clearbody gd.
  destruct (if add_type_annotations_ gd
            then AddReturnTypeAnnotation type_annotations' gd
            else Some gd) as [g3|] eqn:H3;
    cbn [mbind option_bind] in Hfallback; [| discriminate].
  assert (Hk3 : keeps g g3).
  { eapply keeps_trans; [exact Hkd |].
    destruct (add_type_annotations_ gd);
      [exact (AddReturnTypeAnnotation_keeps _ _ _ H3) | inversion H3; apply keeps_refl]. }
  clear H3.
  destruct (negb (empty eager_not_allowed_error')); [congruence |].
  pose proof (GetEagerFunctionSetup_supported "  " "" g3) as Hok.
  destruct (GetEagerFunctionSetup "  " "" g3) as [[ok' fs] g4]. cbn [fst] in Hok.
  rewrite Hok in Hfallback; [cbn [negb] in Hfallback; congruence |].
  destruct (keeps_fields g g3 Hk3) as (_ & _ & _ & _ & _ & -> & _).
  eapply Forall_impl; [exact Hall |]. intros n Hn.
  now rewrite (attr_kind_keeps g g3 n Hk3).
Qed.

End Setup.

Lemma fallback_follows_main_function_add :
  exists g1 g2,
    AddEagerFastPathAndGraphCode (internal:=plain_internal) "x, y, name=None" [""] ""
      ∅ (prepared (internal:=plain_internal) add_op add_api "add")
    = Some (true, g1)
    /\ AddEagerFallbackCode (internal:=plain_internal) "x, y, name" [""] "1" "" ∅ g1
       = Some (true, g2).
Proof.
  destruct (AddEagerFastPathAndGraphCode (internal:=plain_internal) "x, y, name=None"
              [""] "" ∅ (prepared (internal:=plain_internal) add_op add_api "add"))
    as [[ok1 g1]|] eqn:H1; [| vm_compute in H1; discriminate].
  destruct ok1; [| vm_compute in H1; discriminate].
  destruct (AddEagerFallbackCode (internal:=plain_internal) "x, y, name" [""] "1" "" ∅ g1)
    as [[ok2 g2]|] eqn:H2.
  - exists g1, g2. split; [reflexivity |].
    rewrite H2. do 2 f_equal.
    exact (fallback_follows_main_function (internal:=plain_internal)
             _ _ _ _ _ _ _ _ _ _ _ _ _ H1 H2).
  - exfalso. vm_compute in H1. injection H1 as <-. vm_compute in H2. discriminate.
Defined.

(** ** The unit as a whole *)

Section Unit.
Context {internal : Internal}.



(** What one operation contributes to the unit. *)
Definition op_block (api_defs : string -> ApiDef.t) (hidden_ops : list string)
    (type_annotate_ops : gset string) (op_def : OpDef.t) : option string :=
  match choose_function_name op_def (api_defs (OpDef.name op_def)) hidden_ops with
  | None => Some ""
  | Some function_name =>
      GetEagerPythonOp op_def (api_defs (OpDef.name op_def)) function_name
        (bool_decide (OpDef.name op_def ∈ type_annotate_ops))
  end.

Lemma GetPythonOpsImpl_step_block (api_defs : string -> ApiDef.t)
    (hidden_ops : list string) (type_annotate_ops : gset string)
    (result : string) (op_def : OpDef.t) :
  GetPythonOpsImpl_step api_defs hidden_ops type_annotate_ops (Some result) op_def
  = block ← op_block api_defs hidden_ops type_annotate_ops op_def;
    Some (result +:+ block).
Proof.
  unfold GetPythonOpsImpl_step, op_block. cbn [mbind option_bind]. cbv zeta.
  destruct (choose_function_name op_def (api_defs (OpDef.name op_def)) hidden_ops).
  - destruct (GetEagerPythonOp _ _ _ _); [| reflexivity].
    cbn [mbind option_bind]. f_equal. str_eq.
  - cbn [mbind option_bind]. now rewrite append_nil_r.
Qed.

Lemma GetPythonOpsImpl_fold_none (api_defs : string -> ApiDef.t)
    (hidden_ops : list string) (type_annotate_ops : gset string) (ops : list OpDef.t) :
  foldl (GetPythonOpsImpl_step api_defs hidden_ops type_annotate_ops) None ops = None.
Proof. induction ops as [|op ops IH]; [reflexivity | exact IH]. Qed.

Lemma GetPythonOpsImpl_fold_blocks (api_defs : string -> ApiDef.t)
    (hidden_ops : list string) (type_annotate_ops : gset string) (ops : list OpDef.t) :
  forall result : string,
    foldl (GetPythonOpsImpl_step api_defs hidden_ops type_annotate_ops)
      (Some result) ops
    = blocks ← mapM (op_block api_defs hidden_ops type_annotate_ops) ops;
      Some (result +:+ StrCat blocks).
Proof.
  induction ops as [|op ops IH]; intros result.
  - cbn. now rewrite append_nil_r.
  - cbn [foldl mapM]. rewrite GetPythonOpsImpl_step_block.
    destruct (op_block api_defs hidden_ops type_annotate_ops op) as [block|].
    + cbn [mbind option_bind]. rewrite IH.
      destruct (mapM _ ops) as [blocks|]; [| reflexivity].
      cbn [mbind option_bind mret option_ret]. f_equal.
      change (StrCat (block :: blocks)) with (block +:+ StrCat blocks).
      now rewrite append_assoc.
    + cbn [mbind option_bind]. apply GetPythonOpsImpl_fold_none.
Qed.

(** X9 - The generated unit is the header followed by the blocks of the
    operations, in the order of the list.  The block of an operation is
    computed from that operation and its ApiDef alone: it does not depend on
    the operations before or after it.  An operation that is passed over
    contributes the empty text; an operation whose generation throws makes
    the whole unit fail. *)
Theorem unit_is_header_then_blocks (ops : list OpDef.t)
    (api_defs : string -> ApiDef.t) (hidden_ops : list string)
    (source_file_list : list string) (type_annotate_ops : gset string) :
  GetPythonOpsImpl ops api_defs hidden_ops source_file_list type_annotate_ops
  = blocks ← mapM (op_block api_defs hidden_ops type_annotate_ops) ops;
    Some (header source_file_list +:+ StrCat blocks).
Proof. apply GetPythonOpsImpl_fold_blocks. Qed.





End Unit.

(** ** Operations without outputs, and with a single list output *)

Section OutputEdges.
Context {internal : Internal}.

(** X11 - An operation without outputs.  In graph mode the function returns the
    node [_op] right after the node is built, with no gradient bookkeeping;
    the fallback function sets [_result] to [None] and returns it, also
    without gradient bookkeeping; and the output count handed to the
    runtime is the literal 0. *)
Theorem operation_without_outputs (function_setup indentation : string)
    (output_sizes : list string) (execute_record_gradient : bool) (g : Gen) :
  num_outs_ g = 0 ->
  result_ (HandleGraphMode function_setup output_sizes g)
  = result_ (after_apply_op function_setup g) +:+ StrCat ["  return _op"; nl]
  /\ result_ (AddEagerFunctionTeardown indentation output_sizes
                execute_record_gradient g)
     = result_ g +:+ StrCat [indentation; "_result = None"; nl;
                             indentation; "return _result"; nl; nl]
  /\ GetOutputSizesAndNumOutputsExpr (replicate (num_outs_ g) "") "" g = ([], "0").
Proof.
  intros Hn. split; [| split].
  - rewrite HandleGraphMode_eq.
    destruct (appends_after_apply_op function_setup g) as [t Ht].
    assert (Hn1 : num_outs_ (after_apply_op function_setup g) = 0)
      by (rewrite Ht; exact Hn).
    rewrite Hn1. reflexivity.
  - unfold AddEagerFunctionTeardown. rewrite Hn. cbn [Nat.ltb Nat.leb].
    cbv zeta. rewrite !result_emit. str_eq.
  - unfold GetOutputSizesAndNumOutputsExpr. rewrite Hn. reflexivity.
Qed.

(** X12 - An operation whose single output is a list.  Both the fallback
    function and the graph-mode part return [_result] as it is: nothing is
    written between the gradient bookkeeping and the [return], so the list
    is neither unpacked nor wrapped in a named tuple. *)
Theorem single_list_output_is_returned_whole (indentation : string)
    (output_sizes : list string) (execute_record_gradient : bool) (g : Gen) :
  num_outs_ g = 1 ->
  output_sizes !!! 0 <> "" ->
  result_ (AddEagerFunctionTeardown indentation output_sizes
             execute_record_gradient g)
  = result_ g +:+ record_gradient_text indentation execute_record_gradient g
    +:+ StrCat [indentation; "return _result"; nl; nl]
  /\ exists pre,
       result_ (graph_results output_sizes g)
       = pre +:+ StrCat ["    _execute.record_gradient("; nl; "        "; dq;
                         OpDef.name (op_def_ g); dq;
                         ", _inputs_flat, _attrs, _result)"; nl;
                         "  return _result"; nl; nl].
Proof.
  intros Hn Hsize.
  assert (Hne : negb (empty (output_sizes !!! 0)) = true).
  { destruct (output_sizes !!! 0); [congruence | reflexivity]. }
  split.
  - unfold AddEagerFunctionTeardown, record_gradient_text. rewrite Hn.
    destruct execute_record_gradient; cbv zeta;
      cbn [Nat.ltb Nat.leb num_outs_ op_def_ emit with_result_];
      rewrite Hn, Hne; cbn [Nat.eqb andb];
      rewrite ?result_emit; cbn [result_]; str_eq.
  - unfold graph_results. cbv zeta.
    match goal with
    | |- context [emit ["    _inputs_flat = _op.inputs"; nl] ?x] =>
        assert (Hx : num_outs_ x = 1 /\ op_def_ x = op_def_ g)
          by (destruct (0 <? length (OpDef.attr _)); split; first [exact Hn | reflexivity]);
        generalize dependent x; intros g2 [Hn2 Hop2]
    end.
    cbn [num_outs_ op_def_ emit with_result_]. rewrite Hn2, Hne, Hop2.
    cbn [Nat.eqb andb].
    exists (result_ g2 +:+ StrCat ["    _inputs_flat = _op.inputs"; nl]).
    rewrite !result_emit. str_eq.
Qed.

End OutputEdges.

(** An operation with a list output only, and one without any output. *)
Definition unpack_op : OpDef.t :=
  OpDef.mk "Unpack" [] [ArgDef.mk "out" 0 "" "N" "" false]
    [AttrDef.mk "N" "int" false []] true.

Definition unpack_api : ApiDef.t :=
  ApiDef.mk ApiDef.HIDDEN [] [ApiDef.mkArg "out" "out"]
    [ApiDef.mkAttr "N" "N" false ""] [].

Definition no_op : OpDef.t := OpDef.mk "NoOp" [] [] [] false.

Lemma no_op_returns_none :
  result_ (AddEagerFunctionTeardown (internal:=plain_internal) "  " [] true
             (prepared (internal:=plain_internal) no_op (api_with ApiDef.HIDDEN) "no_op"))
  = StrCat ["  _result = None"; nl; "  return _result"; nl; nl].
Proof.
  destruct (operation_without_outputs (internal:=plain_internal) "" "  " [] true
              (prepared (internal:=plain_internal) no_op (api_with ApiDef.HIDDEN) "no_op"))
    as (_ & Hteardown & _).
  - vm_compute. reflexivity.
  - rewrite Hteardown. vm_compute. reflexivity.
Defined.

Lemma unpack_returns_the_list :
  result_ (AddEagerFunctionTeardown (internal:=plain_internal) "  " ["_attr_N"] false
             (prepared (internal:=plain_internal) unpack_op unpack_api "unpack"))
  = StrCat ["  return _result"; nl; nl].
Proof.
  destruct (single_list_output_is_returned_whole (internal:=plain_internal) "  "
              ["_attr_N"] false
              (prepared (internal:=plain_internal) unpack_op unpack_api "unpack"))
    as (Hteardown & _).
  - vm_compute. reflexivity.
  - vm_compute. discriminate.
  - rewrite Hteardown. vm_compute. reflexivity.
Defined.

(** ** Inferring and checking list lengths *)

Section ListLengths.
Context {internal : Internal}.

(** The comparison written for a further argument of an inferred length. *)
Definition length_check_text (g : Gen) (indentation arg_api_name attr_var source : string)
  : string :=
  StrCat [indentation; "if len("; arg_api_name; ") != "; attr_var; ":"; nl;
          indentation; "  raise ValueError("; nl;
          indentation; "      "; dq; "List argument '"; arg_api_name;
          "' to '"; op_name_ g; "' Op with length %d "; dq; nl;
          indentation; "      "; dq; "must match length %d of argument '";
          source; "'."; dq; " %"; nl;
          indentation; "      (len("; arg_api_name; "), "; attr_var; "))"; nl].

Lemma ExpectListArg_append (g : Gen) (indentation arg_name output : string) :
  ExpectListArg g indentation arg_name output
  = output +:+ ExpectListArg g indentation arg_name "".
Proof. unfold ExpectListArg. str_eq. Qed.

Lemma infer_length_attr_later (indentation attr_name : string) (rest : list nat) :
  forall (function_setup : string) (g : Gen),
    infer_length_attr indentation attr_name false rest function_setup g
    = (function_setup
       +:+ StrCat
             ((fun j =>
                 ExpectListArg g indentation (GetRenameTo (param_names_ g !!! j)) ""
                 +:+ length_check_text g indentation
                       (GetRenameTo (param_names_ g !!! j))
                       (at_or_empty (attr_expressions_ g) attr_name)
                       (at_or_empty (inferred_attrs_ g) attr_name))
                <$> rest),
       g).
Proof.
  induction rest as [|j rest IH]; intros function_setup g.
  - cbn [infer_length_attr fmap list_fmap StrCat foldr]. now rewrite append_nil_r.
  - cbn [infer_length_attr]. cbv zeta. rewrite IH. f_equal.
    rewrite ExpectListArg_append. cbn [fmap list_fmap].
    unfold length_check_text. str_eq.
Qed.

(** X13 - The statements written for an int attr that is the length of list
    inputs.  Every argument of the group gets a check that it is a list.
    The first one is followed by the assignment of the attr variable from
    its length; each later one by a comparison of its length with that same
    variable, whose message names the checked argument and the argument
    recorded as the source of the attr.  Apart from the text, the call only
    binds the attr to its variable. *)
Theorem list_lengths_are_inferred_then_checked (indentation attr_name : string)
    (first : nat) (rest : list nat) (function_setup : string) (g : Gen) :
  infer_length_attr indentation attr_name true (first :: rest) function_setup g
  = (function_setup
     +:+ ExpectListArg g indentation (GetRenameTo (param_names_ g !!! first)) ""
     +:+ StrCat [indentation; "_attr_"; attr_name; " = len(";
                 GetRenameTo (param_names_ g !!! first); ")"; nl]
     +:+ StrCat
           ((fun j =>
               ExpectListArg g indentation (GetRenameTo (param_names_ g !!! j)) ""
               +:+ length_check_text g indentation
                     (GetRenameTo (param_names_ g !!! j))
                     (StrCat ["_attr_"; attr_name])
                     (at_or_empty (inferred_attrs_ g) attr_name))
              <$> rest),
     with_attr_expressions_
       (<[attr_name := StrCat ["_attr_"; attr_name]]> (attr_expressions_ g)) g).
Proof.
  cbn [infer_length_attr]. cbv zeta.
  unfold AddInferredAttr, AttrVarName.
  cbn [fmap option_fmap option_map default from_option id].
  rewrite infer_length_attr_later.
  cbn [param_names_ inferred_attrs_ attr_expressions_ with_attr_expressions_].
  unfold at_or_empty at 1. rewrite lookup_insert_eq. cbn [default from_option id].
  f_equal.
  - rewrite (ExpectListArg_append g indentation _ function_setup).
    str_eq.
Qed.

End ListLengths.

(** ** The return annotation *)

Lemma substring_prefix (a b : string) :
  String.substring 0 (String.length a) (a +:+ b) = a.
Proof.
  induction a as [|c a IH]; [destruct b; reflexivity |].
  rewrite append_cons. cbn [String.length String.substring]. now rewrite IH.
Qed.

Lemma erase_last_two (body x y : string) :
  String.length x + String.length y = 2 ->
  erase_from (body +:+ x +:+ y)
    (String.length (body +:+ x +:+ y) - 2) = body.
Proof.
  intros Hlen. unfold erase_from. rewrite !length_append.
  replace (String.length body + (String.length x + String.length y) - 2)
    with (String.length body) by lia.
  apply substring_prefix.
Qed.

Section ReturnAnnotation.
Context {internal : Internal}.

(** X14 - [AddReturnTypeAnnotation] changes nothing unless the operation has
    exactly one output and that output is not a list.  In that case it looks
    the output up in the annotations, which throws when the output has no
    entry; otherwise, on a text that ends with the colon and newline of the
    [def] line, it puts the arrow and the annotation in front of that colon
    and touches nothing else. *)
Theorem return_annotation_goes_before_the_colon
    (type_annotations : gmap string string) (g : Gen) :
  (length (OpDef.output_arg (op_def_ g)) <> 1 ->
   AddReturnTypeAnnotation type_annotations g = Some g)
  /\ (forall arg,
        OpDef.output_arg (op_def_ g) = [arg] -> is_list_arg arg = true ->
        AddReturnTypeAnnotation type_annotations g = Some g)
  /\ (forall arg,
        OpDef.output_arg (op_def_ g) = [arg] -> is_list_arg arg = false ->
        type_annotations !! ArgDef.name arg = None ->
        AddReturnTypeAnnotation type_annotations g = None)
  /\ (forall arg body return_type,
        OpDef.output_arg (op_def_ g) = [arg] -> is_list_arg arg = false ->
        type_annotations !! ArgDef.name arg = Some return_type ->
        result_ g = body +:+ ":" +:+ nl ->
        AddReturnTypeAnnotation type_annotations g
        = Some (with_result_ (body +:+ " -> " +:+ return_type +:+ ":" +:+ nl) g)).
Proof.
  assert (Hlist : forall arg,
             (empty (ArgDef.number_attr arg) && empty (ArgDef.type_list_attr arg))
             = negb (is_list_arg arg)).
  { intros arg. unfold is_list_arg.
    destruct (empty (ArgDef.number_attr arg)), (empty (ArgDef.type_list_attr arg));
      reflexivity. }
  unfold AddReturnTypeAnnotation. repeat split.
  - intros Hlen. destruct (OpDef.output_arg (op_def_ g)) as [|a [|b l]];
      [reflexivity | cbn [length] in Hlen; congruence | reflexivity].
  - intros arg -> Ha. rewrite Hlist, Ha. reflexivity.
  - intros arg -> Ha Hnone. rewrite Hlist, Ha, Hnone. reflexivity.
  - intros arg body return_type -> Ha Hsome Hres.
    rewrite Hlist, Ha, Hsome. cbn [negb mbind option_bind]. cbv zeta.
    rewrite Hres, (erase_last_two body ":" nl eq_refl).
    unfold emit. cbn [result_ with_result_]. reflexivity.
Qed.


End ReturnAnnotation.

Lemma return_annotation_of_add :
  AddReturnTypeAnnotation {["z" := "_ops.Tensor[TV_Add_T]"]}
    (with_result_ ("def add(x, y, name=None)" +:+ ":" +:+ nl)
       (GenEagerPythonOp_new add_op add_api "add" true))
  = Some (with_result_
            ("def add(x, y, name=None)" +:+ " -> " +:+ "_ops.Tensor[TV_Add_T]"
             +:+ ":" +:+ nl)
            (with_result_ ("def add(x, y, name=None)" +:+ ":" +:+ nl)
               (GenEagerPythonOp_new add_op add_api "add" true))).
Proof.
  destruct (return_annotation_goes_before_the_colon
              {["z" := "_ops.Tensor[TV_Add_T]"]}
              (with_result_ ("def add(x, y, name=None)" +:+ ":" +:+ nl)
                 (GenEagerPythonOp_new add_op add_api "add" true)))
    as (_ & _ & _ & Hfound).
  apply (Hfound (ArgDef.mk "z" 0 "T" "" "" false)); reflexivity.
Defined.


(** ** The TypeVar declarations *)

Lemma ascii_compare_refl (c : ascii) : Ascii.compare c c = Eq.
Proof. unfold Ascii.compare. apply N.compare_refl. Qed.

Lemma ascii_compare_lt_trans (a b c : ascii) :
  Ascii.compare a b = Lt -> Ascii.compare b c = Lt -> Ascii.compare a c = Lt.
Proof.
  unfold Ascii.compare. rewrite !N.compare_lt_iff. apply N.lt_trans.
Qed.

Lemma string_compare_lt_trans (s1 : string) :
  forall s2 s3 : string,
    String.compare s1 s2 = Lt -> String.compare s2 s3 = Lt ->
    String.compare s1 s3 = Lt.
Proof.
  induction s1 as [|c1 s1 IH]; intros [|c2 s2] [|c3 s3]; cbn [String.compare];
    try discriminate; try reflexivity.
  destruct (Ascii.compare c1 c2) eqn:H12; try discriminate;
    destruct (Ascii.compare c2 c3) eqn:H23; try discriminate.
  - apply Ascii.compare_eq_iff in H12, H23. subst.
    rewrite ascii_compare_refl. apply IH.
  - apply Ascii.compare_eq_iff in H12. subst. rewrite H23. reflexivity.
  - apply Ascii.compare_eq_iff in H23. subst. rewrite H12. reflexivity.
  - rewrite (ascii_compare_lt_trans _ _ _ H12 H23). reflexivity.
Qed.

#[global] Instance string_le_trans : Transitive string_le.
Proof.
  intros s1 s2 s3. unfold string_le, String.leb.
  destruct (String.compare s1 s2) eqn:H12; try discriminate;
    destruct (String.compare s2 s3) eqn:H23; try discriminate; intros _ _.
  - apply String.compare_eq_iff in H12. subst. now rewrite H23.
  - apply String.compare_eq_iff in H12. subst. now rewrite H23.
  - apply String.compare_eq_iff in H23. subst. now rewrite H12.
  - now rewrite (string_compare_lt_trans _ _ _ H12 H23).
Qed.

#[global] Instance string_le_total : Total string_le.
Proof. intros s1 s2. apply String.leb_total. Qed.

#[global] Instance string_le_antisym : AntiSymm eq string_le.
Proof. intros s1 s2. apply String.leb_antisym. Qed.

Lemma mapM_Permutation {A B : Type} (f : A -> option B) (l l' : list A) :
  l ≡ₚ l' ->
  match mapM f l, mapM f l' with
  | Some r, Some r' => r ≡ₚ r'
  | None, None => True
  | _, _ => False
  end.
Proof.
  induction 1 as [|x l l' _ IH|x y l|l1 l2 l3 _ IH1 _ IH2].
  - cbn. constructor.
  - cbn [mapM]. destruct (f x); cbn [mbind option_bind]; [| exact I].
    destruct (mapM f l), (mapM f l'); cbn [mbind option_bind mret option_ret];
      try exact IH. now constructor.
  - cbn [mapM]. destruct (f x), (f y); cbn [mbind option_bind]; try exact I;
      destruct (mapM f l); cbn [mbind option_bind mret option_ret]; try exact I.
    apply Permutation_swap.
  - destruct (mapM f l1), (mapM f l2), (mapM f l3); try contradiction; try exact I.
    etransitivity; eassumption.
Qed.

Section TypeVars.
Context {internal : Internal}.

(** Two attrs that differ at most in the order of their allowed values. *)
Definition same_up_to_order (a a' : AttrDef.t) : Prop :=
  AttrDef.name a = AttrDef.name a'
  /\ AttrDef.type a = AttrDef.type a'
  /\ AttrDef.allowed_values a ≡ₚ AttrDef.allowed_values a'.

Lemma sort_strings_Permutation (l l' : list string) :
  l ≡ₚ l' -> sort_strings l = sort_strings l'.
Proof.
  intros Hp. unfold sort_strings.
  apply (StronglySorted_unique string_le);
    [apply StronglySorted_merge_sort; apply _
    | apply StronglySorted_merge_sort; apply _ |].
  now rewrite !merge_sort_Permutation.
Qed.

Lemma GenerateTypeVars_loop_order (type_annotations : gmap string string)
    (attrs attrs' : list AttrDef.t) :
  Forall2 same_up_to_order attrs attrs' ->
  forall (added_typevar : bool) (g : Gen),
    GenerateTypeVars_loop type_annotations attrs added_typevar g
    = GenerateTypeVars_loop type_annotations attrs' added_typevar g.
Proof.
  induction 1 as [|a a' attrs attrs' (Hname & Htype & Hperm) _ IH];
    intros added_typevar g; [reflexivity |].
  cbn [GenerateTypeVars_loop]. rewrite <- Htype, <- Hname.
  destruct (String.eqb (AttrDef.type a) "type"); [| apply IH].
  pose proof (mapM_Permutation
                (fun t => dtype_type_at (DataTypeToPython t "_dtypes.")) _ _ Hperm)
    as Hmap.
  destruct (mapM _ (AttrDef.allowed_values a)) as [r|],
           (mapM _ (AttrDef.allowed_values a')) as [r'|];
    try contradiction; [| reflexivity].
  cbn [mbind option_bind]. cbv zeta.
  assert (Hsort :
            sort_strings (if decide (r = []) then snd <$> dtype_type else r)
            = sort_strings (if decide (r' = []) then snd <$> dtype_type else r')).
  { destruct (decide (r = [])) as [-> | Hr].
    - apply Permutation_nil_l in Hmap. subst r'. reflexivity.
    - destruct (decide (r' = [])) as [-> | Hr'].
      + apply Permutation_nil_r in Hmap. contradiction.
      + apply sort_strings_Permutation. exact Hmap. }
  rewrite Hsort.
  destruct (type_annotations !! AttrDef.name a); cbn [mbind option_bind];
    [apply IH | reflexivity].
Qed.

Lemma GenerateTypeVars_loop_result (type_annotations : gmap string string)
    (attrs : list AttrDef.t) :
  forall (added_typevar : bool) (g g' : Gen),
    result_ g' = result_ g ->
    (fun r : bool * Gen => (r.1, result_ r.2))
      <$> GenerateTypeVars_loop type_annotations attrs added_typevar g'
    = (fun r : bool * Gen => (r.1, result_ r.2))
        <$> GenerateTypeVars_loop type_annotations attrs added_typevar g.
Proof.
  induction attrs as [|a attrs IH]; intros added_typevar g g' Hres.
  - cbn. now rewrite Hres.
  - cbn [GenerateTypeVars_loop].
    destruct (String.eqb (AttrDef.type a) "type"); [| apply IH; exact Hres].
    destruct (mapM _ (AttrDef.allowed_values a)); [| reflexivity].
    cbn [mbind option_bind]. cbv zeta.
    destruct (type_annotations !! AttrDef.name a); [| reflexivity].
    cbn [mbind option_bind]. apply IH. rewrite !result_emit. now rewrite Hres.
Qed.

(** X16 - The TypeVar declarations do not depend on the order in which the
    schema lists the allowed values of a type attr: the allowed types are
    sorted before they are written, so two schemas that differ only in that
    order get the same declarations, and fail on the same inputs. *)
Theorem type_vars_ignore_the_order_of_allowed_values
    (type_annotations : gmap string string) (g g' : Gen) :
  Forall2 same_up_to_order (OpDef.attr (op_def_ g)) (OpDef.attr (op_def_ g')) ->
  result_ g' = result_ g ->
  result_ <$> GenerateTypeVars type_annotations g'
  = result_ <$> GenerateTypeVars type_annotations g.
Proof.
  intros Hattrs Hres. unfold GenerateTypeVars.
  rewrite <- (GenerateTypeVars_loop_order type_annotations _ _ Hattrs false g').
  pose proof (GenerateTypeVars_loop_result type_annotations
                (OpDef.attr (op_def_ g)) false g g' Hres) as Hloop.
  destruct (GenerateTypeVars_loop type_annotations _ false g') as [[b' x']|],
           (GenerateTypeVars_loop type_annotations _ false g) as [[b x]|];
    cbn [fmap option_fmap option_map fst snd] in Hloop; try discriminate;
    [| reflexivity].
  injection Hloop as -> Hx. cbn [mbind option_bind fmap option_fmap option_map].
  destruct b; rewrite ?result_emit, Hx; reflexivity.
Qed.

End TypeVars.

Lemma type_vars_ignore_the_order_example :
  result_
    <$> GenerateTypeVars (internal:=plain_internal) {["T" := "TV_Cast_T"]}
          (GenEagerPythonOp_new
             (OpDef.mk "Cast" [] [] [AttrDef.mk "T" "type" false [3; 1]] false)
             (api_with ApiDef.VISIBLE) "cast" true)
  = result_
      <$> GenerateTypeVars (internal:=plain_internal) {["T" := "TV_Cast_T"]}
            (GenEagerPythonOp_new
               (OpDef.mk "Cast" [] [] [AttrDef.mk "T" "type" false [1; 3]] false)
               (api_with ApiDef.VISIBLE) "cast" true).
Proof.
  apply (type_vars_ignore_the_order_of_allowed_values (internal:=plain_internal)).
  - constructor; [| constructor].
    repeat split. apply Permutation_swap.
  - reflexivity.
Defined.

(** ** The conversions of the fallback function *)

Section FallbackConversions.
Context {internal : Internal}.

(** The conversion written for the input at index [i]: none when its
    dtype is given by a type attr or a type-list attr. *)
Definition cast_line (g : Gen) (indentation : string) (i : nat) : string :=
  let arg := OpDef.input_arg (op_def_ g) !!! i in
  if negb (empty (ArgDef.type_attr arg)) || negb (empty (ArgDef.type_list_attr arg))
  then ""
  else
    let param := GetRenameTo (param_names_ g !!! i) in
    StrCat [indentation; param; " = _ops.convert_";
            if empty (ArgDef.number_attr arg) then "" else "n_"; "to_tensor(";
            param; ", "; DataTypeToPython (ArgDef.type arg) "_dtypes."; ")"; nl].

(** The body of the loop of [AddEagerInputCasts]. *)
Definition input_cast_step (indentation : string) (g : Gen) (i : nat) : Gen :=
  let arg := OpDef.input_arg (op_def_ g) !!! i in
  if negb (empty (ArgDef.type_attr arg))
     || negb (empty (ArgDef.type_list_attr arg)) then g
  else
    let param := GetRenameTo (param_names_ g !!! i) in
    let fn := if empty (ArgDef.number_attr arg) then "" else "n_" in
    let dtype := DataTypeToPython (ArgDef.type arg) "_dtypes." in
    emit [indentation; param; " = _ops.convert_"; fn; "to_tensor(";
          param; ", "; dtype; ")"; nl] g.

Lemma input_cast_step_text (indentation : string) (g : Gen) (i : nat) :
  input_cast_step indentation g i
  = with_result_ (result_ g +:+ cast_line g indentation i) g.
Proof.
  unfold input_cast_step, cast_line. cbv zeta.
  destruct (negb (empty (ArgDef.type_attr (OpDef.input_arg (op_def_ g) !!! i)))
            || negb (empty (ArgDef.type_list_attr
                              (OpDef.input_arg (op_def_ g) !!! i)))).
  - rewrite append_nil_r. symmetry. apply with_result_id.
  - reflexivity.
Qed.

Lemma AddEagerInputCasts_fold (indentation : string) (g0 : Gen) (l : list nat) :
  forall g : Gen,
    appends g0 g ->
    foldl (input_cast_step indentation) g l
    = with_result_ (result_ g +:+ StrCat (cast_line g0 indentation <$> l)) g.
Proof.
  induction l as [|i l IH]; intros g Hg.
  - cbn [foldl fmap list_fmap StrCat foldr]. rewrite append_nil_r.
    symmetry. apply with_result_id.
  - cbn [foldl fmap list_fmap].
    assert (Hline : cast_line g indentation i = cast_line g0 indentation i).
    { destruct Hg as [t ->]. reflexivity. }
    rewrite input_cast_step_text, Hline.
    rewrite IH by (eapply appends_trans; [exact Hg |]; eexists; reflexivity).
    unfold with_result_. cbn [op_def_ api_def_ function_name_ add_type_annotations_
      num_outs_ prelude_ result_ attrs_ param_names_ inferred_attrs_ op_name_
      attr_to_args_ attr_expressions_ params_no_default_ params_with_default_].
    f_equal. str_eq.
Qed.

(** X17 - [AddEagerInputCasts] writes, in schema order, one conversion for
    every input whose dtype is fixed by the schema and none for an input
    whose dtype is given by an attr; a list of tensors of one dtype is
    converted with [convert_n_to_tensor].  It changes nothing but the
    text. *)
Theorem input_casts_cover_the_fixed_dtype_inputs (indentation : string) (g : Gen) :
  AddEagerInputCasts indentation g
  = with_result_
      (result_ g
       +:+ StrCat (cast_line g indentation
                     <$> seq 0 (length (OpDef.input_arg (op_def_ g))))) g.
Proof.
  change (AddEagerInputCasts indentation g)
    with (foldl (input_cast_step indentation) g
            (seq 0 (length (OpDef.input_arg (op_def_ g))))).
  apply AddEagerInputCasts_fold, appends_refl.
Qed.

(** One attr of the tuple handed to the runtime: its name as a string
    literal, then the expression recorded for it. *)
Definition attr_pair (g : Gen) (attr : AttrDef.t) : string :=
  StrCat [dq; AttrDef.name attr; dq; ", ";
          at_or_empty (attr_expressions_ g) (AttrDef.name attr)].

(** The body of the loop of [AddEagerAttrs]. *)
Definition attr_values_step (g : Gen) (attr_values : string) (i : nat) : string :=
  let attr_values :=
    if 0 <? i then StrAppend attr_values [", "] else attr_values in
  let attr_name := AttrDef.name (OpDef.attr (op_def_ g) !!! i) in
  StrAppend attr_values
    [dq; attr_name; dq; ", "; at_or_empty (attr_expressions_ g) attr_name].

Lemma AddEagerAttrs_fold (g : Gen) (l : list AttrDef.t) :
  forall (pre : list AttrDef.t) (attr_values : string),
    OpDef.attr (op_def_ g) = pre ++ l ->
    foldl (attr_values_step g) attr_values (seq (length pre) (length l))
    = attr_values
      +:+ StrCat ((fun attr =>
                     (if decide (pre = []) then "" else ", ") +:+ attr_pair g attr)
                    <$> take 1 l)
      +:+ StrCat ((fun attr => ", " +:+ attr_pair g attr) <$> drop 1 l).
Proof.
  induction l as [|a l IH]; intros pre attr_values Hattrs.
  - cbn. now rewrite append_nil_r.
  - cbn [length seq foldl].
    replace (S (length pre)) with (length (pre ++ [a]))
      by (rewrite length_app; cbn [length]; lia).
    rewrite (IH (pre ++ [a])) by (rewrite <- app_assoc; exact Hattrs).
    unfold attr_values_step. cbv zeta.
    rewrite Hattrs, (list_lookup_total_middle pre l a (length pre) eq_refl).
    cbn [take drop fmap list_fmap].
    destruct (decide (pre ++ [a] = [])) as [Hnil | _];
      [destruct pre; discriminate |].
    unfold attr_pair.
    destruct pre as [|p pre]; cbn [length Nat.ltb Nat.leb];
      [rewrite decide_True by reflexivity | rewrite decide_False by discriminate];
      destruct l as [|b l]; cbn [take drop fmap list_fmap]; str_eq.
Qed.

(** X18 - The attr tuple of the fallback function.  An operation without attrs
    gets [_attrs = None].  Otherwise the tuple lists every attr of the
    schema in order, each as its quoted name followed by the expression
    recorded for it, and is handed to the formatter; an attr for which no
    expression was recorded is followed by nothing. *)
Theorem fallback_attrs_list_every_attr (indentation : string) (g : Gen) :
  AddEagerAttrs indentation g
  = match OpDef.attr (op_def_ g) with
    | [] => emit [indentation; "_attrs = None"; nl] g
    | attrs =>
        emit [WordWrap indentation
                (StrCat ["_attrs = ("; String.concat ", " (attr_pair g <$> attrs); ")"])
                kRightMargin; nl] g
    end.
Proof.
  assert (Heq : AddEagerAttrs indentation g
                = if 0 <? length (OpDef.attr (op_def_ g)) then
                    emit [WordWrap indentation
                            (StrCat ["_attrs = (";
                                     StrAppend
                                       (foldl (attr_values_step g) ""
                                          (seq 0 (length (OpDef.attr (op_def_ g)))))
                                       [")"]])
                            kRightMargin; nl] g
                  else emit [indentation; "_attrs = None"; nl] g)
    by reflexivity.
  rewrite Heq. clear Heq.
  pose proof (AddEagerAttrs_fold g (OpDef.attr (op_def_ g)) [] "" eq_refl) as Hfold.
  cbn [length] in Hfold. rewrite Hfold. clear Hfold.
  destruct (OpDef.attr (op_def_ g)) as [|a attrs]; [reflexivity |].
  cbn [length Nat.ltb Nat.leb take drop fmap list_fmap].
  rewrite decide_True by reflexivity.
  rewrite take_0, drop_0, concat_sep_cons, <- list_fmap_compose.
  do 3 f_equal. str_eq.
Qed.

End FallbackConversions.

(** ** The arguments of the fast-path call and of the fallback call *)

Section CallArguments.
Context {internal : Internal}.

(** The bodies of the two loops of [AddEagerFastPathExecute]. *)
Definition call_input_step (g : Gen) (st : string * string) (i : nat)
  : string * string :=
  let '(fastpath_execute_params, fallback_params) := st in
  let param_name := GetRenameTo (param_names_ g !!! i) in
  let fastpath_execute_params :=
    StrAppend fastpath_execute_params [", "; param_name] in
  let fallback_params :=
    if negb (empty fallback_params)
    then StrAppend fallback_params [", "] else fallback_params in
  (fastpath_execute_params, StrAppend fallback_params [param_name]).

Definition call_attr_step (g : Gen) (st : string * string) (attr : ApiDef.Attr)
  : string * string :=
  let '(fastpath_execute_params, fallback_params) := st in
  match inferred_attrs_ g !! ApiDef.attr_name attr with
  | None =>
      let fastpath_execute_params :=
        StrAppend fastpath_execute_params
          [", "; dq; ApiDef.attr_name attr; dq; ", ";
           ApiDef.attr_rename_to attr] in
      let fallback_params :=
        if negb (empty fallback_params)
        then StrAppend fallback_params [", "] else fallback_params in
      (fastpath_execute_params,
       StrAppend fallback_params
         [ApiDef.attr_rename_to attr; "="; ApiDef.attr_rename_to attr])
  | Some _ => st
  end.

Lemma fast_path_params_eq (g : Gen) :
  fast_path_params g
  = let '(fastpath_execute_params, fallback_params) :=
      foldl (call_attr_step g)
        (foldl (call_input_step g)
           (StrCat ["_ctx, "; dq; OpDef.name (op_def_ g); dq; ", "; "name"], "")
           (seq 0 (length (ApiDef.in_arg (api_def_ g)))))
        (ApiDef.attr (api_def_ g)) in
    (fastpath_execute_params,
     StrAppend (if negb (empty fallback_params) then StrAppend fallback_params [", "]
                else fallback_params) ["name=name"]).
Proof.
  unfold fast_path_params. cbv zeta.
  change (foldl _ (StrCat ["_ctx, "; dq; OpDef.name (op_def_ g); dq; ", "; "name"], "")
            (seq 0 (length (ApiDef.in_arg (api_def_ g)))))
    with (foldl (call_input_step g)
            (StrCat ["_ctx, "; dq; OpDef.name (op_def_ g); dq; ", "; "name"], "")
            (seq 0 (length (ApiDef.in_arg (api_def_ g))))).
  destruct (foldl (call_input_step g) _ _) as [fp fb].
  change (foldl _ (fp, fb) (ApiDef.attr (api_def_ g)))
    with (foldl (call_attr_step g) (fp, fb) (ApiDef.attr (api_def_ g))).
  destruct (foldl (call_attr_step g) _ _). reflexivity.
Qed.

(** An attr is passed in the calls when no input gives its value. *)
Definition is_passed (g : Gen) (attr : ApiDef.Attr) : bool :=
  match inferred_attrs_ g !! ApiDef.attr_name attr with
  | Some _ => false
  | None => true
  end.

Lemma call_input_fold (g : Gen) (l : list nat) :
  forall (fastpath_execute_params : string) (terms : list string),
    Forall (fun t => t <> "") terms ->
    Forall (fun i => GetRenameTo (param_names_ g !!! i) <> "") l ->
    foldl (call_input_step g) (fastpath_execute_params, String.concat ", " terms) l
    = (fastpath_execute_params
       +:+ StrCat ((fun i => ", " +:+ GetRenameTo (param_names_ g !!! i)) <$> l),
       String.concat ", "
         (terms ++ ((fun i => GetRenameTo (param_names_ g !!! i)) <$> l))).
Proof.
  induction l as [|i l IH]; intros fp terms Hterms Hl.
  - cbn [foldl fmap list_fmap StrCat foldr]. now rewrite append_nil_r, app_nil_r.
  - inversion Hl as [|i' l' Hi Hrest]; subst.
    cbn [foldl fmap list_fmap]. unfold call_input_step at 2. cbv zeta.
    rewrite (join_snoc ", " terms _ Hterms).
    rewrite IH; [| | exact Hrest].
    + rewrite <- app_assoc. f_equal. str_eq.
    + apply Forall_app. split; [exact Hterms |]. constructor; [exact Hi | constructor].
Qed.

Lemma call_attr_step_passed (g : Gen) (fp fb : string) (attr : ApiDef.Attr) :
  call_attr_step g (fp, fb) attr
  = if is_passed g attr then
      (StrAppend fp [", "; dq; ApiDef.attr_name attr; dq; ", ";
                     ApiDef.attr_rename_to attr],
       StrAppend (if negb (empty fb) then StrAppend fb [", "] else fb)
         [ApiDef.attr_rename_to attr; "="; ApiDef.attr_rename_to attr])
    else (fp, fb).
Proof.
  unfold call_attr_step, is_passed.
  destruct (inferred_attrs_ g !! ApiDef.attr_name attr); reflexivity.
Qed.

Lemma call_attr_fold (g : Gen) (l : list ApiDef.Attr) :
  forall (fastpath_execute_params : string) (terms : list string),
    Forall (fun t => t <> "") terms ->
    Forall (fun attr => ApiDef.attr_rename_to attr <> "") l ->
    foldl (call_attr_step g) (fastpath_execute_params, String.concat ", " terms) l
    = (fastpath_execute_params
       +:+ StrCat ((fun attr =>
                      StrCat [", "; dq; ApiDef.attr_name attr; dq; ", ";
                              ApiDef.attr_rename_to attr])
                     <$> filter (fun attr => is_passed g attr = true) l),
       String.concat ", "
         (terms
            ++ ((fun attr =>
                   ApiDef.attr_rename_to attr +:+ "=" +:+ ApiDef.attr_rename_to attr)
                  <$> filter (fun attr => is_passed g attr = true) l))).
Proof.
  induction l as [|attr l IH]; intros fp terms Hterms Hl.
  - cbn [foldl filter list_filter fmap list_fmap StrCat foldr].
    now rewrite append_nil_r, app_nil_r.
  - inversion Hl as [|a' l' Ha Hrest]; subst.
    cbn [foldl]. rewrite filter_cons, call_attr_step_passed.
    destruct (is_passed g attr).
    + rewrite decide_True by reflexivity.
      replace (StrAppend
                 (if negb (empty (String.concat ", " terms))
                  then StrAppend (String.concat ", " terms) [", "]
                  else String.concat ", " terms)
                 [ApiDef.attr_rename_to attr; "="; ApiDef.attr_rename_to attr])
        with (String.concat ", "
                (terms ++ [ApiDef.attr_rename_to attr +:+ "="
                           +:+ ApiDef.attr_rename_to attr]))
        by (rewrite <- (join_snoc ", " terms _ Hterms);
            destruct (empty (String.concat ", " terms)); cbn [negb]; str_eq).
      rewrite IH; [| | exact Hrest].
      * cbn [fmap list_fmap]. rewrite <- app_assoc. f_equal. str_eq.
      * apply Forall_app. split; [exact Hterms |].
        constructor; [apply append_nonempty_l; exact Ha | constructor].
    + rewrite decide_False by discriminate. apply IH; assumption.
Qed.

(** X19 - The arguments of the two calls written by [AddEagerFastPathExecute],
    when no parameter has an empty Python name.  The fast-path call gets the
    context, the quoted operation name and [name], then every input by
    position, then every attr that no input gives as its quoted name
    followed by its value.  The call of the fallback function gets the same
    inputs by position and the same attrs by keyword, then [name=name].  An
    attr inferred from the inputs appears in neither. *)
Theorem call_arguments (g : Gen) :
  Forall (fun i => GetRenameTo (param_names_ g !!! i) <> "")
         (seq 0 (length (ApiDef.in_arg (api_def_ g)))) ->
  Forall (fun attr => ApiDef.attr_rename_to attr <> "") (ApiDef.attr (api_def_ g)) ->
  fast_path_params g
  = (StrCat ["_ctx, "; dq; OpDef.name (op_def_ g); dq; ", "; "name"]
     +:+ StrCat ((fun i => ", " +:+ GetRenameTo (param_names_ g !!! i))
                   <$> seq 0 (length (ApiDef.in_arg (api_def_ g))))
     +:+ StrCat ((fun attr =>
                    StrCat [", "; dq; ApiDef.attr_name attr; dq; ", ";
                            ApiDef.attr_rename_to attr])
                   <$> filter (fun attr => is_passed g attr = true)
                         (ApiDef.attr (api_def_ g))),
     String.concat ", "
       (((fun i => GetRenameTo (param_names_ g !!! i))
           <$> seq 0 (length (ApiDef.in_arg (api_def_ g))))
          ++ ((fun attr =>
                 ApiDef.attr_rename_to attr +:+ "=" +:+ ApiDef.attr_rename_to attr)
                <$> filter (fun attr => is_passed g attr = true)
                      (ApiDef.attr (api_def_ g)))
          ++ ["name=name"])).
Proof.
  intros Hin Hattr. rewrite fast_path_params_eq.
  pose proof (call_input_fold g _
                (StrCat ["_ctx, "; dq; OpDef.name (op_def_ g); dq; ", "; "name"]) []
                (Forall_nil_2 _) Hin) as H1.
  cbn [String.concat app] in H1. rewrite H1. clear H1.
  assert (Hterms : Forall (fun t => t <> "")
                     ((fun i => GetRenameTo (param_names_ g !!! i))
                        <$> seq 0 (length (ApiDef.in_arg (api_def_ g))))).
  { apply Forall_fmap. exact Hin. }
  rewrite (call_attr_fold g _ _ _ Hterms Hattr).
  rewrite join_snoc, <- app_assoc, append_assoc; [reflexivity |].
  apply Forall_app. split; [exact Hterms |].
  apply Forall_fmap, Forall_forall. intros attr Hattr_in.
  apply list_elem_of_filter in Hattr_in as [_ Hattr_in].
  apply append_nonempty_l.
  rewrite Forall_forall in Hattr. apply Hattr. exact Hattr_in.
Qed.

End CallArguments.

Lemma call_arguments_clip :
  fast_path_params (prepared (internal:=plain_internal) clip_op clip_api "clip")
  = (StrCat ["_ctx, "; dq; "Clip"; dq; ", name, x, "; dq; "hi"; dq; ", hi, ";
             dq; "lo"; dq; ", lo"],
     "x, hi=hi, lo=lo, name=name").
Proof.
  rewrite call_arguments.
  - vm_compute. reflexivity.
  - vm_compute. repeat constructor; discriminate.
  - vm_compute. repeat constructor; discriminate.
Defined.

(** ** Operations that are not visible *)

Section Hidden.
Context {internal : Internal}.

Lemma AddFallbackDispatch_hidden (prefix : string) (g : Gen) :
  visible g = false -> AddFallbackDispatch prefix g = g.
Proof. intros Hvis. unfold AddFallbackDispatch. now rewrite Hvis. Qed.

Lemma AddTypeBasedDispatch_hidden (prefix : string) (g : Gen) :
  visible g = false -> AddTypeBasedDispatch prefix g = g.
Proof. intros Hvis. unfold AddTypeBasedDispatch. now rewrite Hvis. Qed.

Lemma fallback_params_nonempty (g : Gen) : empty (fast_path_params g).2 = false.
Proof.
  rewrite fast_path_params_eq.
  destruct (foldl (call_attr_step g) _ _) as [fp fb]. cbn [snd].
  unfold StrAppend. rewrite empty_append.
  destruct (empty _); reflexivity.
Qed.

(** X20 - An operation that is not visible gets no dispatch code.  The three
    dispatch emitters leave the generator as it is, and the fast path is
    exactly the call of the runtime, the optional wrapping in the named
    tuple, the [return], the two handlers, and the call of the fallback
    function with [ctx=_ctx] added to its arguments. *)
Theorem hidden_operation_has_no_dispatch (prefix : string) (g : Gen) :
  visible g = false ->
  AddFallbackDispatch prefix g = g
  /\ AddTypeBasedDispatch prefix g = g
  /\ AddTypeBasedDispatcherAlias g = g
  /\ result_ (AddEagerFastPathExecute g)
     = result_ g
       +:+ StrCat ["    try:"; nl;
                   "      _result = pywrap_tfe.TFE_Py_FastPathExecute("; nl;
                   WordWrap "        " (StrCat [(fast_path_params g).1; ")"])
                     kRightMargin; nl]
       +:+ (if 1 <? length (OpDef.output_arg (op_def_ g))
            then named_tuple_line "      " g else "")
       +:+ StrCat ["      return _result"; nl;
                   "    except _core._NotOkStatusException as e:"; nl;
                   "      _ops.raise_from_not_ok_status(e, name)"; nl;
                   "    except _core._FallbackException:"; nl;
                   "      pass"; nl;
                   "    try:"; nl;
                   "      return "; function_name_ g; kEagerFallbackSuffix; "("; nl;
                   WordWrap "          "
                     (StrCat [(fast_path_params g).2; ", "; "ctx=_ctx"; ")"])
                     kRightMargin; nl;
                   "    except _core._SymbolicException:"; nl;
                   "      pass  # Add nodes to the TensorFlow graph."; nl].
Proof.
  intros Hvis.
  split; [apply AddFallbackDispatch_hidden; exact Hvis |].
  split; [apply AddTypeBasedDispatch_hidden; exact Hvis |].
  split; [unfold AddTypeBasedDispatcherAlias; now rewrite Hvis |].
  pose proof (fallback_params_nonempty g) as Hne.
  unfold AddEagerFastPathExecute.
  destruct (fast_path_params g) as [fastpath_execute_params fallback_params].
  cbn [fst snd] in *. unfold fast_path_handlers. rewrite Hne. cbn [negb]. cbv zeta.
  rewrite AddFallbackDispatch_hidden
    by (match goal with
        | |- visible ?x = false =>
            rewrite (appends_visible g x); [exact Hvis | appends_all]
        end).
  rewrite result_emit, result_emit, result_emit.
  rewrite AddTypeBasedDispatch_hidden
    by (match goal with
        | |- visible ?x = false =>
            rewrite (appends_visible g x); [exact Hvis | appends_all]
        end).
  rewrite !result_emit.
  cbn [function_name_ op_def_ emit with_result_].
  destruct (1 <? length (OpDef.output_arg (op_def_ g)));
    rewrite ?result_emit; unfold named_tuple_line;
    cbn [function_name_ op_def_ result_ emit with_result_]; str_eq.
Qed.

End Hidden.

Lemma unpack_has_no_dispatch :
  AddTypeBasedDispatcherAlias
    (prepared (internal:=plain_internal) unpack_op unpack_api "unpack")
  = prepared (internal:=plain_internal) unpack_op unpack_api "unpack".
Proof.
  destruct (hidden_operation_has_no_dispatch (internal:=plain_internal) ""
              (prepared (internal:=plain_internal) unpack_op unpack_api "unpack"))
    as (_ & _ & Halias & _).
  - vm_compute. reflexivity.
  - exact Halias.
Defined.

Lemma defaults_belong_to_their_parameters_clip :
  param_names_
    (Code_setup (internal:=plain_internal)
       (GenEagerPythonOp_new clip_op clip_api "clip" false)) !! 2
  = Some {| GetName := "hi"; GetRenameTo := "hi" |}.
Proof.
  destruct (defaults_belong_to_their_parameters (internal:=plain_internal)
              clip_op clip_api "clip" false 0
              {| GetName := "hi"; GetRenameTo := "hi" |} "1.0")
    as (_ & Hparam & _).
  - reflexivity.
  - vm_compute. reflexivity.
  - vm_compute in Hparam. vm_compute. exact Hparam.
Defined.

(** ** The attr tuple recorded in graph mode *)

Section GraphAttrs.
Context {internal : Internal}.

(** The getter graph mode uses for an attr of the given kind. *)
Definition attr_getter (attr_type : string) : string :=
  if String.eqb attr_type "type" then "_op._get_attr_type("
  else if String.eqb attr_type "bool" then "_op._get_attr_bool("
  else if String.eqb attr_type "int" then "_op._get_attr_int("
  else "_op.get_attr(".

Definition graph_attr_pair (attr : AttrDef.t) : string :=
  StrCat [dq; AttrDef.name attr; dq; ", "; attr_getter (AttrDef.type attr);
          dq; AttrDef.name attr; dq; ")"].

(** The body of the loop of [HandleGraphMode] that builds the tuple. *)
Definition graph_attr_step (g : Gen) (attr_values : string) (i : nat) : string :=
  let attr_values :=
    if 0 <? i then StrAppend attr_values [", "] else attr_values in
  let attr := OpDef.attr (op_def_ g) !!! i in
  let attr_name := AttrDef.name attr in
  if String.eqb (AttrDef.type attr) "type" then
    StrAppend attr_values
      [dq; attr_name; dq; ", _op._get_attr_type("; dq; attr_name; dq; ")"]
  else if String.eqb (AttrDef.type attr) "bool" then
    StrAppend attr_values
      [dq; attr_name; dq; ", _op._get_attr_bool("; dq; attr_name; dq; ")"]
  else if String.eqb (AttrDef.type attr) "int" then
    StrAppend attr_values
      [dq; attr_name; dq; ", _op._get_attr_int("; dq; attr_name; dq; ")"]
  else
    StrAppend attr_values
      [dq; attr_name; dq; ", _op.get_attr("; dq; attr_name; dq; ")"].

Lemma graph_attr_fold (g : Gen) (l : list AttrDef.t) :
  forall (pre : list AttrDef.t) (attr_values : string),
    OpDef.attr (op_def_ g) = pre ++ l ->
    foldl (graph_attr_step g) attr_values (seq (length pre) (length l))
    = attr_values
      +:+ StrCat ((fun attr =>
                     (if decide (pre = []) then "" else ", ") +:+ graph_attr_pair attr)
                    <$> take 1 l)
      +:+ StrCat ((fun attr => ", " +:+ graph_attr_pair attr) <$> drop 1 l).
Proof.
  induction l as [|a l IH]; intros pre attr_values Hattrs.
  - cbn. now rewrite append_nil_r.
  - cbn [length seq foldl].
    replace (S (length pre)) with (length (pre ++ [a]))
      by (rewrite length_app; cbn [length]; lia).
    rewrite (IH (pre ++ [a])) by (rewrite <- app_assoc; exact Hattrs).
    unfold graph_attr_step. cbv zeta.
    rewrite Hattrs, (list_lookup_total_middle pre l a (length pre) eq_refl).
    cbn [take drop fmap list_fmap].
    destruct (decide (pre ++ [a] = [])) as [Hnil | _];
      [destruct pre; discriminate |].
    unfold graph_attr_pair, attr_getter.
    destruct pre as [|p pre]; cbn [length Nat.ltb Nat.leb];
      [rewrite decide_True by reflexivity | rewrite decide_False by discriminate];
      destruct (String.eqb (AttrDef.type a) "type");
      [| destruct (String.eqb (AttrDef.type a) "bool");
         [| destruct (String.eqb (AttrDef.type a) "int")]
       | | destruct (String.eqb (AttrDef.type a) "bool");
         [| destruct (String.eqb (AttrDef.type a) "int")]];
      destruct l as [|b l]; cbn [take drop fmap list_fmap]; str_eq.
Qed.

(** X21 - The attr values recorded for the gradient in graph mode list every
    attr of the schema in order, each as its quoted name followed by a read
    of the attr from the node: with the typed getter for the kinds [type],
    [bool] and [int], with [get_attr] for every other kind. *)
Theorem graph_attrs_read_every_attr (g : Gen) :
  graph_attr_values g
  = String.concat ", " (graph_attr_pair <$> OpDef.attr (op_def_ g)) +:+ ")".
Proof.
  assert (Heq : graph_attr_values g
                = StrAppend
                    (foldl (graph_attr_step g) ""
                       (seq 0 (length (OpDef.attr (op_def_ g))))) [")"])
    by reflexivity.
  rewrite Heq. clear Heq.
  pose proof (graph_attr_fold g (OpDef.attr (op_def_ g)) [] "" eq_refl) as Hfold.
  cbn [length] in Hfold. rewrite Hfold. clear Hfold.
  destruct (OpDef.attr (op_def_ g)) as [|a attrs]; [reflexivity |].
  cbn [take drop fmap list_fmap].
  rewrite decide_True by reflexivity.
  rewrite take_0, drop_0, concat_sep_cons, <- list_fmap_compose. str_eq.
Qed.

End GraphAttrs.

(** ** The annotations of tensors *)

Section TensorAnnotations.
Context {internal : Internal}.

(** The two loops of [GetTypeAnnotations]. *)
Definition annotate_attr (g : Gen) (m : gmap string string) (attr : AttrDef.t)
  : gmap string string :=
  let ty := AttrDef.type attr in
  if String.eqb ty "type" then
    <[AttrDef.name attr :=
        "TV_" +:+ OpDef.name (op_def_ g) +:+ "_" +:+ AttrDef.name attr]> m
  else if String.eqb ty "bool" || String.eqb ty "float"
          || String.eqb ty "int" || String.eqb ty "bytes" then
    <[AttrDef.name attr := ty]> m
  else if String.eqb ty "string" then
    <[AttrDef.name attr := "str"]> m
  else m.

Definition annotate_input (om : option (gmap string string)) (arg : ArgDef.t)
  : option (gmap string string) :=
  m ← om;
  if negb (empty (ArgDef.number_attr arg))
     || negb (empty (ArgDef.type_list_attr arg)) then Some m
  else
    a ← GetArgAnnotation arg m;
    Some (<[ArgDef.name arg := a]> m).

Lemma GetTypeAnnotations_eq (g : Gen) :
  GetTypeAnnotations g
  = type_annotations ←
      foldl annotate_input
        (Some (foldl (annotate_attr g) ∅ (OpDef.attr (op_def_ g))))
        (OpDef.input_arg (op_def_ g));
    match OpDef.output_arg (op_def_ g) with
    | [arg] =>
        if empty (ArgDef.number_attr arg) && empty (ArgDef.type_list_attr arg) then
          a ← GetArgAnnotation arg type_annotations;
          Some (<[ArgDef.name arg := a]> type_annotations)
        else Some type_annotations
    | _ => Some type_annotations
    end.
Proof. reflexivity. Qed.

(** An annotation of the form [_ops.Tensor[...]]. *)
Definition tensor_annotation (o : option string) : Prop :=
  exists x, o = Some ("_ops.Tensor[" +:+ x +:+ "]").

Lemma GetArgAnnotation_tensor (arg : ArgDef.t) (m : gmap string string) (a : string) :
  GetArgAnnotation arg m = Some a -> tensor_annotation (Some a).
Proof.
  unfold GetArgAnnotation. intros Ha.
  destruct (negb (empty (ArgDef.type_attr arg))).
  - destruct (m !! ArgDef.type_attr arg) as [tv|]; [| discriminate].
    injection Ha as <-. exists tv. reflexivity.
  - cbv zeta in Ha.
    destruct (dtype_type_at _) as [d|]; [| discriminate].
    injection Ha as <-. exists d. reflexivity.
Qed.

Lemma annotate_input_none (l : list ArgDef.t) : foldl annotate_input None l = None.
Proof. induction l as [|a l IH]; [reflexivity | exact IH]. Qed.

Lemma is_list_arg_tests (arg : ArgDef.t) :
  (negb (empty (ArgDef.number_attr arg)) || negb (empty (ArgDef.type_list_attr arg)))
  = is_list_arg arg
  /\ (empty (ArgDef.number_attr arg) && empty (ArgDef.type_list_attr arg))
     = negb (is_list_arg arg).
Proof.
  unfold is_list_arg.
  destruct (empty (ArgDef.number_attr arg)), (empty (ArgDef.type_list_attr arg));
    split; reflexivity.
Qed.

Lemma insert_keeps_tensor (m : gmap string string) (k a n : string) :
  tensor_annotation (Some a) -> tensor_annotation (m !! n) ->
  tensor_annotation (<[k := a]> m !! n).
Proof.
  intros Ha Hn. rewrite lookup_insert.
  destruct (decide (k = n)); assumption.
Qed.

Lemma annotate_input_fold (l : list ArgDef.t) :
  forall (m0 m : gmap string string) (done : list ArgDef.t),
    (forall arg, arg ∈ done -> is_list_arg arg = false ->
                 tensor_annotation (m0 !! ArgDef.name arg)) ->
    foldl annotate_input (Some m0) l = Some m ->
    forall arg, arg ∈ done ++ l -> is_list_arg arg = false ->
                tensor_annotation (m !! ArgDef.name arg).
Proof.
  induction l as [|a l IH]; intros m0 m done Hdone Hfold.
  - cbn [foldl] in Hfold. injection Hfold as <-. now rewrite app_nil_r.
  - cbn [foldl] in Hfold. unfold annotate_input at 2 in Hfold.
    cbn [mbind option_bind] in Hfold.
    destruct (is_list_arg_tests a) as [Htest _]. rewrite Htest in Hfold.
    replace (done ++ a :: l) with ((done ++ [a]) ++ l)
      by (rewrite <- app_assoc; reflexivity).
    destruct (is_list_arg a) eqn:Ha.
    + apply (IH m0 m (done ++ [a])); [| exact Hfold].
      intros arg Harg Hlist. apply elem_of_app in Harg as [Harg | Harg].
      * apply Hdone; assumption.
      * apply list_elem_of_singleton in Harg. subst arg. congruence.
    + destruct (GetArgAnnotation a m0) as [ann|] eqn:Hann;
        cbn [mbind option_bind] in Hfold;
        [| rewrite annotate_input_none in Hfold; discriminate].
      apply (IH (<[ArgDef.name a := ann]> m0) m (done ++ [a])); [| exact Hfold].
      intros arg Harg Hlist. apply elem_of_app in Harg as [Harg | Harg].
      * apply insert_keeps_tensor;
          [exact (GetArgAnnotation_tensor _ _ _ Hann) | apply Hdone; assumption].
      * apply list_elem_of_singleton in Harg. subst arg.
        rewrite lookup_insert_eq. exact (GetArgAnnotation_tensor _ _ _ Hann).
Qed.

(** X22 - In the annotations computed by [GetTypeAnnotations], every input that
    is a single tensor and a single output that is a single tensor are
    annotated as [_ops.Tensor[...]]; list arguments get no annotation of
    their own. *)
Theorem single_tensors_are_annotated (g : Gen) (type_annotations : gmap string string) :
  GetTypeAnnotations g = Some type_annotations ->
  (forall arg, arg ∈ OpDef.input_arg (op_def_ g) -> is_list_arg arg = false ->
               tensor_annotation (type_annotations !! ArgDef.name arg))
  /\ (forall arg, OpDef.output_arg (op_def_ g) = [arg] -> is_list_arg arg = false ->
                  tensor_annotation (type_annotations !! ArgDef.name arg)).
Proof.
  rewrite GetTypeAnnotations_eq. intros Hta.
  destruct (foldl annotate_input _ (OpDef.input_arg (op_def_ g))) as [m|] eqn:Hfold;
    cbn [mbind option_bind] in Hta; [| discriminate].
  pose proof (annotate_input_fold _ _ _ [] ltac:(intros arg Harg; inversion Harg) Hfold)
    as Hinputs.
  cbn [app] in Hinputs.
  destruct (OpDef.output_arg (op_def_ g)) as [|out [|b l]].
  - injection Hta as <-. split; [exact Hinputs | intros arg Hout; discriminate].
  - destruct (is_list_arg_tests out) as [_ Htest]. rewrite Htest in Hta.
    destruct (is_list_arg out) eqn:Hout; cbn [negb] in Hta.
    + injection Hta as <-. split; [exact Hinputs |].
      intros arg Harg Hlist. injection Harg as <-. congruence.
    + destruct (GetArgAnnotation out m) as [ann|] eqn:Hann;
        cbn [mbind option_bind] in Hta; [| discriminate].
      injection Hta as <-. split.
      * intros arg Harg Hlist. apply insert_keeps_tensor;
          [exact (GetArgAnnotation_tensor _ _ _ Hann) | apply Hinputs; assumption].
      * intros arg Harg _. injection Harg as <-.
        rewrite lookup_insert_eq. exact (GetArgAnnotation_tensor _ _ _ Hann).
  - injection Hta as <-. split; [exact Hinputs | intros arg Hout; discriminate].
Qed.

End TensorAnnotations.

Lemma single_tensors_are_annotated_add :
  exists type_annotations,
    GetTypeAnnotations (internal:=plain_internal)
      (GenEagerPythonOp_new add_op add_api "add" true) = Some type_annotations
    /\ tensor_annotation (type_annotations !! "x").
Proof.
  destruct (GetTypeAnnotations (internal:=plain_internal)
              (GenEagerPythonOp_new add_op add_api "add" true))
    as [type_annotations|] eqn:Hta; [| vm_compute in Hta; discriminate].
  exists type_annotations. split; [reflexivity |].
  destruct (single_tensors_are_annotated (internal:=plain_internal) _ _ Hta)
    as [Hinputs _].
  apply (Hinputs (ArgDef.mk "x" 0 "T" "" "" false)); [| reflexivity].
  apply list_elem_of_here.
Defined.

(** ** The inferred type attrs of the fallback function *)

Section InferredTypeAttrs.
Context {internal : Internal}.

(** The attr at index [i] is inferred from inputs and is a type or a list
    of types. *)
Definition infers_type (g : Gen) (i : nat) : bool :=
  match attr_to_args_ g !! AttrDef.name (OpDef.attr (op_def_ g) !!! i) with
  | Some _ =>
      String.eqb (AttrDef.type (OpDef.attr (op_def_ g) !!! i)) "type"
      || String.eqb (AttrDef.type (OpDef.attr (op_def_ g) !!! i)) "list(type)"
  | None => false
  end.

Lemma AddEagerInferredAttrs_step_spec (indentation : string) (g : Gen) (i : nat) :
  keeps g (AddEagerInferredAttrs_step indentation g i)
  /\ (exists t, result_ (AddEagerInferredAttrs_step indentation g i) = result_ g +:+ t)
  /\ attr_expressions_ (AddEagerInferredAttrs_step indentation g i)
     = (if infers_type g i
        then <[AttrDef.name (OpDef.attr (op_def_ g) !!! i)
               := StrCat ["_attr_"; AttrDef.name (OpDef.attr (op_def_ g) !!! i)]]>
               (attr_expressions_ g)
        else attr_expressions_ g)
  /\ (infers_type g i = false -> AddEagerInferredAttrs_step indentation g i = g).
Proof.
  unfold AddEagerInferredAttrs_step, infers_type. cbv zeta.
  destruct (attr_to_args_ g !! AttrDef.name (OpDef.attr (op_def_ g) !!! i))
    as [arg_list|].
  2: { repeat split; [exists ""; now rewrite append_nil_r]. }
  destruct (String.eqb (AttrDef.type (OpDef.attr (op_def_ g) !!! i)) "type").
  - cbn [orb].
    destruct (FlattenInputs g (Some arg_list)) as [flattened output_sizes].
    unfold AttrVarName. cbn [fmap option_fmap option_map default from_option id].
    destruct (length output_sizes =? 1);
      [destruct (empty (output_sizes !!! 0)) |];
      (split; [reflexivity |]); (split; [| split; [reflexivity | discriminate]]).
    + eexists. unfold emit. cbn [result_ with_result_ with_attr_expressions_].
      reflexivity.
    + eexists. unfold emit. cbn [result_ with_result_ with_attr_expressions_].
      reflexivity.
    + eexists. rewrite result_emit. cbn [result_ with_result_].
      rewrite Unflatten_append, result_emit.
      cbn [result_ with_attr_expressions_].
      rewrite !append_assoc. reflexivity.
  - cbn [orb].
    destruct (String.eqb (AttrDef.type (OpDef.attr (op_def_ g) !!! i)) "list(type)").
    + unfold AttrVarName. cbn [fmap option_fmap option_map default from_option id].
      destruct (1 <? length arg_list);
        (split; [reflexivity |]); (split; [| split; [reflexivity | discriminate]]);
        eexists; unfold emit; cbn [result_ with_result_ with_attr_expressions_];
        reflexivity.
    + repeat split. exists "". now rewrite append_nil_r.
Qed.

Lemma AddEagerInferredAttrs_fold (indentation : string) (g0 : Gen) (l : list nat) :
  forall g : Gen,
    keeps g0 g ->
    keeps g0 (foldl (AddEagerInferredAttrs_step indentation) g l)
    /\ (exists t,
          result_ (foldl (AddEagerInferredAttrs_step indentation) g l)
          = result_ g +:+ t)
    /\ (forall k,
          attr_expressions_ g !! k = Some (StrCat ["_attr_"; k])
          \/ (exists i, i ∈ l /\ infers_type g0 i = true
                        /\ AttrDef.name (OpDef.attr (op_def_ g0) !!! i) = k) ->
          attr_expressions_ (foldl (AddEagerInferredAttrs_step indentation) g l) !! k
          = Some (StrCat ["_attr_"; k]))
    /\ (Forall (fun i => infers_type g0 i = false) l ->
        foldl (AddEagerInferredAttrs_step indentation) g l = g).
Proof.
  induction l as [|i l IH]; intros g Hk.
  - cbn [foldl]. split; [exact Hk |]. split; [exists ""; now rewrite append_nil_r |].
    split; [| reflexivity].
    intros k [Hbound | (i & Hi & _)]; [exact Hbound | inversion Hi].
  - cbn [foldl].
    destruct (AddEagerInferredAttrs_step_spec indentation g i)
      as (Hks & [t Ht] & Hae & Hsame).
    assert (Hinf : infers_type g i = infers_type g0 i).
    { unfold infers_type, keeps, plan in *. 
      injection Hk as Hop _ _ _ _ _ _ _ _ Hat _ _. now rewrite Hop, Hat. }
    assert (Hop : op_def_ g = op_def_ g0)
      by (destruct (keeps_fields g0 g Hk) as (Hop & _); exact Hop).
    destruct (IH (AddEagerInferredAttrs_step indentation g i)
                (keeps_trans _ _ _ Hk Hks)) as (IHk & [t' Ht'] & IHae & IHsame).
    split; [exact IHk |]. split; [| split].
    + exists (t +:+ t'). rewrite Ht', Ht. now rewrite append_assoc.
    + intros k Hbound. apply IHae. rewrite Hae, Hinf, Hop.
      destruct Hbound as [Hbound | (j & Hj & Hjt & Hjk)].
      * left. destruct (infers_type g0 i); [| exact Hbound].
        rewrite lookup_insert.
        destruct (decide (AttrDef.name (OpDef.attr (op_def_ g0) !!! i) = k)) as [<- |];
          [reflexivity | exact Hbound].
      * apply elem_of_cons in Hj as [-> | Hj].
        -- left. rewrite Hjt, Hjk. apply lookup_insert_eq.
        -- right. exists j. repeat split; assumption.
    + intros Hall. inversion Hall as [|i' l' Hi Hrest]; subst.
      assert (Hs : AddEagerInferredAttrs_step indentation g i = g)
        by (apply Hsame; rewrite Hinf; exact Hi).
      rewrite Hs in IHsame |- *. apply IHsame. exact Hrest.
Qed.

(** X23 - [AddEagerInferredAttrs] leaves the plan of the generator as it is and
    only appends text.  Every attr of the schema that is inferred from inputs
    and whose kind is [type] or [list(type)] is bound to its variable
    [_attr_<name>] afterwards; and when the schema has no such attr the
    generator is unchanged. *)
Theorem inferred_type_attrs_get_their_variable (indentation : string) (g : Gen) :
  keeps g (AddEagerInferredAttrs indentation g)
  /\ (exists t, result_ (AddEagerInferredAttrs indentation g) = result_ g +:+ t)
  /\ (forall i,
        i < length (OpDef.attr (op_def_ g)) -> infers_type g i = true ->
        attr_expressions_ (AddEagerInferredAttrs indentation g)
          !! AttrDef.name (OpDef.attr (op_def_ g) !!! i)
        = Some (StrCat ["_attr_"; AttrDef.name (OpDef.attr (op_def_ g) !!! i)]))
  /\ ((forall i, i < length (OpDef.attr (op_def_ g)) -> infers_type g i = false) ->
      AddEagerInferredAttrs indentation g = g).
Proof.
  unfold AddEagerInferredAttrs.
  destruct (AddEagerInferredAttrs_fold indentation g
              (seq 0 (length (OpDef.attr (op_def_ g)))) g (keeps_refl g))
    as (Hk & Ht & Hae & Hsame).
  split; [exact Hk |]. split; [exact Ht |]. split.
  - intros i Hi Hinf. apply Hae. right. exists i.
    split; [apply list_elem_of_In, in_seq; lia |]. split; [exact Hinf | reflexivity].
  - intros Hall. apply Hsame, Forall_forall. intros i Hi.
    apply list_elem_of_In, in_seq in Hi. apply Hall. lia.
Qed.

End InferredTypeAttrs.

Lemma add_type_attr_gets_its_variable :
  attr_expressions_
    (AddEagerInferredAttrs (internal:=plain_internal) "  "
       (prepared (internal:=plain_internal) add_op add_api "add")) !! "T"
  = Some "_attr_T".
Proof.
  destruct (inferred_type_attrs_get_their_variable (internal:=plain_internal) "  "
              (prepared (internal:=plain_internal) add_op add_api "add"))
    as (_ & _ & Hbound & _).
  apply (Hbound 0).
  - vm_compute. lia.
  - vm_compute. reflexivity.
Defined.

(** ** The statements written for the attr parameters *)

Section AttrSetup.
Context {internal : Internal}.

(** The assignment of the default value of the attr at index [i], when it
    has one. *)
Definition default_assignment (g : Gen) (indentation : string) (i : nat)
    (attr_api_name : string) : string :=
  let default_index :=
    (Z.of_nat i - (Z.of_nat (length (attrs_ g))
                   - Z.of_nat (length (params_with_default_ g))))%Z in
  if (0 <=? default_index)%Z then
    StrCat [indentation; "if "; attr_api_name; " is None:"; nl;
            indentation; "  "; attr_api_name; " = ";
            snd (params_with_default_ g !!! Z.to_nat default_index); nl]
  else "".

(** The statements for the attr at index [i]. *)
Definition attr_setup_text (g : Gen) (indentation : string) (i : nat)
    (attr_name : string) : string :=
  let attr_api_name :=
    GetRenameTo (param_names_ g !!! (i + length (OpDef.input_arg (op_def_ g)))) in
  let attr_type := AttrDef.type (FindAttr attr_name (op_def_ g)) in
  default_assignment g indentation i attr_api_name
  +:+ (if StartsWith attr_type "list("
       then ExpectListArg g indentation attr_api_name "" else "")
  +:+ default "" (convert_attr indentation attr_api_name attr_type "").

Lemma convert_attr_append (indentation attr_api_name attr_type : string)
    (function_setup function_setup' : string) :
  convert_attr indentation attr_api_name attr_type function_setup
  = Some function_setup' ->
  function_setup'
  = function_setup
    +:+ default "" (convert_attr indentation attr_api_name attr_type "").
Proof.
  unfold convert_attr.
  repeat (destruct (String.eqb attr_type _);
          [intros H; injection H as <-; cbn [default from_option id]; str_eq |]).
  destruct (negb _ && negb _); [discriminate |].
  intros H. injection H as <-. cbn [default from_option id]. now rewrite append_nil_r.
Qed.

Lemma convert_attrs_text (indentation : string) (g0 : Gen) (attrs : list string) :
  forall (i : nat) (function_setup : string) (g : Gen),
    only_attr_expressions g0 g ->
    Forall (fun n => accepted_kind (attr_kind g0 n) = true) attrs ->
    (convert_attrs indentation i attrs function_setup g).1
    = (true,
       function_setup
       +:+ StrCat (zip_with (attr_setup_text g0 indentation)
                     (seq i (length attrs)) attrs)).
Proof.
  induction attrs as [|n attrs IH]; intros i function_setup g Hg Hattrs.
  - cbn. now rewrite append_nil_r.
  - inversion Hattrs as [|n' attrs' Hn Hrest]; subst.
    assert (Htext : forall j m, attr_setup_text g indentation j m
                                = attr_setup_text g0 indentation j m)
      by (intros j m; rewrite Hg; reflexivity).
    assert (Hkind : attr_kind g n = attr_kind g0 n) by (rewrite Hg; reflexivity).
    cbn [convert_attrs length seq zip_with]. cbv zeta.
    match goal with
    | |- context [convert_attr ?x ?y ?z ?w] =>
        destruct (convert_attr x y z w) as [fs|] eqn:Hc
    end.
    + apply convert_attr_append in Hc.
      rewrite (IH (S i) fs _
                 (only_attr_expressions_step _ g0 g Hg) Hrest).
      f_equal. rewrite Hc, <- Htext. unfold attr_setup_text, default_assignment.
      cbn [attrs_ params_with_default_ param_names_ op_def_ with_attr_expressions_].
      change (StrCat (?a :: ?l)) with (a +:+ StrCat l).
      destruct (0 <=? _)%Z; destruct (StartsWith _ "list(");
        rewrite ?(ExpectListArg_append _ _ _ (StrAppend _ _)),
          ?(ExpectListArg_append _ _ _ function_setup);
        str_eq.
    + exfalso. rewrite <- Hkind in Hn.
      match type of Hc with
      | convert_attr ?x ?y ?z ?w = None =>
          destruct (proj2 (convert_attr_accepts x y z w) Hn) as [fs' Hfs]
      end.
      congruence.
Qed.

(** X24 - The statements [GetEagerFunctionSetup] writes when every attr
    parameter has an accepted kind: after the validation of the list
    inputs, one group per attr parameter in the order of the signature,
    holding the assignment of the default value when the parameter has one,
    then the list check when the kind is a list kind, then the conversion
    for the kind (none for [func] and [list(func)]). *)
Theorem setup_writes_default_check_conversion (indentation function_setup : string)
    (g : Gen) :
  Forall (fun n => accepted_kind (attr_kind g n) = true) (attrs_ g) ->
  (GetEagerFunctionSetup indentation function_setup g).1
  = (true,
     (validate_list_inputs indentation function_setup g).1
     +:+ StrCat (zip_with (attr_setup_text g indentation)
                   (seq 0 (length (attrs_ g))) (attrs_ g))).
Proof.
  intros Hattrs. unfold GetEagerFunctionSetup.
  pose proof (validate_list_inputs_frame indentation function_setup g) as Hv.
  destruct (validate_list_inputs indentation function_setup g) as [fs g1].
  cbn [fst snd] in *.
  assert (Hat : attrs_ g1 = attrs_ g) by (rewrite Hv; reflexivity).
  rewrite Hat. apply convert_attrs_text; assumption.
Qed.

End AttrSetup.

Lemma setup_of_clip :
  (GetEagerFunctionSetup "  " ""
     (prepared (internal:=plain_internal) clip_op clip_api "clip")).1
  = (true,
     StrCat ["  lo = _execute.make_float(lo, "; dq; "lo"; dq; ")"; nl;
             "  if hi is None:"; nl;
             "    hi = 1.0"; nl;
             "  hi = _execute.make_float(hi, "; dq; "hi"; dq; ")"; nl]).
Proof.
  rewrite setup_writes_default_check_conversion.
  - vm_compute. reflexivity.
  - vm_compute. repeat constructor.
Defined.

(** ** The order of the fallback body *)

Section FallbackOrder.
Context {internal : Internal}.







End FallbackOrder.
